(** * pipelines-as-code: GitHub status reconciliation

    A shallow embedding of [pkg/provider/github/status.go] and the
    properties of its check-run / commit-status reporting:

    - the Go strings are byte strings ([string]), Go's [int] and [int64]
      are 64-bit integers carried in [Z];
    - Go maps ([map[string]string]) are [gmap string string];
    - pointers that the code tests against [nil] or dereferences are
      [option]s, and a nil dereference or an index out of range is a
      panic of the [Go] monad below;
    - calls to the hosting service, to the cluster and to the logger are
      recorded, in order, in a trace of [Call]s; what the collaborators
      answer is a parameter of the development. *)

From Stdlib Require Import ZArith String Ascii List Lia DecimalString.
From Stdlib Require DecimalPos.
From stdpp Require Import base option list gmap strings.

Local Open Scope string_scope.
Local Open Scope Z_scope.

(** ** The parts of Go's standard library that the file uses *)

(** [strings.Split(s, sep)] for a one-byte separator: the pieces of [s]
    between the separators, [[""]] for the empty string. *)
Fixpoint strings_Split (s : string) (sep : ascii) : list string :=
  match s with
  | EmptyString => [EmptyString]
  | String c r =>
      if Ascii.eqb c sep then EmptyString :: strings_Split r sep
      else match strings_Split r sep with
           | h :: t => String c h :: t
           | [] => [String c EmptyString]
           end
  end.

(** The line feed, the separator of [strings.Split(taskinfo.LogSnippet, "\n")]. *)
Definition LF : ascii := "010"%char.

(** [strings.HasPrefix(s, prefix)], returning what follows the prefix. *)
Fixpoint strings_CutPrefix (s prefix : string) : option string :=
  match prefix, s with
  | EmptyString, _ => Some s
  | String p prefix', String c s' =>
      if Ascii.eqb p c then strings_CutPrefix s' prefix' else None
  | String _ _, EmptyString => None
  end.

(** [strings.TrimPrefix(s, prefix)]: [s] without the leading [prefix],
    [s] itself when it does not start with it. *)
Definition strings_TrimPrefix (s prefix : string) : string :=
  match strings_CutPrefix s prefix with
  | Some rest => rest
  | None => s
  end.

(** [strings.Contains(s, substr)]. *)
Fixpoint strings_Contains (s substr : string) : bool :=
  match strings_CutPrefix s substr with
  | Some _ => true
  | None => match s with
            | EmptyString => false
            | String _ s' => strings_Contains s' substr
            end
  end.

(** The bounds of Go's [int] and [int64] on the 64-bit platforms the
    controller is built for. *)
Definition minInt64 : Z := - 2 ^ 63.
Definition maxInt64 : Z := 2 ^ 63 - 1.

Definition digit_of (c : ascii) : option Z :=
  let n := Z.of_N (N_of_ascii c) in
  if (48 <=? n) && (n <=? 57) then Some (n - 48) else None.

Fixpoint digits_value (s : string) (acc : Z) : option Z :=
  match s with
  | EmptyString => Some acc
  | String c r =>
      match digit_of c with
      | Some d => digits_value r (10 * acc + d)
      | None => None
      end
  end.

(** [strconv.Atoi]: an optional sign followed by one or more decimal
    digits, within the range of [int]; [None] stands for the error
    (syntax or range) that Go returns otherwise. *)
Definition strconv_Atoi (s : string) : option Z :=
  let '(neg, ds) :=
    match s with
    | String "-" r => (true, r)
    | String "+" r => (false, r)
    | _ => (false, s)
    end in
  match ds with
  | EmptyString => None
  | _ =>
      match digits_value ds 0 with
      | Some n =>
          let v := if neg then - n else n in
          if (minInt64 <=? v) && (v <=? maxInt64) then Some v else None
      | None => None
      end
  end.

(** [strconv.FormatInt(i, 10)]. *)
Definition strconv_FormatInt (i : Z) : string :=
  NilZero.string_of_int (Z.to_int i).

(** [fmt.Sprintf] at the three formats of the file. *)
Definition Sprintf_s_slash_s (a b : string) : string := a ++ " / " ++ b.
Definition Sprintf_ss_s (a b c : string) : string := a ++ b ++ " " ++ c.
Definition Sprintf_s_br_s (a b : string) : string := a ++ "<br>" ++ b.

(** ** Data model *)

(** Go's [error] values, by their message. *)
Definition error : Type := string.

(** [github.Timestamp]. *)
Definition Timestamp : Type := Z.

(** [github.CheckRunAnnotation], with the fields the file sets. *)
Module CheckRunAnnotation.
Record t : Type := Build
  { Path : string;
    StartLine : Z;
    EndLine : Z;
    AnnotationLevel : string;
    Message : string }.
End CheckRunAnnotation.

(** [github.CheckRunOutput]: every field is a pointer or a slice, [None]
    is [nil]. *)
Module CheckRunOutput.
Record t : Type := Build
  { Title : option string;
    Summary : option string;
    Text : option string;
    Annotations : option (list CheckRunAnnotation.t) }.
End CheckRunOutput.

(** [github.CheckRun], as [ListCheckRunsForRef] and [CreateCheckRun]
    return it. *)
Module CheckRun.
Record t : Type := Build
  { ID : option Z;
    ExternalID : option string;
    Output : option CheckRunOutput.t }.
End CheckRun.

(** [github.ListCheckRunsResults]. *)
Module ListCheckRunsResults.
Record t : Type := Build
  { Total : option Z;
    CheckRuns : list (option CheckRun.t) }.
End ListCheckRunsResults.

(** [github.CreateCheckRunOptions]. *)
Module CreateCheckRunOptions.
Record t : Type := Build
  { Name : string;
    HeadSHA : string;
    Status : option string;
    DetailsURL : option string;
    ExternalID : option string;
    StartedAt : option Timestamp }.
End CreateCheckRunOptions.

(** [github.UpdateCheckRunOptions]. *)
Module UpdateCheckRunOptions.
Record t : Type := Build
  { Name : string;
    Status : option string;
    Output : option CheckRunOutput.t;
    ExternalID : option string;
    DetailsURL : option string;
    CompletedAt : option Timestamp;
    Conclusion : option string }.
End UpdateCheckRunOptions.

(** [github.RepoStatus]. *)
Module RepoStatus.
Record t : Type := Build
  { State : option string;
    TargetURL : option string;
    Description : option string;
    Context : option string;
    CreatedAt : option Timestamp }.
End RepoStatus.

(** [tektonv1beta1.PipelineRun], as far as the file looks at it: its
    labels and what the three cancellation methods of the Tekton API
    answer for it. *)
Module PipelineRun.
Record t : Type := Build
  { GetLabels : gmap string string;
    IsCancelled : bool;
    IsGracefullyCancelled : bool;
    IsGracefullyStopped : bool }.
End PipelineRun.

(** [provider.StatusOpts]. *)
Module StatusOpts.
Record t : Type := Build
  { PipelineRun : option PipelineRun.t;
    PipelineRunName : string;
    OriginalPipelineRunName : string;
    Status : string;
    Conclusion : string;
    Text : string;
    DetailsURL : string;
    Summary : string;
    Title : string }.

Definition with_Conclusion (c : string) (s : t) : t :=
  Build (PipelineRun s) (PipelineRunName s) (OriginalPipelineRunName s)
    (Status s) c (Text s) (DetailsURL s) (Summary s) (Title s).
Definition with_Summary (x : string) (s : t) : t :=
  Build (PipelineRun s) (PipelineRunName s) (OriginalPipelineRunName s)
    (Status s) (Conclusion s) (Text s) (DetailsURL s) x (Title s).
Definition with_Title (x : string) (s : t) : t :=
  Build (PipelineRun s) (PipelineRunName s) (OriginalPipelineRunName s)
    (Status s) (Conclusion s) (Text s) (DetailsURL s) (Summary s) x.
End StatusOpts.

(** [info.Event]. *)
Module Event.
Record t : Type := Build
  { Organization : string;
    Repository : string;
    SHA : string;
    EventType : string;
    PullRequestNumber : Z;
    InstallationID : Z }.
End Event.

(** [info.PacOpts]. *)
Module PacOpts.
Record t : Type := Build
  { ApplicationName : string;
    ErrorDetection : bool;
    ErrorDetectionSimpleRegexp : string;
    ErrorDetectionNumberOfLines : Z }.
End PacOpts.

(** A compiled [*regexp.Regexp], by the three methods the extractor
    calls.  [FindStringSubmatch] answers [[]] for Go's [nil]. *)
Module Regexp.
Record t : Type := Build
  { MatchString : string -> bool;
    FindStringSubmatch : string -> list string;
    SubexpNames : list string }.

(** What package [regexp] guarantees: on a match the submatches are as
    many as the subexpression names (the whole match comes first). *)
Definition wf (r : t) : Prop :=
  forall s, MatchString r s = true ->
    length (FindStringSubmatch r s) = length (SubexpNames r).
End Regexp.

(** One entry of what [kstatus.CollectFailedTasksLogSnippet] returns. *)
Module TaskInfo.
Record t : Type := Build
  { Name : string;
    LogSnippet : string }.
End TaskInfo.

(** The value built by [metadataPatch]. *)
Module MetadataPatch.
Record t : Type := Build
  { labels : gmap string string;
    annotations : gmap string string }.
End MetadataPatch.

(** [github.ListCheckRunsOptions]. *)
Module ListCheckRunsOptions.
Record t : Type := Build { AppID : option Z }.
End ListCheckRunsOptions.

(** The [*github.Client] of the provider: what the hosting service
    answers to each request. *)
Module Client.
Record t : Type := Build
  { Checks_ListCheckRunsForRef :
      string -> string -> string -> ListCheckRunsOptions.t ->
      ListCheckRunsResults.t + error;
    Checks_CreateCheckRun :
      string -> string -> CreateCheckRunOptions.t -> CheckRun.t + error;
    Checks_UpdateCheckRun :
      string -> string -> Z -> UpdateCheckRunOptions.t -> option error;
    Repositories_CreateStatus :
      string -> string -> string -> RepoStatus.t -> option error;
    Issues_CreateComment :
      string -> string -> Z -> string -> option error }.
End Client.

(** What lies outside the file: the label and annotation keys of package
    [keys], the cluster ([kubeinteraction], [kstatus], [action]) and the
    Go runtime ([regexp.Compile], [time.Now]). *)
Module World.
Record t : Type := Build
  { keys_CheckRunID : string;
    keys_LogURL : string;
    regexp_Compile : string -> option Regexp.t;
    time_Now : Timestamp;
    NewKubernetesInteraction : option error;
    CollectFailedTasksLogSnippet : PipelineRun.t -> Z -> list TaskInfo.t;
    PatchPipelineRun : PipelineRun.t -> MetadataPatch.t -> option error }.
End World.

(** The immutable part of [*Provider]. *)
Module Provider.
Record t : Type := Build
  { Client : option Client.t;
    ApplicationID : option Z }.
End Provider.

(** The diagnostics of [v.Logger.Errorf], by call site. *)
Inductive LogEntry : Type :=
| LogInvalidRegexp (pattern : string)
| LogKubeInteractionFailed (err : error)
| LogNoFilenameGroup (pattern : string)
| LogNoLineGroup (pattern : string)
| LogNoErrorGroup (pattern : string)
| LogCannotConvert (linenumber : string).

(** The observable calls, in the order they are made. *)
Inductive Call : Type :=
| ListCheckRunsForRef (owner repo ref : string) (opts : ListCheckRunsOptions.t)
| CreateCheckRun (owner repo : string) (opts : CreateCheckRunOptions.t)
| UpdateCheckRun (owner repo : string) (id : Z) (opts : UpdateCheckRunOptions.t)
| CreateRepoStatus (owner repo ref : string) (status : RepoStatus.t)
| CreateComment (owner repo : string) (number : Z) (body : string)
| PatchRun (pr : PipelineRun.t) (patch : MetadataPatch.t)
| CollectLogs (pr : PipelineRun.t) (numLines : Z)
| Errorf (entry : LogEntry).

(** ** The [Go] monad: the slot of the provider, the calls made, panics *)

Inductive Panic : Type :=
| NilDereference
| IndexOutOfRange.

Inductive Outcome (A : Type) : Type :=
| Done (a : A)
| Panicked (p : Panic).
Arguments Done {A} a.
Arguments Panicked {A} p.

(** What a run leaves behind: how it ended, the value of
    [v.skippedRun.checkRunID] afterwards, and the calls it made, in
    order. *)
Record Result (A : Type) : Type := mkResult
  { outcome : Outcome A;
    skippedRun_checkRunID : Z;
    calls : list Call }.
Arguments mkResult {A} _ _ _.
Arguments outcome {A} _.
Arguments skippedRun_checkRunID {A} _.
Arguments calls {A} _.

(** A computation starts from the current value of
    [v.skippedRun.checkRunID], which is 0 in a fresh provider. *)
Definition Go (A : Type) : Type := Z -> Result A.

#[global] Instance Go_ret : MRet Go := fun A a slot => mkResult (Done a) slot [].

#[global] Instance Go_bind : MBind Go := fun A B f c slot =>
  let r := c slot in
  match outcome r with
  | Done a =>
      let r' := f a (skippedRun_checkRunID r) in
      mkResult (outcome r') (skippedRun_checkRunID r') (calls r ++ calls r')
  | Panicked p => mkResult (Panicked p) (skippedRun_checkRunID r) (calls r)
  end.

Definition panic {A : Type} (p : Panic) : Go A :=
  fun slot => mkResult (Panicked p) slot [].

(** Record a call. *)
Definition call (c : Call) : Go unit := fun slot => mkResult (Done tt) slot [c].

(** [*p] for a pointer [p]. *)
Definition deref {A : Type} (p : option A) : Go A :=
  match p with
  | Some a => mret a
  | None => panic NilDereference
  end.

Definition load_checkRunID : Go Z := fun slot => mkResult (Done slot) slot [].
Definition store_checkRunID (id : Z) : Go unit :=
  fun _ => mkResult (Done tt) id [].

(** ** [status.go] *)

Definition getCheckName (status : StatusOpts.t) (pacopts : PacOpts.t) : string :=
  if negb (String.eqb (PacOpts.ApplicationName pacopts) "") then
    if String.eqb (StatusOpts.OriginalPipelineRunName status) "" then
      PacOpts.ApplicationName pacopts
    else
      Sprintf_s_slash_s (PacOpts.ApplicationName pacopts)
        (StatusOpts.OriginalPipelineRunName status)
  else StatusOpts.OriginalPipelineRunName status.

Definition isSkippedCheckrun (run : option CheckRun.t) : bool :=
  match run with
  | None => false
  | Some run =>
      match CheckRun.Output run with
      | None => false
      | Some output =>
          match CheckRunOutput.Title output, CheckRunOutput.Summary output with
          | Some title, Some summary =>
              String.eqb title "Skipped"
              && strings_Contains summary "is skipping this commit"
          | _, _ => false
          end
      end
  end.

(** The body runs between [mutex.Lock()] and the deferred
    [mutex.Unlock()]: one atomic step on the slot. *)
Definition canIUseCheckrunID (checkrunid : option Z) : Go bool :=
  stored ← load_checkRunID;
  if stored =? 0 then
    id ← deref checkrunid;
    store_checkRunID id;;
    mret true
  else mret false.

(** The [for _, checkrun := range res.CheckRuns] loop of
    [getExistingCheckRunID]; the result is the pointer returned, [None]
    when the loop falls through (or when the id found is [nil]). *)
Fixpoint getExistingCheckRunID_range (status : StatusOpts.t)
    (checkruns : list (option CheckRun.t)) : Go (option Z) :=
  match checkruns with
  | [] => mret None
  | checkrun :: rest =>
      claimed ←
        (if isSkippedCheckrun checkrun then
           run ← deref checkrun;
           canIUseCheckrunID (CheckRun.ID run)
         else mret false);
      if (claimed : bool) then
        run ← deref checkrun;
        mret (CheckRun.ID run)
      else
        run ← deref checkrun;
        externalID ← deref (CheckRun.ExternalID run);
        if String.eqb externalID (StatusOpts.PipelineRunName status) then
          mret (CheckRun.ID run)
        else getExistingCheckRunID_range status rest
  end.

Definition getExistingCheckRunID (v : Provider.t) (runevent : Event.t)
    (status : StatusOpts.t) : Go (option Z * option error) :=
  client ← deref (Provider.Client v);
  let opts := ListCheckRunsOptions.Build (Provider.ApplicationID v) in
  call (ListCheckRunsForRef (Event.Organization runevent)
          (Event.Repository runevent) (Event.SHA runevent) opts);;
  match Client.Checks_ListCheckRunsForRef client (Event.Organization runevent)
          (Event.Repository runevent) (Event.SHA runevent) opts with
  | inr err => mret (None, Some err)
  | inl res =>
      total ← deref (ListCheckRunsResults.Total res);
      if total =? 0 then mret (None, None)
      else
        id ← getExistingCheckRunID_range status (ListCheckRunsResults.CheckRuns res);
        mret (id, None)
  end.

Definition createCheckRunStatus (w : World.t) (v : Provider.t)
    (runevent : Event.t) (pacopts : PacOpts.t) (status : StatusOpts.t)
    : Go (option Z * option error) :=
  let now := World.time_Now w in
  let checkrunoption :=
    {| CreateCheckRunOptions.Name := getCheckName status pacopts;
       CreateCheckRunOptions.HeadSHA := Event.SHA runevent;
       CreateCheckRunOptions.Status := Some "in_progress";
       CreateCheckRunOptions.DetailsURL := Some (StatusOpts.DetailsURL status);
       CreateCheckRunOptions.ExternalID := Some (StatusOpts.PipelineRunName status);
       CreateCheckRunOptions.StartedAt := Some now |} in
  client ← deref (Provider.Client v);
  call (CreateCheckRun (Event.Organization runevent)
          (Event.Repository runevent) checkrunoption);;
  match Client.Checks_CreateCheckRun client (Event.Organization runevent)
          (Event.Repository runevent) checkrunoption with
  | inr err => mret (None, Some err)
  | inl checkRun => mret (CheckRun.ID checkRun, None)
  end.

(** The [for i, name := range r.SubexpNames()] loop: [matches[i]] panics
    when [i] is out of range. *)
Fixpoint subexpResults (names : list string) (i : nat) (matches : list string)
    (results : gmap string string) : Go (gmap string string) :=
  match names with
  | [] => mret results
  | name :: names' =>
      if negb (Nat.eqb i 0) && negb (String.eqb name "") then
        match matches !! i with
        | Some m => subexpResults names' (S i) matches (<[name := m]> results)
        | None => panic IndexOutOfRange
        end
      else subexpResults names' (S i) matches results
  end.

(** The body of the loop over the lines of one log snippet: the
    annotation appended for [errline], [None] where the code does
    [continue]. *)
Definition errlineAnnotation (r : Regexp.t) (pacopts : PacOpts.t)
    (errline : string) : Go (option CheckRunAnnotation.t) :=
  let results : gmap string string := ∅ in
  if negb (Regexp.MatchString r errline) then mret None
  else
    let matches := Regexp.FindStringSubmatch r errline in
    results ← subexpResults (Regexp.SubexpNames r) 0 matches results;
    match (results : gmap string string) !! "filename" with
    | None =>
        call (Errorf (LogNoFilenameGroup (PacOpts.ErrorDetectionSimpleRegexp pacopts)));;
        mret None
    | Some filename =>
        let filename := strings_TrimPrefix filename "./" in
        match results !! "line" with
        | None =>
            call (Errorf (LogNoLineGroup (PacOpts.ErrorDetectionSimpleRegexp pacopts)));;
            mret None
        | Some linenumber =>
            match results !! "error" with
            | None =>
                call (Errorf (LogNoErrorGroup (PacOpts.ErrorDetectionSimpleRegexp pacopts)));;
                mret None
            | Some errmsg =>
                match strconv_Atoi linenumber with
                | None =>
                    call (Errorf (LogCannotConvert linenumber));;
                    mret None
                | Some ilinenumber =>
                    mret (Some
                      {| CheckRunAnnotation.Path := filename;
                         CheckRunAnnotation.StartLine := ilinenumber;
                         CheckRunAnnotation.EndLine := ilinenumber;
                         CheckRunAnnotation.AnnotationLevel := "failure";
                         CheckRunAnnotation.Message := errmsg |})
                end
            end
        end
    end.

(** [for _, errline := range strings.Split(taskinfo.LogSnippet, "\n")]. *)
Fixpoint errlinesAnnotations (r : Regexp.t) (pacopts : PacOpts.t)
    (errlines : list string) (annotations : list CheckRunAnnotation.t)
    : Go (list CheckRunAnnotation.t) :=
  match errlines with
  | [] => mret annotations
  | errline :: rest =>
      a ← errlineAnnotation r pacopts errline;
      errlinesAnnotations r pacopts rest
        (match a with
         | Some annotation => annotations ++ [annotation]
         | None => annotations
         end)
  end.

(** [for _, taskinfo := range taskinfos]. *)
Fixpoint taskinfosAnnotations (r : Regexp.t) (pacopts : PacOpts.t)
    (taskinfos : list TaskInfo.t) (annotations : list CheckRunAnnotation.t)
    : Go (list CheckRunAnnotation.t) :=
  match taskinfos with
  | [] => mret annotations
  | taskinfo :: rest =>
      annotations ←
        errlinesAnnotations r pacopts
          (strings_Split (TaskInfo.LogSnippet taskinfo) LF) annotations;
      taskinfosAnnotations r pacopts rest annotations
  end.

Definition getFailuresMessageAsAnnotations (w : World.t) (pr : PipelineRun.t)
    (pacopts : PacOpts.t) : Go (list CheckRunAnnotation.t) :=
  let annotations : list CheckRunAnnotation.t := [] in
  match World.regexp_Compile w (PacOpts.ErrorDetectionSimpleRegexp pacopts) with
  | None =>
      call (Errorf (LogInvalidRegexp (PacOpts.ErrorDetectionSimpleRegexp pacopts)));;
      mret annotations
  | Some r =>
      match World.NewKubernetesInteraction w with
      | Some err =>
          call (Errorf (LogKubeInteractionFailed err));;
          mret annotations
      | None =>
          call (CollectLogs pr (PacOpts.ErrorDetectionNumberOfLines pacopts));;
          let taskinfos :=
            World.CollectFailedTasksLogSnippet w pr
              (PacOpts.ErrorDetectionNumberOfLines pacopts) in
          taskinfosAnnotations r pacopts taskinfos annotations
      end
  end.

Definition isPipelineRunCancelledOrStopped (run : option PipelineRun.t) : bool :=
  match run with
  | None => false
  | Some run =>
      if PipelineRun.IsCancelled run || PipelineRun.IsGracefullyCancelled run
         || PipelineRun.IsGracefullyStopped run
      then true else false
  end.

Definition metadataPatch (w : World.t) (checkRunID : option Z) (logURL : string)
    : Go MetadataPatch.t :=
  id ← deref checkRunID;
  mret {| MetadataPatch.labels := {[ World.keys_CheckRunID w := strconv_FormatInt id ]};
          MetadataPatch.annotations := {[ World.keys_LogURL w := logURL ]} |}.

(** [getOrUpdateCheckRunStatus], lines 187-198: the check-run id kept in
    the labels of the run.  The result is [(found, checkRunID)], or the
    error returned when the label is not an integer. *)
Definition labelledCheckRunID (w : World.t) (statusOpts : StatusOpts.t)
    : (bool * option Z) + error :=
  match StatusOpts.PipelineRun statusOpts with
  | Some pr =>
      match PipelineRun.GetLabels pr !! World.keys_CheckRunID w with
      | Some id =>
          match strconv_Atoi id with
          | None => inr "api error: cannot convert checkrunid"
          | Some checkID => inl (true, Some checkID)
          end
      | None => inl (false, None)
      end
  | None => inl (false, None)
  end.

(** [getOrUpdateCheckRunStatus], the body of [if !found], lines 199-211:
    discovery, creation, and the patch of the run.  The error of
    [getExistingCheckRunID] is dropped by the code. *)
Definition findOrCreateCheckRunID (w : World.t) (v : Provider.t)
    (runevent : Event.t) (pacopts : PacOpts.t) (statusOpts : StatusOpts.t)
    : Go (option Z + error) :=
  '(existing, _) ← getExistingCheckRunID v runevent statusOpts;
  created ←
    match existing with
    | Some id => mret (inl (Some id))
    | None =>
        '(checkRunID, err) ← createCheckRunStatus w v runevent pacopts statusOpts;
        match err with
        | Some err => mret (inr err)
        | None => mret (inl checkRunID)
        end
    end;
  match created with
  | inr err => mret (inr err)
  | inl checkRunID =>
      match StatusOpts.PipelineRun statusOpts with
      | Some pr =>
          patch ← metadataPatch w checkRunID (StatusOpts.DetailsURL statusOpts);
          call (PatchRun pr patch);;
          match World.PatchPipelineRun w pr patch with
          | Some err => mret (inr err)
          | None => mret (inl checkRunID)
          end
      | None => mret (inl checkRunID)
      end
  end.

(** [getOrUpdateCheckRunStatus], lines 213-246 without the call of the
    extractor: the options of the update, given the annotations. *)
Definition updateCheckRunOptions (w : World.t) (pacopts : PacOpts.t)
    (statusOpts : StatusOpts.t) (annotations : option (list CheckRunAnnotation.t))
    : UpdateCheckRunOptions.t :=
  let text := StatusOpts.Text statusOpts in
  let checkRunOutput :=
    {| CheckRunOutput.Title := Some (StatusOpts.Title statusOpts);
       CheckRunOutput.Summary := Some (StatusOpts.Summary statusOpts);
       CheckRunOutput.Text := Some text;
       CheckRunOutput.Annotations := annotations |} in
  let finished :=
    negb (String.eqb (StatusOpts.Conclusion statusOpts) "")
    && negb (String.eqb (StatusOpts.Conclusion statusOpts) "pending") in
  {| UpdateCheckRunOptions.Name := getCheckName statusOpts pacopts;
     UpdateCheckRunOptions.Status := Some (StatusOpts.Status statusOpts);
     UpdateCheckRunOptions.Output := Some checkRunOutput;
     UpdateCheckRunOptions.ExternalID :=
       if negb (String.eqb (StatusOpts.PipelineRunName statusOpts) "")
       then Some (StatusOpts.PipelineRunName statusOpts) else None;
     UpdateCheckRunOptions.DetailsURL :=
       if negb (String.eqb (StatusOpts.DetailsURL statusOpts) "")
       then Some (StatusOpts.DetailsURL statusOpts) else None;
     UpdateCheckRunOptions.CompletedAt :=
       if finished then Some (World.time_Now w) else None;
     UpdateCheckRunOptions.Conclusion :=
       let conclusion :=
         if finished then Some (StatusOpts.Conclusion statusOpts) else None in
       if isPipelineRunCancelledOrStopped (StatusOpts.PipelineRun statusOpts)
       then Some "cancelled" else conclusion |}.

(** [getOrUpdateCheckRunStatus], lines 219-223: the annotations of the
    output, [None] for the [nil] slice left when the extractor is not
    called. *)
Definition outputAnnotations (w : World.t) (pacopts : PacOpts.t)
    (statusOpts : StatusOpts.t) : Go (option (list CheckRunAnnotation.t)) :=
  match StatusOpts.PipelineRun statusOpts with
  | Some pr =>
      if PacOpts.ErrorDetection pacopts then
        annotations ← getFailuresMessageAsAnnotations w pr pacopts;
        mret (Some annotations)
      else mret None
  | None => mret None
  end.

(** [getOrUpdateCheckRunStatus], lines 213-249: build the options and
    submit the update of check run [*checkRunID]. *)
Definition submitCheckRunStatus (w : World.t) (v : Provider.t)
    (runevent : Event.t) (pacopts : PacOpts.t) (statusOpts : StatusOpts.t)
    (checkRunID : option Z) : Go (option error) :=
  annotations ← outputAnnotations w pacopts statusOpts;
  let opts := updateCheckRunOptions w pacopts statusOpts annotations in
  client ← deref (Provider.Client v);
  id ← deref checkRunID;
  call (UpdateCheckRun (Event.Organization runevent)
          (Event.Repository runevent) id opts);;
  mret (Client.Checks_UpdateCheckRun client (Event.Organization runevent)
          (Event.Repository runevent) id opts).

Definition getOrUpdateCheckRunStatus (w : World.t) (v : Provider.t)
    (runevent : Event.t) (pacopts : PacOpts.t) (statusOpts : StatusOpts.t)
    : Go (option error) :=
  match labelledCheckRunID w statusOpts with
  | inr err => mret (Some err)
  | inl (found, checkRunID) =>
      resolved ←
        (if (found : bool) then mret (inl checkRunID)
         else findOrCreateCheckRunID w v runevent pacopts statusOpts);
      match resolved with
      | inr err => mret (Some err)
      | inl checkRunID =>
          submitCheckRunStatus w v runevent pacopts statusOpts checkRunID
      end
  end.

(** [createStatusCommit], lines 280-286: the coercions of the outcome
    for the legacy statuses API. *)
Definition commitStatusOpts (status : StatusOpts.t) : StatusOpts.t :=
  let status :=
    if String.eqb (StatusOpts.Conclusion status) "skipped"
       || String.eqb (StatusOpts.Conclusion status) "neutral"
    then StatusOpts.with_Conclusion "success" status
    else status in
  if String.eqb (StatusOpts.Status status) "in_progress"
  then StatusOpts.with_Conclusion "pending" status
  else status.

Definition createStatusCommit (w : World.t) (v : Provider.t)
    (runevent : Event.t) (pacopts : PacOpts.t) (status : StatusOpts.t)
    : Go (option error) :=
  let now := World.time_Now w in
  let status := commitStatusOpts status in
  let ghstatus :=
    {| RepoStatus.State := Some (StatusOpts.Conclusion status);
       RepoStatus.TargetURL := Some (StatusOpts.DetailsURL status);
       RepoStatus.Description := Some (StatusOpts.Title status);
       RepoStatus.Context := Some (getCheckName status pacopts);
       RepoStatus.CreatedAt := Some now |} in
  client ← deref (Provider.Client v);
  call (CreateRepoStatus (Event.Organization runevent)
          (Event.Repository runevent) (Event.SHA runevent) ghstatus);;
  match Client.Repositories_CreateStatus client (Event.Organization runevent)
          (Event.Repository runevent) (Event.SHA runevent) ghstatus with
  | Some err => mret (Some err)
  | None =>
      if String.eqb (StatusOpts.Status status) "completed"
         && negb (String.eqb (StatusOpts.Text status) "")
         && String.eqb (Event.EventType runevent) "pull_request"
      then
        let body :=
          Sprintf_s_br_s (StatusOpts.Summary status) (StatusOpts.Text status) in
        call (CreateComment (Event.Organization runevent)
                (Event.Repository runevent) (Event.PullRequestNumber runevent) body);;
        match Client.Issues_CreateComment client (Event.Organization runevent)
                (Event.Repository runevent) (Event.PullRequestNumber runevent) body with
        | Some err => mret (Some err)
        | None => mret None
        end
      else mret None
  end.

(** [CreateStatus], lines 320-344: title and summary of the status. *)
Definition titledStatusOpts (pacopts : PacOpts.t) (statusOpts : StatusOpts.t)
    : StatusOpts.t :=
  let statusOpts :=
    if String.eqb (StatusOpts.Conclusion statusOpts) "success" then
      StatusOpts.with_Summary "has <b>successfully</b> validated your commit."
        (StatusOpts.with_Title "Success" statusOpts)
    else if String.eqb (StatusOpts.Conclusion statusOpts) "failure" then
      StatusOpts.with_Summary "has <b>failed</b>."
        (StatusOpts.with_Title "Failed" statusOpts)
    else if String.eqb (StatusOpts.Conclusion statusOpts) "skipped" then
      StatusOpts.with_Summary "is skipping this commit."
        (StatusOpts.with_Title "Skipped" statusOpts)
    else if String.eqb (StatusOpts.Conclusion statusOpts) "neutral" then
      StatusOpts.with_Summary "doesn't know what happened with this commit."
        (StatusOpts.with_Title "Unknown" statusOpts)
    else statusOpts in
  let statusOpts :=
    if String.eqb (StatusOpts.Status statusOpts) "in_progress" then
      StatusOpts.with_Summary "is running."
        (StatusOpts.with_Title "CI has Started" statusOpts)
    else statusOpts in
  let onPr :=
    if negb (String.eqb (StatusOpts.OriginalPipelineRunName statusOpts) "")
    then "/" ++ StatusOpts.OriginalPipelineRunName statusOpts
    else "" in
  StatusOpts.with_Summary
    (Sprintf_ss_s (PacOpts.ApplicationName pacopts) onPr
       (StatusOpts.Summary statusOpts))
    statusOpts.

Definition CreateStatus (w : World.t) (v : Provider.t) (runevent : Event.t)
    (pacopts : PacOpts.t) (statusOpts : StatusOpts.t) : Go (option error) :=
  match Provider.Client v with
  | None => mret (Some "cannot set status on github no token or url set")
  | Some _ =>
      let statusOpts := titledStatusOpts pacopts statusOpts in
      if Event.InstallationID runevent >? 0 then
        getOrUpdateCheckRunStatus w v runevent pacopts statusOpts
      else createStatusCommit w v runevent pacopts statusOpts
  end.

(** ** Observations on the calls of a run *)

(** The update-check requests among the calls, with the id they name. *)
Definition updateCheckRunCalls (cs : list Call)
    : list (Z * UpdateCheckRunOptions.t) :=
  omap (fun c => match c with
                 | UpdateCheckRun _ _ id opts => Some (id, opts)
                 | _ => None
                 end) cs.

(** The flat statuses among the calls. *)
Definition createStatusCalls (cs : list Call) : list RepoStatus.t :=
  omap (fun c => match c with
                 | CreateRepoStatus _ _ _ st => Some st
                 | _ => None
                 end) cs.

(** Discovery, creation and patch: the calls of the path taken when the
    run carries no check-run id. *)
Definition isLookupCall (c : Call) : bool :=
  match c with
  | ListCheckRunsForRef _ _ _ _ | CreateCheckRun _ _ _ | PatchRun _ _ => true
  | _ => false
  end.

(** The calls that only [getFailuresMessageAsAnnotations] makes: the log
    source and the logger. *)
Definition isExtractorCall (c : Call) : bool :=
  match c with
  | CollectLogs _ _ | Errorf _ => true
  | _ => false
  end.

(** The annotations attached to an update, [None] when the slice is nil. *)
Definition attachedAnnotations (opts : UpdateCheckRunOptions.t)
    : option (list CheckRunAnnotation.t) :=
  match UpdateCheckRunOptions.Output opts with
  | Some output => CheckRunOutput.Annotations output
  | None => None
  end.

(** The named group [name] of the match of [errline] has the value
    [value]: the name stands at one index of [SubexpNames], not the
    first, and the submatch at that index is [value]. *)
Definition namedGroup (r : Regexp.t) (errline name value : string) : Prop :=
  exists i : nat,
    i <> 0%nat
    /\ Regexp.SubexpNames r !! i = Some name
    /\ (forall j : nat, Regexp.SubexpNames r !! j = Some name -> j = i)
    /\ Regexp.FindStringSubmatch r errline !! i = Some value.

(** Every pattern that compiles in [w] compiles to a well-formed
    [Regexp]. *)
Definition regexpSound (w : World.t) : Prop :=
  forall pattern r, World.regexp_Compile w pattern = Some r -> Regexp.wf r.

(** What one line contributes to the annotations. *)
Definition lineAnnotations (r : Regexp.t) (pacopts : PacOpts.t)
    (errline : string) : list CheckRunAnnotation.t :=
  match outcome (errlineAnnotation r pacopts errline 0) with
  | Done (Some a) => [a]
  | _ => []
  end.

(** The lines of all the snippets, in the order they are read. *)
Definition errlinesOf (taskinfos : list TaskInfo.t) : list string :=
  concat (map (fun t => strings_Split (TaskInfo.LogSnippet t) LF) taskinfos).

(** A sequence of claims on one registry, one call after the other (the
    lock serialises concurrent callers); the answers, in order. *)
Fixpoint claimAll (candidates : list Z) : Go (list bool) :=
  match candidates with
  | [] => mret []
  | c :: rest =>
      b ← canIUseCheckrunID (Some c);
      bs ← claimAll rest;
      mret (b :: bs)
  end.

(** ** A concrete world, for the examples *)

(** The text before and after the first [sep] of [s]. *)
Fixpoint cutAt (sep : ascii) (s : string) : option (string * string) :=
  match s with
  | EmptyString => None
  | String c r =>
      if Ascii.eqb c sep then Some (EmptyString, r)
      else match cutAt sep r with
           | Some (before, after) => Some (String c before, after)
           | None => None
           end
  end.

(** A pattern with the three named groups, each of the first two ended
    by a colon, and what Go's engine answers for it on one line. *)
Definition sample_pattern : string :=
  "^(?P<filename>[^:]*):(?P<line>[^:]*): ?(?P<error>.*)$".

Definition sample_submatch (s : string) : option (list string) :=
  match cutAt ":" s with
  | Some (filename, rest) =>
      match cutAt ":" rest with
      | Some (line, rest') => Some [s; filename; line; strings_TrimPrefix rest' " "]
      | None => None
      end
  | None => None
  end.

Definition sample_regexp : Regexp.t :=
  {| Regexp.MatchString := fun s => bool_decide (is_Some (sample_submatch s));
     Regexp.FindStringSubmatch := fun s => default [] (sample_submatch s);
     Regexp.SubexpNames := [""; "filename"; "line"; "error"] |}.

Definition sample_log : string :=
  "go build ./..." ++ String LF ""
  ++ "main.go:42: syntax error near 'x'" ++ String LF ""
  ++ "./pkg/foo.go:7: undefined: bar" ++ String LF ""
  ++ "util.go:N/A: cannot locate".

Definition sample_world : World.t :=
  {| World.keys_CheckRunID := "pipelinesascode.tekton.dev/check-run-id";
     World.keys_LogURL := "pipelinesascode.tekton.dev/log-url";
     World.regexp_Compile := fun p =>
       if String.eqb p sample_pattern then Some sample_regexp else None;
     World.time_Now := 1700000000;
     World.NewKubernetesInteraction := None;
     World.CollectFailedTasksLogSnippet := fun _ _ =>
       [ {| TaskInfo.Name := "build"; TaskInfo.LogSnippet := sample_log |} ];
     World.PatchPipelineRun := fun _ _ => None |}.

(** A hosting service that lists no check run, creates check run 99 and
    accepts every request. *)
Definition sample_client : Client.t :=
  {| Client.Checks_ListCheckRunsForRef := fun _ _ _ _ =>
       inl {| ListCheckRunsResults.Total := Some 0;
              ListCheckRunsResults.CheckRuns := [] |};
     Client.Checks_CreateCheckRun := fun _ _ _ =>
       inl {| CheckRun.ID := Some 99; CheckRun.ExternalID := None;
              CheckRun.Output := None |};
     Client.Checks_UpdateCheckRun := fun _ _ _ _ => None;
     Client.Repositories_CreateStatus := fun _ _ _ _ => None;
     Client.Issues_CreateComment := fun _ _ _ _ => None |}.

Definition sample_provider : Provider.t :=
  {| Provider.Client := Some sample_client; Provider.ApplicationID := Some 1 |}.

Definition sample_event (installationID : Z) : Event.t :=
  {| Event.Organization := "org"; Event.Repository := "repo";
     Event.SHA := "0a1b2c"; Event.EventType := "pull_request";
     Event.PullRequestNumber := 12; Event.InstallationID := installationID |}.

Definition sample_pacopts : PacOpts.t :=
  {| PacOpts.ApplicationName := "PAC";
     PacOpts.ErrorDetection := true;
     PacOpts.ErrorDetectionSimpleRegexp := sample_pattern;
     PacOpts.ErrorDetectionNumberOfLines := 50 |}.

(** A run whose labels carry check-run id 4711. *)
Definition sample_run (cancelled : bool) : PipelineRun.t :=
  {| PipelineRun.GetLabels :=
       {[ "pipelinesascode.tekton.dev/check-run-id" := "4711" ]};
     PipelineRun.IsCancelled := cancelled;
     PipelineRun.IsGracefullyCancelled := false;
     PipelineRun.IsGracefullyStopped := false |}.

Definition sample_status (pr : option PipelineRun.t) (status conclusion : string)
    : StatusOpts.t :=
  {| StatusOpts.PipelineRun := pr;
     StatusOpts.PipelineRunName := "pr-abc";
     StatusOpts.OriginalPipelineRunName := "build";
     StatusOpts.Status := status;
     StatusOpts.Conclusion := conclusion;
     StatusOpts.Text := "log";
     StatusOpts.DetailsURL := "https://console/pr-abc";
     StatusOpts.Summary := "";
     StatusOpts.Title := "" |}.

(** ** Statements compared with the code *)

(** The candidate of the first claim that was answered [true]. *)
Fixpoint firstWinner (candidates : list Z) (answers : list bool) : option Z :=
  match candidates, answers with
  | c :: candidates', a :: answers' =>
      if a then Some c else firstWinner candidates' answers'
  | _, _ => None
  end.

(** First writer wins, for a sequence of claims on a fresh registry: at
    most one claim is answered [true], and the id left in the slot is
    the candidate of the first such claim. *)
Definition firstWriterWins (candidates : list Z) : Prop :=
  forall answers,
    outcome (claimAll candidates 0) = Done answers ->
    (length (filter (fun a => a = true) answers) <= 1)%nat
    /\ (forall c, firstWinner candidates answers = Some c ->
                  skippedRun_checkRunID (claimAll candidates 0) = c).

(** Annotations only for the outcome "failure": for any other outcome
    the run neither calls the extractor nor attaches annotations to the
    update. *)
Definition annotationsOnlyOnFailure (w : World.t) (v : Provider.t)
    (runevent : Event.t) (pacopts : PacOpts.t) (statusOpts : StatusOpts.t)
    (slot : Z) : Prop :=
  StatusOpts.Conclusion statusOpts <> "failure" ->
  let cs := calls (getOrUpdateCheckRunStatus w v runevent pacopts statusOpts slot) in
  Forall (fun c => isExtractorCall c = false) cs
  /\ Forall (fun u => attachedAnnotations u.2 = None) (updateCheckRunCalls cs).

(** Completion exactly for the phase "completed" with an outcome other
    than "pending", for a run that is not cancelled. *)
Definition completedWhenPhaseCompleted (w : World.t) (v : Provider.t)
    (runevent : Event.t) (pacopts : PacOpts.t) (statusOpts : StatusOpts.t)
    (slot : Z) : Prop :=
  isPipelineRunCancelledOrStopped (StatusOpts.PipelineRun statusOpts) = false ->
  Forall
    (fun u =>
       (StatusOpts.Status statusOpts = "completed"
        /\ StatusOpts.Conclusion statusOpts <> "pending" ->
        is_Some (UpdateCheckRunOptions.CompletedAt u.2)
        /\ UpdateCheckRunOptions.Conclusion u.2
           = Some (StatusOpts.Conclusion statusOpts))
       /\ (~ (StatusOpts.Status statusOpts = "completed"
              /\ StatusOpts.Conclusion statusOpts <> "pending") ->
           UpdateCheckRunOptions.CompletedAt u.2 = None
           /\ UpdateCheckRunOptions.Conclusion u.2 = None))
    (updateCheckRunCalls
       (calls (getOrUpdateCheckRunStatus w v runevent pacopts statusOpts slot))).

(** [strings.HasSuffix(s, suffix)]. *)
Definition strings_HasSuffix (s suffix : string) : bool :=
  (String.length suffix <=? String.length s)%nat
  && String.eqb
       (substring (String.length s - String.length suffix)
          (String.length suffix) s)
       suffix.

(** The table of titles and summaries as the specification prints it. *)
Definition specTable (outcome : string) : option (string * string) :=
  if String.eqb outcome "success" then
    Some ("Success", "has successfully validated your commit.")
  else if String.eqb outcome "failure" then
    Some ("Failed", "has failed.")
  else if String.eqb outcome "skipped" then
    Some ("Skipped", "is skipping this commit.")
  else if String.eqb outcome "neutral" then
    Some ("Unknown", "doesn't know what happened with this commit.")
  else None.

(** The prefix of every summary: the application name, then
    [/<original-run-name>] when there is one. *)
Definition summaryPrefix (pacopts : PacOpts.t) (statusOpts : StatusOpts.t)
    : string :=
  PacOpts.ApplicationName pacopts
  ++ (if String.eqb (StatusOpts.OriginalPipelineRunName statusOpts) ""
      then ""
      else "/" ++ StatusOpts.OriginalPipelineRunName statusOpts).

(** Title and summary follow the printed table: the title is the one of
    the table, the summary starts with the prefix and ends with the text
    of the table. *)
Definition followsSpecTable (pacopts : PacOpts.t) (statusOpts : StatusOpts.t)
    : Prop :=
  StatusOpts.Status statusOpts <> "in_progress" ->
  forall title summary,
    specTable (StatusOpts.Conclusion statusOpts) = Some (title, summary) ->
    let mapped := titledStatusOpts pacopts statusOpts in
    StatusOpts.Title mapped = title
    /\ is_Some (strings_CutPrefix (StatusOpts.Summary mapped)
                  (summaryPrefix pacopts statusOpts))
    /\ strings_HasSuffix (StatusOpts.Summary mapped) summary = true.

(** A computation that leaves [v.skippedRun.checkRunID] alone and does
    not depend on it. *)
Definition stateless {A : Type} (c : Go A) : Prop :=
  forall slot, c slot = mkResult (outcome (c 0)) slot (calls (c 0)).

(** ** Further observations *)

(** The requests of commit-status mode: the flat status and the comment. *)
Definition isCommitStatusCall (c : Call) : bool :=
  match c with
  | CreateRepoStatus _ _ _ _ | CreateComment _ _ _ _ => true
  | _ => false
  end.

(** The comments among the calls, with the number of the pull request. *)
Definition createCommentCalls (cs : list Call) : list (Z * string) :=
  omap (fun c => match c with
                 | CreateComment _ _ number body => Some (number, body)
                 | _ => None
                 end) cs.

(** A computation that never replaces a nonzero
    [v.skippedRun.checkRunID]. *)
Definition keepsSlot {A : Type} (c : Go A) : Prop :=
  forall slot, slot <> 0 -> skippedRun_checkRunID (c slot) = slot.

(** A listed check run with an external id other than [name]. *)
Definition otherRun (name : string) (checkrun : option CheckRun.t) : Prop :=
  exists run externalID,
    checkrun = Some run /\ CheckRun.ExternalID run = Some externalID
    /\ externalID <> name.

(** A listed check run that the discovery loop for [name] passes over
    when the registry holds [slot]: another run, and not one that it
    would claim. *)
Definition passedOver (name : string) (slot : Z) (checkrun : option CheckRun.t)
    : Prop :=
  otherRun name checkrun /\ (slot <> 0 \/ isSkippedCheckrun checkrun = false).

(** The listing of the check runs of the commit, as [getExistingCheckRunID]
    asks for it. *)
Definition listedCheckRuns (v : Provider.t) (client : Client.t)
    (runevent : Event.t) : ListCheckRunsResults.t + error :=
  Client.Checks_ListCheckRunsForRef client (Event.Organization runevent)
    (Event.Repository runevent) (Event.SHA runevent)
    (ListCheckRunsOptions.Build (Provider.ApplicationID v)).

(** The discovery has nothing to go through: the listing fails, or its
    total is 0. *)
Definition listsNothing (v : Provider.t) (client : Client.t)
    (runevent : Event.t) : Prop :=
  match listedCheckRuns v client runevent with
  | inr _ => True
  | inl res => ListCheckRunsResults.Total res = Some 0
  end.

(** What a request says about its subject: the repository, the commit
    or pull request of [runevent], and the name [name] of the check. *)
Definition reportsOn (runevent : Event.t) (name : string) (c : Call) : Prop :=
  match c with
  | ListCheckRunsForRef owner repo ref _ =>
      owner = Event.Organization runevent /\ repo = Event.Repository runevent
      /\ ref = Event.SHA runevent
  | CreateCheckRun owner repo opts =>
      owner = Event.Organization runevent /\ repo = Event.Repository runevent
      /\ CreateCheckRunOptions.HeadSHA opts = Event.SHA runevent
      /\ CreateCheckRunOptions.Name opts = name
  | UpdateCheckRun owner repo _ opts =>
      owner = Event.Organization runevent /\ repo = Event.Repository runevent
      /\ UpdateCheckRunOptions.Name opts = name
  | CreateRepoStatus owner repo ref status =>
      owner = Event.Organization runevent /\ repo = Event.Repository runevent
      /\ ref = Event.SHA runevent /\ RepoStatus.Context status = Some name
  | CreateComment owner repo number _ =>
      owner = Event.Organization runevent /\ repo = Event.Repository runevent
      /\ number = Event.PullRequestNumber runevent
  | PatchRun _ _ | CollectLogs _ _ | Errorf _ => True
  end.

(** The patches of the run among the calls. *)
Definition patchRunCalls (cs : list Call) : list (PipelineRun.t * MetadataPatch.t) :=
  omap (fun c => match c with
                 | PatchRun pr patch => Some (pr, patch)
                 | _ => None
                 end) cs.

(** ** More of the concrete world *)

(** A run without labels. *)
Definition fresh_run : PipelineRun.t :=
  {| PipelineRun.GetLabels := ∅;
     PipelineRun.IsCancelled := false;
     PipelineRun.IsGracefullyCancelled := false;
     PipelineRun.IsGracefullyStopped := false |}.

(** A hosting service that refuses to create check runs. *)
Definition refusing_client : Client.t :=
  {| Client.Checks_ListCheckRunsForRef :=
       Client.Checks_ListCheckRunsForRef sample_client;
     Client.Checks_CreateCheckRun := fun _ _ _ => inr "403 Forbidden";
     Client.Checks_UpdateCheckRun := Client.Checks_UpdateCheckRun sample_client;
     Client.Repositories_CreateStatus :=
       Client.Repositories_CreateStatus sample_client;
     Client.Issues_CreateComment := Client.Issues_CreateComment sample_client |}.

(** A hosting service that creates check runs without an id. *)
Definition anonymous_client : Client.t :=
  {| Client.Checks_ListCheckRunsForRef :=
       Client.Checks_ListCheckRunsForRef sample_client;
     Client.Checks_CreateCheckRun := fun _ _ _ =>
       inl {| CheckRun.ID := None; CheckRun.ExternalID := None;
              CheckRun.Output := None |};
     Client.Checks_UpdateCheckRun := Client.Checks_UpdateCheckRun sample_client;
     Client.Repositories_CreateStatus :=
       Client.Repositories_CreateStatus sample_client;
     Client.Issues_CreateComment := Client.Issues_CreateComment sample_client |}.

(** A hosting service that lists the check runs [checkruns]. *)
Definition listing_client (checkruns : list (option CheckRun.t)) : Client.t :=
  {| Client.Checks_ListCheckRunsForRef := fun _ _ _ _ =>
       inl {| ListCheckRunsResults.Total := Some (Z.of_nat (length checkruns));
              ListCheckRunsResults.CheckRuns := checkruns |};
     Client.Checks_CreateCheckRun := Client.Checks_CreateCheckRun sample_client;
     Client.Checks_UpdateCheckRun := Client.Checks_UpdateCheckRun sample_client;
     Client.Repositories_CreateStatus :=
       Client.Repositories_CreateStatus sample_client;
     Client.Issues_CreateComment := Client.Issues_CreateComment sample_client |}.

Definition provider_of (client : Client.t) : Provider.t :=
  {| Provider.Client := Some client; Provider.ApplicationID := Some 1 |}.

(** A cluster that refuses the patch of the run. *)
Definition readonly_world : World.t :=
  {| World.keys_CheckRunID := World.keys_CheckRunID sample_world;
     World.keys_LogURL := World.keys_LogURL sample_world;
     World.regexp_Compile := World.regexp_Compile sample_world;
     World.time_Now := World.time_Now sample_world;
     World.NewKubernetesInteraction := None;
     World.CollectFailedTasksLogSnippet :=
       World.CollectFailedTasksLogSnippet sample_world;
     World.PatchPipelineRun := fun _ _ => Some "pipelineruns is forbidden" |}.

(** A world where no pattern compiles. *)
Definition patternless_world : World.t :=
  {| World.keys_CheckRunID := World.keys_CheckRunID sample_world;
     World.keys_LogURL := World.keys_LogURL sample_world;
     World.regexp_Compile := fun _ => None;
     World.time_Now := World.time_Now sample_world;
     World.NewKubernetesInteraction := None;
     World.CollectFailedTasksLogSnippet :=
       World.CollectFailedTasksLogSnippet sample_world;
     World.PatchPipelineRun := World.PatchPipelineRun sample_world |}.

(** The check run left by a skipped commit, and the check run of the
    pipeline run [name]. *)
Definition skipped_checkrun (id : Z) : option CheckRun.t :=
  Some {| CheckRun.ID := Some id; CheckRun.ExternalID := Some "";
          CheckRun.Output :=
            Some {| CheckRunOutput.Title := Some "Skipped";
                    CheckRunOutput.Summary := Some "PAC is skipping this commit.";
                    CheckRunOutput.Text := None;
                    CheckRunOutput.Annotations := None |} |}.

Definition named_checkrun (id : Z) (name : string) : option CheckRun.t :=
  Some {| CheckRun.ID := Some id; CheckRun.ExternalID := Some name;
          CheckRun.Output :=
            Some {| CheckRunOutput.Title := Some "Success";
                    CheckRunOutput.Summary :=
                      Some "PAC has <b>successfully</b> validated your commit.";
                    CheckRunOutput.Text := None;
                    CheckRunOutput.Annotations := None |} |}.

(** * Properties *)

(** ** The library functions on examples *)

Example strings_Split_ex :
  strings_Split ("a.go:1: x" ++ String LF "" ++ "" ++ String LF "b") LF
  = ["a.go:1: x"; ""; "b"].
Proof. reflexivity. Qed.

Example strings_TrimPrefix_ex :
  strings_TrimPrefix "./pkg/foo.go" "./" = "pkg/foo.go"
  /\ strings_TrimPrefix "././a" "./" = "./a"
  /\ strings_TrimPrefix "main.go" "./" = "main.go".
Proof. repeat split. Qed.

Example strconv_Atoi_ex :
  strconv_Atoi "42" = Some 42 /\ strconv_Atoi "-7" = Some (-7)
  /\ strconv_Atoi "+0" = Some 0 /\ strconv_Atoi "N/A" = None
  /\ strconv_Atoi "" = None /\ strconv_Atoi "-" = None
  /\ strconv_Atoi "9223372036854775808" = None
  /\ strconv_Atoi "-9223372036854775808" = Some minInt64.
Proof. repeat split. Qed.

Example strconv_FormatInt_ex :
  strconv_FormatInt 1234 = "1234" /\ strconv_FormatInt 0 = "0"
  /\ strconv_FormatInt (-5) = "-5".
Proof. repeat split. Qed.

Example strings_Contains_ex :
  strings_Contains "app is skipping this commit." "is skipping this commit" = true
  /\ strings_Contains "app is running." "is skipping this commit" = false.
Proof. repeat split. Qed.

Example strings_HasSuffix_ex :
  strings_HasSuffix "PAC has <b>failed</b>." "</b>." = true
  /\ strings_HasSuffix "PAC has <b>failed</b>." "has failed." = false
  /\ strings_HasSuffix "ed." "has failed." = false.
Proof. repeat split. Qed.

Example sample_submatch_ex :
  sample_submatch "main.go:42: syntax error near 'x'"
  = Some ["main.go:42: syntax error near 'x'"; "main.go"; "42";
          "syntax error near 'x'"]
  /\ sample_submatch "go build ./..." = None.
Proof. repeat split. Qed.

(** ** Laws of the [Go] monad *)

Section GoMonad.
Context {A B : Type}.
Implicit Types (c : Go A) (f : A -> Go B) (slot : Z).

Lemma run_ret (a : A) slot : (mret a : Go A) slot = mkResult (Done a) slot [].
Proof. reflexivity. Qed.

Lemma run_bind_done c f slot a :
  outcome (c slot) = Done a ->
  (c ≫= f) slot
  = mkResult (outcome (f a (skippedRun_checkRunID (c slot))))
      (skippedRun_checkRunID (f a (skippedRun_checkRunID (c slot))))
      (calls (c slot) ++ calls (f a (skippedRun_checkRunID (c slot)))).
Proof. intros H. unfold mbind, Go_bind. cbv zeta. now rewrite H. Qed.

Lemma run_bind_panicked c f slot p :
  outcome (c slot) = Panicked p ->
  (c ≫= f) slot
  = mkResult (Panicked p) (skippedRun_checkRunID (c slot)) (calls (c slot)).
Proof. intros H. unfold mbind, Go_bind. cbv zeta. now rewrite H. Qed.

Lemma calls_bind c f slot :
  calls ((c ≫= f) slot)
  = (calls (c slot)
     ++ match outcome (c slot) with
        | Done a => calls (f a (skippedRun_checkRunID (c slot)))
        | Panicked _ => []
        end)%list.
Proof.
  destruct (outcome (c slot)) as [a|p] eqn:E.
  - now rewrite (run_bind_done _ _ _ _ E).
  - rewrite (run_bind_panicked _ _ _ _ E). cbn. now rewrite app_nil_r.
Qed.

Lemma Forall_calls_bind (P : Call -> Prop) c f slot :
  Forall P (calls (c slot)) ->
  (forall a slot', Forall P (calls (f a slot'))) ->
  Forall P (calls ((c ≫= f) slot)).
Proof.
  intros Hc Hf. rewrite calls_bind. apply Forall_app. split; [exact Hc|].
  destruct (outcome (c slot)); [apply Hf | constructor].
Qed.

Lemma stateless_bind c f :
  stateless c -> (forall a, stateless (f a)) -> stateless (c ≫= f).
Proof.
  intros Hc Hf slot. unfold mbind, Go_bind. cbv zeta.
  rewrite (Hc slot). cbn.
  destruct (outcome (c 0)) as [a|p]; cbn; [|reflexivity].
  rewrite (Hf a slot), (Hf a (skippedRun_checkRunID (c 0))). reflexivity.
Qed.
End GoMonad.

Lemma stateless_ret {A : Type} (a : A) : stateless (mret a : Go A).
Proof. intros slot. reflexivity. Qed.

Lemma stateless_panic {A : Type} (p : Panic) : stateless (@panic A p).
Proof. intros slot. reflexivity. Qed.

Lemma stateless_call (c : Call) : stateless (call c).
Proof. intros slot. reflexivity. Qed.

Lemma stateless_deref {A : Type} (p : option A) : stateless (deref p).
Proof. destruct p; [apply stateless_ret | apply stateless_panic]. Qed.

Lemma Forall_calls_ret {A : Type} (P : Call -> Prop) (a : A) slot :
  Forall P (calls ((mret a : Go A) slot)).
Proof. constructor. Qed.

Lemma Forall_calls_deref {A : Type} (P : Call -> Prop) (p : option A) slot :
  Forall P (calls (deref p slot)).
Proof. destruct p; constructor. Qed.

Lemma Forall_calls_call (P : Call -> Prop) (c : Call) slot :
  P c -> Forall P (calls (call c slot)).
Proof. intros H. repeat constructor. exact H. Qed.

Lemma run_bind_result {A B : Type} (c : Go A) (f : A -> Go B) (slot slot' : Z)
    (a : A) (cs : list Call) :
  c slot = mkResult (Done a) slot' cs ->
  (c ≫= f) slot
  = mkResult (outcome (f a slot')) (skippedRun_checkRunID (f a slot'))
      (cs ++ calls (f a slot')).
Proof. intros H. unfold mbind, Go_bind. cbv zeta. now rewrite H. Qed.

Lemma run_bind_nil {A B : Type} (c : Go A) (f : A -> Go B) (slot slot' : Z)
    (a : A) :
  c slot = mkResult (Done a) slot' [] -> (c ≫= f) slot = f a slot'.
Proof.
  intros H. rewrite (run_bind_result _ _ _ _ _ _ H). now destruct (f a slot').
Qed.

(** ** The registry of the skipped check run *)

Lemma canIUseCheckrunID_run (candidate stored : Z) :
  canIUseCheckrunID (Some candidate) stored
  = mkResult (Done (stored =? 0)) (if stored =? 0 then candidate else stored) [].
Proof.
  unfold canIUseCheckrunID, mbind, Go_bind, load_checkRunID. cbn.
  destruct (stored =? 0); reflexivity.
Qed.

Lemma claimAll_cons (c : Z) (rest : list Z) (stored : Z) :
  claimAll (c :: rest) stored
  = let r := claimAll rest (if stored =? 0 then c else stored) in
    match outcome r with
    | Done bs => mkResult (Done ((stored =? 0) :: bs)) (skippedRun_checkRunID r) (calls r)
    | Panicked p => mkResult (Panicked p) (skippedRun_checkRunID r) (calls r)
    end.
Proof.
  cbn [claimAll]. unfold mbind at 1. unfold Go_bind. cbv zeta.
  rewrite canIUseCheckrunID_run. cbn [outcome skippedRun_checkRunID calls].
  unfold mbind, Go_bind. cbv zeta.
  destruct (outcome (claimAll rest _)); cbn; rewrite ?app_nil_r; reflexivity.
Qed.

Lemma claimAll_occupied (candidates : list Z) (stored : Z) :
  stored <> 0 ->
  claimAll candidates stored
  = mkResult (Done (map (fun _ => false) candidates)) stored [].
Proof.
  intros Hs. induction candidates as [|c rest IH]; [reflexivity|].
  rewrite claimAll_cons. apply Z.eqb_neq in Hs. rewrite Hs. cbv zeta.
  rewrite IH. reflexivity.
Qed.

Lemma claimAll_zeros (zeros rest : list Z) :
  Forall (eq 0) zeros ->
  claimAll (zeros ++ rest)%list 0
  = let r := claimAll rest 0 in
    match outcome r with
    | Done bs =>
        mkResult (Done (map (fun _ => true) zeros ++ bs)%list)
          (skippedRun_checkRunID r) (calls r)
    | Panicked p => mkResult (Panicked p) (skippedRun_checkRunID r) (calls r)
    end.
Proof.
  induction 1 as [|z zeros Hz _ IH]; cbn [app map]; cbv zeta.
  - destruct (claimAll rest 0) as [[bs|p] s cs]; reflexivity.
  - subst z. rewrite claimAll_cons. cbn [Z.eqb]. cbv zeta. rewrite IH. cbv zeta.
    destruct (outcome (claimAll rest 0)); reflexivity.
Qed.

(** C10: the slot is occupied exactly when the stored id is not 0.  A
    claim answers [true] iff the stored id is 0 when it is made, and
    then stores the candidate; so, on a fresh registry, claiming the
    same candidate twice is refused the second time iff the candidate is
    not 0, and after a claim of candidate 0 the slot is still empty and
    a claim of any later candidate succeeds too. *)
Theorem slot_occupancy_is_nonzero_id (candidate stored later : Z) :
  canIUseCheckrunID (Some candidate) stored
  = mkResult (Done (stored =? 0)) (if stored =? 0 then candidate else stored) []
  /\ claimAll [candidate; candidate] 0
     = mkResult (Done [true; candidate =? 0]) candidate []
  /\ claimAll [0; later] 0 = mkResult (Done [true; true]) later [].
Proof.
  split; [apply canIUseCheckrunID_run|]. split.
  - rewrite !claimAll_cons. cbn. destruct (candidate =? 0); reflexivity.
  - rewrite !claimAll_cons. reflexivity.
Qed.

(** C2, as stated, fails: on a fresh registry the claims of candidates 0
    and 5 are both answered [true], and the slot ends with 5, not with
    the candidate of the first winning claim. *)
Lemma first_writer_wins_counterexample : ~ firstWriterWins [0; 5].
Proof.
  intros H. destruct (H [true; true] eq_refl) as [Hcount _].
  vm_compute in Hcount. lia.
Qed.

(** C2, amended: a claim on an empty slot (stored id 0) answers [true]
    and stores the candidate; a claim on a slot holding a nonzero id
    answers [false] and leaves it; once a nonzero id is stored no
    sequence of claims clears or overwrites it; and in every sequence of
    claims on a fresh registry the first nonzero candidate wins and is
    the id left in the slot: the claims before it (all of candidate 0)
    are answered [true] and leave the slot empty, every later claim is
    answered [false]. *)
Theorem first_nonzero_writer_wins
    (candidate stored winner : Z) (zeros rest candidates : list Z) :
  stored <> 0 -> winner <> 0 -> Forall (eq 0) zeros ->
  canIUseCheckrunID (Some candidate) 0 = mkResult (Done true) candidate []
  /\ canIUseCheckrunID (Some candidate) stored = mkResult (Done false) stored []
  /\ claimAll candidates stored
     = mkResult (Done (map (fun _ => false) candidates)) stored []
  /\ claimAll (zeros ++ winner :: rest)%list 0
     = mkResult
         (Done (map (fun _ => true) zeros ++ true :: map (fun _ => false) rest)%list)
         winner [].
Proof.
  intros Hs Hw Hz. repeat split.
  - rewrite canIUseCheckrunID_run. apply Z.eqb_neq in Hs. now rewrite Hs.
  - now apply claimAll_occupied.
  - rewrite (claimAll_zeros _ _ Hz). cbv zeta. rewrite claimAll_cons.
    cbn [Z.eqb]. cbv zeta. rewrite (claimAll_occupied _ _ Hw). reflexivity.
Qed.

Lemma first_nonzero_writer_wins_witness :
  (3 <> 0 /\ 5 <> 0 /\ Forall (eq 0) [0; 0])
  /\ claimAll ([0; 0] ++ 5 :: [7; 5; 0])%list 0
     = mkResult (Done [true; true; true; false; false; false]) 5 [].
Proof.
  assert (H3 : 3 <> 0) by lia. assert (H5 : 5 <> 0) by lia.
  assert (Hz : Forall (eq 0) [0; 0]) by (repeat constructor).
  split; [auto|].
  exact (proj2 (proj2 (proj2
    (first_nonzero_writer_wins 9 3 5 [0; 0] [7; 5; 0] [1; 2] H3 H5 Hz)))).
Defined.

(** ** Titles, summaries and the mode of [CreateStatus] *)

Lemma append_assoc (a b c : string) : (a ++ b) ++ c = a ++ b ++ c.
Proof.
  induction a as [|x a IH]; [reflexivity|].
  change (String x ((a ++ b) ++ c) = String x (a ++ b ++ c)). now f_equal.
Qed.

Lemma summaryPrefix_Sprintf (pacopts : PacOpts.t) (statusOpts : StatusOpts.t)
    (text : string) :
  Sprintf_ss_s (PacOpts.ApplicationName pacopts)
    (if negb (String.eqb (StatusOpts.OriginalPipelineRunName statusOpts) "")
     then "/" ++ StatusOpts.OriginalPipelineRunName statusOpts else "")
    text
  = summaryPrefix pacopts statusOpts ++ " " ++ text.
Proof.
  unfold Sprintf_ss_s, summaryPrefix.
  destruct (String.eqb _ ""); cbn [negb]; now rewrite !append_assoc.
Qed.

(** With a client, [CreateStatus] hands the titled status to the mode
    that the installation id selects. *)
Lemma CreateStatus_dispatch (w : World.t) (v : Provider.t) (runevent : Event.t)
    (pacopts : PacOpts.t) (statusOpts : StatusOpts.t) (client : Client.t) :
  Provider.Client v = Some client ->
  CreateStatus w v runevent pacopts statusOpts
  = if Event.InstallationID runevent >? 0
    then getOrUpdateCheckRunStatus w v runevent pacopts
           (titledStatusOpts pacopts statusOpts)
    else createStatusCommit w v runevent pacopts
           (titledStatusOpts pacopts statusOpts).
Proof. intros H. unfold CreateStatus. now rewrite H. Qed.

Ltac status_simpl :=
  cbn [StatusOpts.Title StatusOpts.Summary StatusOpts.with_Summary
       StatusOpts.with_Title StatusOpts.with_Conclusion
       StatusOpts.OriginalPipelineRunName StatusOpts.Status
       StatusOpts.Conclusion StatusOpts.PipelineRun StatusOpts.Text
       StatusOpts.DetailsURL StatusOpts.PipelineRunName] in *.

(** Case analysis on the tests of the string [x]. *)
Ltac string_cases_of x :=
  repeat match goal with
         | |- context [String.eqb x ?y] =>
             let E := fresh "E" in
             destruct (String.eqb x y) eqn:E;
             [apply String.eqb_eq in E | apply String.eqb_neq in E];
             status_simpl
         end.

(** C5, as stated, fails: for the outcome "success" the summary that is
    submitted does not end with the text of the printed table, because
    the code marks the word up in bold. *)
Lemma spec_table_counterexample :
  ~ followsSpecTable sample_pacopts (sample_status None "completed" "success").
Proof.
  intros H.
  assert (Hs : StatusOpts.Status (sample_status None "completed" "success")
               <> "in_progress") by discriminate.
  destruct (H Hs "Success" "has successfully validated your commit." eq_refl)
    as (_ & _ & Hsuffix).
  vm_compute in Hsuffix. discriminate.
Qed.

(** C5, amended: with a client configured, [CreateStatus] submits, in
    either mode, the status titled by the table of the code: for a phase
    other than "in_progress", success gives "Success" and
    "<prefix> has <b>successfully</b> validated your commit.", failure
    gives "Failed" and "<prefix> has <b>failed</b>.", skipped gives
    "Skipped" and "<prefix> is skipping this commit.", neutral gives
    "Unknown" and "<prefix> doesn't know what happened with this
    commit."; the phase "in_progress" gives "CI has Started" and
    "<prefix> is running." whatever the outcome; the prefix is the
    application name followed by "/<original-run-name>" when the
    original name is not empty. *)
Theorem titles_and_summaries (w : World.t) (v : Provider.t) (runevent : Event.t)
    (pacopts : PacOpts.t) (statusOpts : StatusOpts.t) (client : Client.t) :
  Provider.Client v = Some client ->
  let mapped := titledStatusOpts pacopts statusOpts in
  let prefix := summaryPrefix pacopts statusOpts in
  CreateStatus w v runevent pacopts statusOpts
  = (if Event.InstallationID runevent >? 0
     then getOrUpdateCheckRunStatus w v runevent pacopts mapped
     else createStatusCommit w v runevent pacopts mapped)
  /\ (StatusOpts.Status statusOpts = "in_progress" ->
      StatusOpts.Title mapped = "CI has Started"
      /\ StatusOpts.Summary mapped = prefix ++ " is running.")
  /\ (StatusOpts.Status statusOpts <> "in_progress" ->
      (StatusOpts.Conclusion statusOpts = "success" ->
       StatusOpts.Title mapped = "Success"
       /\ StatusOpts.Summary mapped
          = prefix ++ " has <b>successfully</b> validated your commit.")
      /\ (StatusOpts.Conclusion statusOpts = "failure" ->
          StatusOpts.Title mapped = "Failed"
          /\ StatusOpts.Summary mapped = prefix ++ " has <b>failed</b>.")
      /\ (StatusOpts.Conclusion statusOpts = "skipped" ->
          StatusOpts.Title mapped = "Skipped"
          /\ StatusOpts.Summary mapped = prefix ++ " is skipping this commit.")
      /\ (StatusOpts.Conclusion statusOpts = "neutral" ->
          StatusOpts.Title mapped = "Unknown"
          /\ StatusOpts.Summary mapped
             = prefix ++ " doesn't know what happened with this commit.")).
Proof.
  intros Hclient mapped prefix.
  split; [now apply CreateStatus_dispatch with client|].
  subst mapped prefix. unfold titledStatusOpts. cbv zeta.
  split; [|split; [|split; [|split]]]; intros;
    string_cases_of (StatusOpts.Conclusion statusOpts);
    string_cases_of (StatusOpts.Status statusOpts); try congruence;
    (split; [reflexivity|]);
    match goal with
    | |- Sprintf_ss_s _ (if negb (String.eqb _ "") then _ else _) ?t = _ =>
        exact (summaryPrefix_Sprintf pacopts statusOpts t)
    end.
Qed.

Lemma titles_and_summaries_witness :
  Provider.Client sample_provider = Some sample_client
  /\ StatusOpts.Title
       (titledStatusOpts sample_pacopts (sample_status None "in_progress" "failure"))
     = "CI has Started"
  /\ StatusOpts.Summary
       (titledStatusOpts sample_pacopts (sample_status None "in_progress" "failure"))
     = "PAC/build is running.".
Proof.
  split; [reflexivity|].
  exact (proj1 (proj2
    (titles_and_summaries sample_world sample_provider (sample_event 1)
       sample_pacopts (sample_status None "in_progress" "failure")
       sample_client eq_refl)) eq_refl).
Defined.

(** ** Commit-status mode *)

Ltac go_run :=
  unfold mbind, Go_bind, mret, Go_ret, deref, call, panic; cbn.

Lemma commitStatusOpts_Conclusion (status : StatusOpts.t) :
  StatusOpts.Conclusion (commitStatusOpts status)
  = if String.eqb (StatusOpts.Status status) "in_progress" then "pending"
    else if String.eqb (StatusOpts.Conclusion status) "skipped"
            || String.eqb (StatusOpts.Conclusion status) "neutral"
         then "success"
         else StatusOpts.Conclusion status.
Proof.
  unfold commitStatusOpts.
  destruct (String.eqb (StatusOpts.Conclusion status) "skipped"
            || String.eqb (StatusOpts.Conclusion status) "neutral");
    status_simpl; destruct (String.eqb (StatusOpts.Status status) "in_progress");
    reflexivity.
Qed.

(** C6: in commit-status mode, with a client, exactly one flat status is
    submitted, before anything else; its state is "pending" when the
    phase is "in_progress", whatever the outcome; otherwise it is
    "success" for the outcomes "skipped" and "neutral", and the outcome
    itself for any other. *)
Theorem commit_status_coercion (w : World.t) (v : Provider.t)
    (runevent : Event.t) (pacopts : PacOpts.t) (status : StatusOpts.t)
    (slot : Z) (client : Client.t) :
  Provider.Client v = Some client ->
  exists st rest,
    calls (createStatusCommit w v runevent pacopts status slot)
    = CreateRepoStatus (Event.Organization runevent) (Event.Repository runevent)
        (Event.SHA runevent) st :: rest
    /\ createStatusCalls rest = []
    /\ (StatusOpts.Status status = "in_progress" ->
        RepoStatus.State st = Some "pending")
    /\ (StatusOpts.Status status <> "in_progress" ->
        StatusOpts.Conclusion status = "skipped"
        \/ StatusOpts.Conclusion status = "neutral" ->
        RepoStatus.State st = Some "success")
    /\ (StatusOpts.Status status <> "in_progress" ->
        StatusOpts.Conclusion status <> "skipped" ->
        StatusOpts.Conclusion status <> "neutral" ->
        RepoStatus.State st = Some (StatusOpts.Conclusion status)).
Proof.
  intros Hclient. eexists.
  exists (tail (calls (createStatusCommit w v runevent pacopts status slot))).
  unfold createStatusCommit. cbv zeta. rewrite Hclient.
  split; [|split].
  - go_run. destruct (Client.Repositories_CreateStatus _ _ _ _ _); cbn;
      [reflexivity|].
    match goal with |- context [if ?b then _ else _] => destruct b end; cbn;
      [destruct (Client.Issues_CreateComment _ _ _ _ _)|]; reflexivity.
  - go_run. destruct (Client.Repositories_CreateStatus _ _ _ _ _); cbn;
      [reflexivity|].
    match goal with |- context [if ?b then _ else _] => destruct b end; cbn;
      [destruct (Client.Issues_CreateComment _ _ _ _ _)|]; reflexivity.
  - cbn [RepoStatus.State]. rewrite commitStatusOpts_Conclusion.
    split; [|split].
    + intros ->. reflexivity.
    + intros Hs [Hc|Hc]; apply String.eqb_neq in Hs; rewrite Hs, Hc; reflexivity.
    + intros Hs H1 H2. apply String.eqb_neq in Hs, H1, H2.
      now rewrite Hs, H1, H2.
Qed.

Lemma commit_status_coercion_witness :
  Provider.Client sample_provider = Some sample_client
  /\ exists st rest,
       calls (createStatusCommit sample_world sample_provider (sample_event 0)
                sample_pacopts (sample_status None "in_progress" "skipped") 0)
       = CreateRepoStatus "org" "repo" "0a1b2c" st :: rest
       /\ RepoStatus.State st = Some "pending".
Proof.
  split; [reflexivity|].
  destruct (commit_status_coercion sample_world sample_provider (sample_event 0)
              sample_pacopts (sample_status None "in_progress" "skipped") 0
              sample_client eq_refl)
    as (st & rest & Hcalls & _ & Hpending & _).
  exists st, rest. split; [exact Hcalls | exact (Hpending eq_refl)].
Defined.

(** ** The extractor of annotations *)

Ltac stateless_tac :=
  repeat first
    [ apply stateless_ret | apply stateless_call | apply stateless_panic
    | apply stateless_deref
    | apply stateless_bind; [|intros]
    | match goal with
      | |- stateless (match ?x with _ => _ end) => destruct x
      end ].

Lemma subexpResults_stateless (names : list string) :
  forall i matches results, stateless (subexpResults names i matches results).
Proof.
  induction names as [|name names IH]; intros i matches results; cbn.
  - apply stateless_ret.
  - destruct (negb (Nat.eqb i 0) && negb (String.eqb name "")); [|apply IH].
    destruct (matches !! i); [apply IH | apply stateless_panic].
Qed.

Lemma errlineAnnotation_stateless (r : Regexp.t) (pacopts : PacOpts.t)
    (errline : string) :
  stateless (errlineAnnotation r pacopts errline).
Proof.
  unfold errlineAnnotation. cbv zeta.
  destruct (negb (Regexp.MatchString r errline)); [apply stateless_ret|].
  apply stateless_bind; [apply subexpResults_stateless|]. intros results.
  stateless_tac.
Qed.

(** What the loop over the subexpression names leaves in [results],
    when the submatches are as many as the names ask for. *)
Lemma subexpResults_run (names : list string) :
  forall (i : nat) (matches : list string) (results : gmap string string) slot,
    (i + length names <= length matches)%nat ->
    exists res : gmap string string,
      subexpResults names i matches results slot = mkResult (Done res) slot []
      /\ (forall name, name ∉ names -> res !! name = results !! name)
      /\ (forall name (j : nat) value,
            names !! j = Some name -> (i + j)%nat <> 0%nat -> name <> "" ->
            (forall j' : nat, names !! j' = Some name -> j' = j) ->
            matches !! (i + j)%nat = Some value ->
            res !! name = Some value).
Proof.
  induction names as [|name0 names IH]; intros i matches results slot Hlen.
  - exists results. split; [reflexivity|]. split; [reflexivity|].
    intros name j value Hj. now rewrite lookup_nil in Hj.
  - cbn [length] in Hlen. cbn [subexpResults].
    destruct (negb (Nat.eqb i 0) && negb (String.eqb name0 "")) eqn:Hcond.
    + destruct (matches !! i) as [m|] eqn:Hm.
      2:{ apply lookup_ge_None in Hm. lia. }
      destruct (IH (S i) matches (<[name0 := m]> results) slot ltac:(lia))
        as (res & Hrun & HA & HB).
      exists res. split; [exact Hrun|]. split.
      * intros name Hnot. apply not_elem_of_cons in Hnot as [Hne Hnot].
        rewrite (HA name Hnot). now apply lookup_insert_ne.
      * intros name [|j] value Hj Hnz Hname Huniq Hval.
        -- cbn in Hj. injection Hj as ->.
           replace (i + 0)%nat with i in Hval by lia.
           assert (Hnot : name ∉ names).
           { intros (j' & Hj')%list_elem_of_lookup.
             specialize (Huniq (S j') Hj'). discriminate. }
           rewrite (HA name Hnot), lookup_insert_eq. congruence.
        -- cbn in Hj. apply (HB name j value Hj); [lia | exact Hname | |].
           ++ intros j' Hj'. specialize (Huniq (S j') Hj'). lia.
           ++ now replace (S i + j)%nat with (i + S j)%nat by lia.
    + destruct (IH (S i) matches results slot ltac:(lia))
        as (res & Hrun & HA & HB).
      exists res. split; [exact Hrun|]. split.
      * intros name Hnot. apply not_elem_of_cons in Hnot as [Hne Hnot].
        exact (HA name Hnot).
      * intros name [|j] value Hj Hnz Hname Huniq Hval.
        -- cbn in Hj. injection Hj as ->. exfalso.
           apply andb_false_iff in Hcond as [Hc|Hc];
             apply negb_false_iff in Hc.
           ++ apply Nat.eqb_eq in Hc. lia.
           ++ apply String.eqb_eq in Hc. contradiction.
        -- cbn in Hj. apply (HB name j value Hj); [lia | exact Hname | |].
           ++ intros j' Hj'. specialize (Huniq (S j') Hj'). lia.
           ++ now replace (S i + j)%nat with (i + S j)%nat by lia.
Qed.

(** The results of a matching line, for a well-formed [Regexp]. *)
Lemma subexpResults_matched (r : Regexp.t) (errline : string) slot :
  Regexp.wf r -> Regexp.MatchString r errline = true ->
  exists res : gmap string string,
    subexpResults (Regexp.SubexpNames r) 0
      (Regexp.FindStringSubmatch r errline) ∅ slot
    = mkResult (Done res) slot []
    /\ (forall name, name ∉ Regexp.SubexpNames r -> res !! name = None)
    /\ (forall name value, name <> "" ->
          namedGroup r errline name value -> res !! name = Some value).
Proof.
  intros Hwf Hmatch.
  destruct (subexpResults_run (Regexp.SubexpNames r) 0
              (Regexp.FindStringSubmatch r errline) ∅ slot) as (res & Hrun & HA & HB).
  { rewrite (Hwf errline Hmatch). lia. }
  exists res. split; [exact Hrun|]. split.
  - intros name Hnot. rewrite (HA name Hnot). apply lookup_empty.
  - intros name value Hname (i & Hi & Hnth & Huniq & Hval).
    apply (HB name i value Hnth); auto.
Qed.

(** One matching line, by the groups found in it. *)
Lemma errlineAnnotation_matched (r : Regexp.t) (pacopts : PacOpts.t)
    (errline : string) slot (res : gmap string string) :
  Regexp.MatchString r errline = true ->
  subexpResults (Regexp.SubexpNames r) 0
    (Regexp.FindStringSubmatch r errline) ∅ slot
  = mkResult (Done res) slot [] ->
  errlineAnnotation r pacopts errline slot
  = match res !! "filename", res !! "line", res !! "error" with
    | None, _, _ =>
        mkResult (Done None) slot
          [Errorf (LogNoFilenameGroup (PacOpts.ErrorDetectionSimpleRegexp pacopts))]
    | Some _, None, _ =>
        mkResult (Done None) slot
          [Errorf (LogNoLineGroup (PacOpts.ErrorDetectionSimpleRegexp pacopts))]
    | Some _, Some _, None =>
        mkResult (Done None) slot
          [Errorf (LogNoErrorGroup (PacOpts.ErrorDetectionSimpleRegexp pacopts))]
    | Some filename, Some linenumber, Some errmsg =>
        match strconv_Atoi linenumber with
        | None => mkResult (Done None) slot [Errorf (LogCannotConvert linenumber)]
        | Some n =>
            mkResult
              (Done (Some {| CheckRunAnnotation.Path := strings_TrimPrefix filename "./";
                             CheckRunAnnotation.StartLine := n;
                             CheckRunAnnotation.EndLine := n;
                             CheckRunAnnotation.AnnotationLevel := "failure";
                             CheckRunAnnotation.Message := errmsg |}))
              slot []
        end
    end.
Proof.
  intros Hmatch Hrun. unfold errlineAnnotation. cbv zeta. rewrite Hmatch.
  cbn [negb]. unfold mbind at 1. unfold Go_bind. cbv zeta. rewrite Hrun.
  cbn [outcome skippedRun_checkRunID calls app].
  destruct (res !! "filename"); [|reflexivity].
  destruct (res !! "line"); [|reflexivity].
  destruct (res !! "error"); [|reflexivity].
  destruct (strconv_Atoi _); reflexivity.
Qed.

Lemma errlineAnnotation_unmatched (r : Regexp.t) (pacopts : PacOpts.t)
    (errline : string) slot :
  Regexp.MatchString r errline = false ->
  errlineAnnotation r pacopts errline slot = mkResult (Done None) slot [].
Proof. intros H. unfold errlineAnnotation. cbv zeta. now rewrite H. Qed.

(** With a well-formed [Regexp] no line panics. *)
Lemma errlineAnnotation_done (r : Regexp.t) (pacopts : PacOpts.t)
    (errline : string) slot :
  Regexp.wf r ->
  exists a, outcome (errlineAnnotation r pacopts errline slot) = Done a.
Proof.
  intros Hwf. destruct (Regexp.MatchString r errline) eqn:Hmatch.
  - destruct (subexpResults_matched r errline slot Hwf Hmatch) as (res & Hrun & _).
    rewrite (errlineAnnotation_matched r pacopts errline slot res Hmatch Hrun).
    destruct (res !! "filename"); [|eauto].
    destruct (res !! "line"); [|eauto].
    destruct (res !! "error"); [|eauto].
    destruct (strconv_Atoi _); eauto.
  - rewrite (errlineAnnotation_unmatched _ _ _ _ Hmatch). eauto.
Qed.

Ltac calls_tac :=
  repeat first
    [ apply Forall_calls_ret | apply Forall_calls_deref
    | apply Forall_calls_call; reflexivity
    | apply Forall_calls_bind; [|intros]
    | match goal with
      | |- Forall _ (calls ((match ?x with _ => _ end) _)) => destruct x
      | |- Forall _ (calls (panic _ _)) => constructor
      end ].

Lemma subexpResults_calls (P : Call -> Prop) (names : list string) :
  forall i matches results slot,
    Forall P (calls (subexpResults names i matches results slot)).
Proof.
  induction names as [|name names IH]; intros i matches results slot; cbn.
  - constructor.
  - destruct (negb (Nat.eqb i 0) && negb (String.eqb name "")); [|apply IH].
    destruct (matches !! i); [apply IH | constructor].
Qed.

Lemma errlineAnnotation_calls (r : Regexp.t) (pacopts : PacOpts.t)
    (errline : string) slot :
  Forall (fun c => isExtractorCall c = true)
    (calls (errlineAnnotation r pacopts errline slot)).
Proof.
  unfold errlineAnnotation. cbv zeta.
  destruct (negb (Regexp.MatchString r errline)); [constructor|].
  apply Forall_calls_bind; [apply subexpResults_calls|]. intros results slot'.
  calls_tac.
Qed.

Lemma errlinesAnnotations_calls (r : Regexp.t) (pacopts : PacOpts.t)
    (errlines : list string) :
  forall annotations slot,
    Forall (fun c => isExtractorCall c = true)
      (calls (errlinesAnnotations r pacopts errlines annotations slot)).
Proof.
  induction errlines as [|errline rest IH]; intros annotations slot; cbn.
  - constructor.
  - apply Forall_calls_bind; [apply errlineAnnotation_calls|].
    intros a slot'. apply IH.
Qed.

Lemma taskinfosAnnotations_calls (r : Regexp.t) (pacopts : PacOpts.t)
    (taskinfos : list TaskInfo.t) :
  forall annotations slot,
    Forall (fun c => isExtractorCall c = true)
      (calls (taskinfosAnnotations r pacopts taskinfos annotations slot)).
Proof.
  induction taskinfos as [|taskinfo rest IH]; intros annotations slot; cbn.
  - constructor.
  - apply Forall_calls_bind; [apply errlinesAnnotations_calls|].
    intros a slot'. apply IH.
Qed.

(** The loops: every line contributes its own annotations and its own
    diagnostics, whatever the lines around it. *)
Lemma errlinesAnnotations_run (r : Regexp.t) (pacopts : PacOpts.t)
    (errlines : list string) :
  Regexp.wf r ->
  forall annotations slot,
    errlinesAnnotations r pacopts errlines annotations slot
    = mkResult
        (Done (annotations ++ flat_map (lineAnnotations r pacopts) errlines)%list)
        slot
        (flat_map (fun l => calls (errlineAnnotation r pacopts l 0)) errlines).
Proof.
  intros Hwf. induction errlines as [|errline rest IH]; intros annotations slot.
  - cbn. now rewrite app_nil_r.
  - cbn [errlinesAnnotations flat_map]. unfold mbind, Go_bind. cbv zeta.
    rewrite (errlineAnnotation_stateless r pacopts errline slot).
    cbn [outcome skippedRun_checkRunID calls].
    unfold lineAnnotations at 1.
    destruct (errlineAnnotation_done r pacopts errline 0 Hwf) as (a & Ha).
    rewrite Ha. rewrite IH. cbn [outcome skippedRun_checkRunID calls].
    destruct a; cbn; rewrite <- ?app_assoc, ?app_nil_r; reflexivity.
Qed.

Lemma taskinfosAnnotations_run (r : Regexp.t) (pacopts : PacOpts.t)
    (taskinfos : list TaskInfo.t) :
  Regexp.wf r ->
  forall annotations slot,
    taskinfosAnnotations r pacopts taskinfos annotations slot
    = mkResult
        (Done (annotations
               ++ flat_map (lineAnnotations r pacopts) (errlinesOf taskinfos))%list)
        slot
        (flat_map (fun l => calls (errlineAnnotation r pacopts l 0))
           (errlinesOf taskinfos)).
Proof.
  intros Hwf. induction taskinfos as [|taskinfo rest IH]; intros annotations slot.
  - cbn. now rewrite app_nil_r.
  - cbn [taskinfosAnnotations]. unfold mbind, Go_bind. cbv zeta.
    rewrite (errlinesAnnotations_run r pacopts _ Hwf).
    cbn [outcome skippedRun_checkRunID calls]. rewrite IH.
    cbn [outcome skippedRun_checkRunID calls].
    unfold errlinesOf. cbn [map concat].
    rewrite !flat_map_app, app_assoc. reflexivity.
Qed.

(** The whole extractor, in a world whose patterns compile to
    well-formed [Regexp]s. *)
Lemma getFailuresMessageAsAnnotations_run (w : World.t) (pr : PipelineRun.t)
    (pacopts : PacOpts.t) slot :
  regexpSound w ->
  getFailuresMessageAsAnnotations w pr pacopts slot
  = match World.regexp_Compile w (PacOpts.ErrorDetectionSimpleRegexp pacopts) with
    | None =>
        mkResult (Done []) slot
          [Errorf (LogInvalidRegexp (PacOpts.ErrorDetectionSimpleRegexp pacopts))]
    | Some r =>
        match World.NewKubernetesInteraction w with
        | Some err => mkResult (Done []) slot [Errorf (LogKubeInteractionFailed err)]
        | None =>
            let errlines :=
              errlinesOf (World.CollectFailedTasksLogSnippet w pr
                            (PacOpts.ErrorDetectionNumberOfLines pacopts)) in
            mkResult (Done (flat_map (lineAnnotations r pacopts) errlines)) slot
              (CollectLogs pr (PacOpts.ErrorDetectionNumberOfLines pacopts)
               :: flat_map (fun l => calls (errlineAnnotation r pacopts l 0)) errlines)
        end
    end.
Proof.
  intros Hsound. unfold getFailuresMessageAsAnnotations. cbv zeta.
  destruct (World.regexp_Compile w _) as [r|] eqn:Hr; [|reflexivity].
  destruct (World.NewKubernetesInteraction w); [reflexivity|].
  unfold mbind, Go_bind, call. cbv zeta. cbn [outcome skippedRun_checkRunID calls].
  rewrite (taskinfosAnnotations_run r pacopts _ (Hsound _ _ Hr)). reflexivity.
Qed.

Lemma getFailuresMessageAsAnnotations_calls (w : World.t) (pr : PipelineRun.t)
    (pacopts : PacOpts.t) slot :
  Forall (fun c => isExtractorCall c = true)
    (calls (getFailuresMessageAsAnnotations w pr pacopts slot)).
Proof.
  unfold getFailuresMessageAsAnnotations. cbv zeta.
  destruct (World.regexp_Compile w _) as [r|]; [|repeat constructor].
  destruct (World.NewKubernetesInteraction w); [repeat constructor|].
  apply Forall_calls_bind; [repeat constructor|].
  intros _ slot'. apply taskinfosAnnotations_calls.
Qed.

(** The lines that the extractor skips. *)
Lemma errlineAnnotation_skipped (r : Regexp.t) (pacopts : PacOpts.t)
    (errline : string) slot :
  Regexp.wf r ->
  Regexp.MatchString r errline = false
  \/ "filename" ∉ Regexp.SubexpNames r
  \/ "line" ∉ Regexp.SubexpNames r
  \/ "error" ∉ Regexp.SubexpNames r
  \/ (exists linenumber,
        namedGroup r errline "line" linenumber
        /\ strconv_Atoi linenumber = None) ->
  outcome (errlineAnnotation r pacopts errline slot) = Done None.
Proof.
  intros Hwf Hskip.
  destruct (Regexp.MatchString r errline) eqn:Hmatch.
  2:{ now rewrite (errlineAnnotation_unmatched _ _ _ _ Hmatch). }
  destruct (subexpResults_matched r errline slot Hwf Hmatch)
    as (res & Hrun & Hmissing & Hgroup).
  rewrite (errlineAnnotation_matched r pacopts errline slot res Hmatch Hrun).
  destruct Hskip as [H|[H|[H|[H|(linenumber & H & Hconv)]]]].
  - discriminate.
  - now rewrite (Hmissing _ H).
  - rewrite (Hmissing _ H). now destruct (res !! "filename").
  - rewrite (Hmissing _ H). destruct (res !! "filename"); [|reflexivity].
    now destruct (res !! "line").
  - rewrite (Hgroup "line" linenumber ltac:(discriminate) H), Hconv.
    destruct (res !! "filename"); [|reflexivity].
    now destruct (res !! "error").
Qed.

Lemma sample_regexp_wf : Regexp.wf sample_regexp.
Proof.
  intros s H. cbn in H. apply bool_decide_eq_true in H as [l Hl].
  cbn. rewrite Hl. unfold sample_submatch in Hl.
  destruct (cutAt ":" s) as [[filename rest]|]; [|discriminate].
  destruct (cutAt ":" rest) as [[line rest']|]; [|discriminate].
  injection Hl as <-. reflexivity.
Qed.

Lemma sample_world_sound : regexpSound sample_world.
Proof.
  intros pattern r H. cbn in H.
  destruct (String.eqb pattern sample_pattern); [|discriminate].
  injection H as <-. exact sample_regexp_wf.
Qed.

Lemma sample_namedGroups (errline whole filename line errmsg : string) :
  sample_submatch errline = Some [whole; filename; line; errmsg] ->
  namedGroup sample_regexp errline "filename" filename
  /\ namedGroup sample_regexp errline "line" line
  /\ namedGroup sample_regexp errline "error" errmsg.
Proof.
  intros H.
  split; [exists 1%nat | split; [exists 2%nat | exists 3%nat]];
    (split; [lia|]; split; [reflexivity|]; split;
     [ intros [|[|[|[|j]]]] Hj; vm_compute in Hj; congruence
     | cbn; rewrite H; reflexivity ]).
Qed.

(** C7: the extractor never raises.  In a world whose patterns compile
    to well-formed [Regexp]s, it returns for every input; when the
    pattern does not compile it returns the empty sequence after one
    diagnostic; a line that does not match, or whose pattern lacks one
    of the groups filename, line and error, or whose line group is not
    an integer, yields no annotation and no error; and the result is the
    concatenation of what each line yields on its own, so the other
    lines are all processed. *)
Theorem extractor_never_raises (w : World.t) (pr : PipelineRun.t)
    (pacopts : PacOpts.t) (slot : Z) :
  regexpSound w ->
  (exists annotations,
      outcome (getFailuresMessageAsAnnotations w pr pacopts slot)
      = Done annotations)
  /\ (World.regexp_Compile w (PacOpts.ErrorDetectionSimpleRegexp pacopts) = None ->
      getFailuresMessageAsAnnotations w pr pacopts slot
      = mkResult (Done []) slot
          [Errorf (LogInvalidRegexp (PacOpts.ErrorDetectionSimpleRegexp pacopts))])
  /\ (forall r,
        World.regexp_Compile w (PacOpts.ErrorDetectionSimpleRegexp pacopts) = Some r ->
        (forall errline,
            Regexp.MatchString r errline = false
            \/ "filename" ∉ Regexp.SubexpNames r
            \/ "line" ∉ Regexp.SubexpNames r
            \/ "error" ∉ Regexp.SubexpNames r
            \/ (exists linenumber,
                  namedGroup r errline "line" linenumber
                  /\ strconv_Atoi linenumber = None) ->
            outcome (errlineAnnotation r pacopts errline slot) = Done None
            /\ lineAnnotations r pacopts errline = [])
        /\ (World.NewKubernetesInteraction w = None ->
            outcome (getFailuresMessageAsAnnotations w pr pacopts slot)
            = Done (flat_map (lineAnnotations r pacopts)
                      (errlinesOf
                         (World.CollectFailedTasksLogSnippet w pr
                            (PacOpts.ErrorDetectionNumberOfLines pacopts)))))).
Proof.
  intros Hsound.
  rewrite (getFailuresMessageAsAnnotations_run w pr pacopts slot Hsound).
  split; [|split].
  - destruct (World.regexp_Compile w _); [|eauto].
    destruct (World.NewKubernetesInteraction w); eauto.
  - now intros ->.
  - intros r Hr. rewrite Hr. split.
    + intros errline Hskip. pose proof (Hsound _ _ Hr) as Hwf. split.
      * now apply errlineAnnotation_skipped.
      * unfold lineAnnotations.
        now rewrite (errlineAnnotation_skipped r pacopts errline 0 Hwf Hskip).
    + now intros ->.
Qed.

Lemma extractor_never_raises_witness :
  regexpSound sample_world
  /\ exists annotations,
       outcome (getFailuresMessageAsAnnotations sample_world (sample_run false)
                  sample_pacopts 0)
       = Done annotations.
Proof.
  split; [exact sample_world_sound|].
  exact (proj1 (extractor_never_raises sample_world (sample_run false)
                  sample_pacopts 0 sample_world_sound)).
Defined.

(** C8: a line of the logs that matches, with the groups filename, line
    and error and an integer in the line group, yields exactly one
    annotation: its path is the filename without a leading "./", its
    start and end line are the integer, its level is "failure" and its
    message is the error group.  The extractor reads the logs and
    returns that annotation at the place of the line, between what the
    lines before it and the lines after it yield. *)
Theorem matched_line_annotation (w : World.t) (pr : PipelineRun.t)
    (pacopts : PacOpts.t) (r : Regexp.t)
    (errline filename linenumber errmsg : string) (n : Z)
    (before after : list string)
    (annotations : list CheckRunAnnotation.t) (slot : Z) :
  regexpSound w ->
  World.regexp_Compile w (PacOpts.ErrorDetectionSimpleRegexp pacopts) = Some r ->
  World.NewKubernetesInteraction w = None ->
  errlinesOf (World.CollectFailedTasksLogSnippet w pr
                (PacOpts.ErrorDetectionNumberOfLines pacopts))
  = (before ++ errline :: after)%list ->
  Regexp.MatchString r errline = true ->
  namedGroup r errline "filename" filename ->
  namedGroup r errline "line" linenumber ->
  namedGroup r errline "error" errmsg ->
  strconv_Atoi linenumber = Some n ->
  let annotation :=
    {| CheckRunAnnotation.Path := strings_TrimPrefix filename "./";
       CheckRunAnnotation.StartLine := n;
       CheckRunAnnotation.EndLine := n;
       CheckRunAnnotation.AnnotationLevel := "failure";
       CheckRunAnnotation.Message := errmsg |} in
  errlineAnnotation r pacopts errline slot = mkResult (Done (Some annotation)) slot []
  /\ errlinesAnnotations r pacopts [errline] annotations slot
     = mkResult (Done (annotations ++ [annotation])%list) slot []
  /\ lineAnnotations r pacopts errline = [annotation]
  /\ outcome (getFailuresMessageAsAnnotations w pr pacopts slot)
     = Done (flat_map (lineAnnotations r pacopts) before
             ++ annotation :: flat_map (lineAnnotations r pacopts) after)%list
  /\ (exists rest,
        calls (getFailuresMessageAsAnnotations w pr pacopts slot)
        = CollectLogs pr (PacOpts.ErrorDetectionNumberOfLines pacopts) :: rest).
Proof.
  intros Hsound Hcompile Hkube Hlines Hmatch Hf Hl He Hn annotation.
  pose proof (Hsound _ _ Hcompile) as Hwf.
  assert (Hline : forall slot',
    errlineAnnotation r pacopts errline slot'
    = mkResult (Done (Some annotation)) slot' []).
  { intros slot'.
    destruct (subexpResults_matched r errline slot' Hwf Hmatch)
      as (res & Hrun & _ & Hgroup).
    rewrite (errlineAnnotation_matched r pacopts errline slot' res Hmatch Hrun).
    rewrite (Hgroup "filename" filename ltac:(discriminate) Hf).
    rewrite (Hgroup "line" linenumber ltac:(discriminate) Hl).
    rewrite (Hgroup "error" errmsg ltac:(discriminate) He).
    now rewrite Hn. }
  assert (Hone : lineAnnotations r pacopts errline = [annotation]).
  { unfold lineAnnotations. now rewrite (Hline 0). }
  split; [apply Hline|]. split.
  { rewrite (errlinesAnnotations_run r pacopts [errline] Hwf).
    cbn [flat_map]. rewrite Hone, (Hline 0). cbn. now rewrite ?app_nil_r. }
  split; [exact Hone|].
  rewrite (getFailuresMessageAsAnnotations_run w pr pacopts slot Hsound).
  rewrite Hcompile, Hkube. cbv zeta. cbn [outcome calls]. split.
  - rewrite Hlines, flat_map_app. cbn [flat_map]. now rewrite Hone.
  - eexists. reflexivity.
Qed.

Lemma matched_line_annotation_witness :
  (regexpSound sample_world
   /\ Regexp.MatchString sample_regexp "main.go:42: syntax error near 'x'" = true
   /\ strconv_Atoi "42" = Some 42)
  /\ errlineAnnotation sample_regexp sample_pacopts
       "main.go:42: syntax error near 'x'" 0
     = mkResult
         (Done (Some {| CheckRunAnnotation.Path := "main.go";
                        CheckRunAnnotation.StartLine := 42;
                        CheckRunAnnotation.EndLine := 42;
                        CheckRunAnnotation.AnnotationLevel := "failure";
                        CheckRunAnnotation.Message := "syntax error near 'x'" |}))
         0 []
  /\ errlineAnnotation sample_regexp sample_pacopts
       "./pkg/foo.go:7: undefined: bar" 0
     = mkResult
         (Done (Some {| CheckRunAnnotation.Path := "pkg/foo.go";
                        CheckRunAnnotation.StartLine := 7;
                        CheckRunAnnotation.EndLine := 7;
                        CheckRunAnnotation.AnnotationLevel := "failure";
                        CheckRunAnnotation.Message := "undefined: bar" |}))
         0 []
  /\ outcome (getFailuresMessageAsAnnotations sample_world (sample_run false)
                sample_pacopts 0)
     = Done [ {| CheckRunAnnotation.Path := "main.go";
                 CheckRunAnnotation.StartLine := 42;
                 CheckRunAnnotation.EndLine := 42;
                 CheckRunAnnotation.AnnotationLevel := "failure";
                 CheckRunAnnotation.Message := "syntax error near 'x'" |};
              {| CheckRunAnnotation.Path := "pkg/foo.go";
                 CheckRunAnnotation.StartLine := 7;
                 CheckRunAnnotation.EndLine := 7;
                 CheckRunAnnotation.AnnotationLevel := "failure";
                 CheckRunAnnotation.Message := "undefined: bar" |} ].
Proof.
  split; [split; [exact sample_world_sound | split; reflexivity]|].
  destruct (sample_namedGroups "main.go:42: syntax error near 'x'"
              _ "main.go" "42" "syntax error near 'x'" eq_refl)
    as (Hf & Hl & He).
  destruct (sample_namedGroups "./pkg/foo.go:7: undefined: bar"
              _ "./pkg/foo.go" "7" "undefined: bar" eq_refl)
    as (Hf' & Hl' & He').
  pose proof (matched_line_annotation sample_world (sample_run false)
                sample_pacopts sample_regexp
                "main.go:42: syntax error near 'x'" "main.go" "42"
                "syntax error near 'x'" 42
                ["go build ./..."]
                ["./pkg/foo.go:7: undefined: bar"; "util.go:N/A: cannot locate"]
                [] 0 sample_world_sound eq_refl eq_refl eq_refl eq_refl
                Hf Hl He eq_refl) as Hmain.
  pose proof (matched_line_annotation sample_world (sample_run false)
                sample_pacopts sample_regexp
                "./pkg/foo.go:7: undefined: bar" "./pkg/foo.go" "7"
                "undefined: bar" 7
                ["go build ./..."; "main.go:42: syntax error near 'x'"]
                ["util.go:N/A: cannot locate"]
                [] 0 sample_world_sound eq_refl eq_refl eq_refl eq_refl
                Hf' Hl' He' eq_refl) as Hfoo.
  cbv zeta in Hmain, Hfoo.
  destruct Hmain as (Hline & _ & _ & Hall & _).
  destruct Hfoo as (Hline' & _).
  split; [exact Hline|]. split; [exact Hline'|].
  rewrite Hall. reflexivity.
Defined.

Lemma taskinfosAnnotations_stateless (r : Regexp.t) (pacopts : PacOpts.t)
    (taskinfos : list TaskInfo.t) :
  forall annotations, stateless (taskinfosAnnotations r pacopts taskinfos annotations).
Proof.
  assert (Hlines : forall errlines annotations,
             stateless (errlinesAnnotations r pacopts errlines annotations)).
  { induction errlines as [|errline rest IH]; intros annotations; cbn.
    - apply stateless_ret.
    - apply stateless_bind; [apply errlineAnnotation_stateless|].
      intros a. apply IH. }
  induction taskinfos as [|taskinfo rest IH]; intros annotations; cbn.
  - apply stateless_ret.
  - apply stateless_bind; [apply Hlines|]. intros a. apply IH.
Qed.

Lemma getFailuresMessageAsAnnotations_stateless (w : World.t)
    (pr : PipelineRun.t) (pacopts : PacOpts.t) :
  stateless (getFailuresMessageAsAnnotations w pr pacopts).
Proof.
  unfold getFailuresMessageAsAnnotations. cbv zeta.
  destruct (World.regexp_Compile w _); [|stateless_tac].
  destruct (World.NewKubernetesInteraction w); [stateless_tac|].
  apply stateless_bind; [apply stateless_call|].
  intros _. apply taskinfosAnnotations_stateless.
Qed.

(** ** Check-run mode *)

Lemma canIUseCheckrunID_calls (P : Call -> Prop) (checkrunid : option Z) slot :
  Forall P (calls (canIUseCheckrunID checkrunid slot)).
Proof.
  unfold canIUseCheckrunID, mbind, Go_bind, load_checkRunID. cbn.
  destruct (slot =? 0); [destruct checkrunid|]; constructor.
Qed.

Lemma getExistingCheckRunID_range_calls (P : Call -> Prop)
    (status : StatusOpts.t) (checkruns : list (option CheckRun.t)) :
  forall slot, Forall P (calls (getExistingCheckRunID_range status checkruns slot)).
Proof.
  induction checkruns as [|checkrun rest IH]; intros slot; cbn.
  - constructor.
  - apply Forall_calls_bind.
    + destruct (isSkippedCheckrun checkrun); [|constructor].
      apply Forall_calls_bind; [apply Forall_calls_deref|].
      intros run slot'. apply canIUseCheckrunID_calls.
    + intros claimed slot'. destruct claimed; calls_tac. apply IH.
Qed.

Lemma getExistingCheckRunID_calls (v : Provider.t) (runevent : Event.t)
    (status : StatusOpts.t) slot :
  Forall (fun c => isLookupCall c = true)
    (calls (getExistingCheckRunID v runevent status slot)).
Proof.
  unfold getExistingCheckRunID. cbv zeta. calls_tac.
  apply getExistingCheckRunID_range_calls.
Qed.

Lemma createCheckRunStatus_calls (w : World.t) (v : Provider.t)
    (runevent : Event.t) (pacopts : PacOpts.t) (status : StatusOpts.t) slot :
  Forall (fun c => isLookupCall c = true)
    (calls (createCheckRunStatus w v runevent pacopts status slot)).
Proof. unfold createCheckRunStatus. cbv zeta. calls_tac. Qed.

Lemma findOrCreateCheckRunID_calls (w : World.t) (v : Provider.t)
    (runevent : Event.t) (pacopts : PacOpts.t) (statusOpts : StatusOpts.t) slot :
  Forall (fun c => isLookupCall c = true)
    (calls (findOrCreateCheckRunID w v runevent pacopts statusOpts slot)).
Proof.
  unfold findOrCreateCheckRunID.
  apply Forall_calls_bind; [apply getExistingCheckRunID_calls|].
  intros [existing err] slot'.
  apply Forall_calls_bind.
  - destruct existing; [constructor|].
    apply Forall_calls_bind; [apply createCheckRunStatus_calls|].
    intros [checkRunID err'] slot''. destruct err'; constructor.
  - intros created slot''. unfold metadataPatch. calls_tac.
Qed.

Lemma lookup_calls_no_update (cs : list Call) :
  Forall (fun c => isLookupCall c = true) cs ->
  updateCheckRunCalls cs = []
  /\ Forall (fun c => isExtractorCall c = false) cs.
Proof.
  induction 1 as [|c cs Hc _ [IH1 IH2]]; [split; constructor|].
  destruct c; try discriminate; cbn; (split; [exact IH1 | now constructor]).
Qed.

Lemma extractor_calls_no_update (cs : list Call) :
  Forall (fun c => isExtractorCall c = true) cs -> updateCheckRunCalls cs = [].
Proof.
  induction 1 as [|c cs Hc _ IH]; [reflexivity|].
  destruct c; try discriminate; exact IH.
Qed.

Lemma outputAnnotations_calls (w : World.t) (pacopts : PacOpts.t)
    (statusOpts : StatusOpts.t) slot :
  Forall (fun c => isExtractorCall c = true)
    (calls (outputAnnotations w pacopts statusOpts slot)).
Proof.
  unfold outputAnnotations.
  destruct (StatusOpts.PipelineRun statusOpts); [|constructor].
  destruct (PacOpts.ErrorDetection pacopts); [|constructor].
  apply Forall_calls_bind; [apply getFailuresMessageAsAnnotations_calls|].
  constructor.
Qed.

Lemma outputAnnotations_off (w : World.t) (pacopts : PacOpts.t)
    (statusOpts : StatusOpts.t) slot :
  StatusOpts.PipelineRun statusOpts = None
  \/ PacOpts.ErrorDetection pacopts = false ->
  outputAnnotations w pacopts statusOpts slot = mkResult (Done None) slot [].
Proof.
  unfold outputAnnotations. intros [->| ->]; [reflexivity|].
  now destruct (StatusOpts.PipelineRun statusOpts).
Qed.

Lemma outputAnnotations_on (w : World.t) (pacopts : PacOpts.t)
    (statusOpts : StatusOpts.t) slot annotations :
  is_Some (StatusOpts.PipelineRun statusOpts) ->
  PacOpts.ErrorDetection pacopts = true ->
  outcome (outputAnnotations w pacopts statusOpts slot) = Done annotations ->
  is_Some annotations.
Proof.
  unfold outputAnnotations. intros [pr ->] ->.
  unfold mbind, Go_bind. cbv zeta.
  destruct (outcome (getFailuresMessageAsAnnotations w pr pacopts slot));
    cbn; [|discriminate].
  intros [= <-]. eauto.
Qed.

Lemma outputAnnotations_done (w : World.t) (pacopts : PacOpts.t)
    (statusOpts : StatusOpts.t) slot :
  regexpSound w ->
  exists annotations,
    outputAnnotations w pacopts statusOpts slot
    = mkResult (Done annotations) slot
        (calls (outputAnnotations w pacopts statusOpts slot)).
Proof.
  intros Hsound. unfold outputAnnotations.
  destruct (StatusOpts.PipelineRun statusOpts) as [pr|]; [|eexists; reflexivity].
  destruct (PacOpts.ErrorDetection pacopts); [|eexists; reflexivity].
  unfold mbind, Go_bind. cbv zeta.
  rewrite (getFailuresMessageAsAnnotations_run w pr pacopts slot Hsound).
  destruct (World.regexp_Compile w _); [|eexists; cbn; reflexivity].
  destruct (World.NewKubernetesInteraction w); eexists; cbn;
    rewrite ?app_nil_r; reflexivity.
Qed.

(** The calls of the last stage: those of the extractor, then at most
    one update, of the check run resolved before, with the options built
    from the status. *)
Lemma submitCheckRunStatus_calls (w : World.t) (v : Provider.t)
    (runevent : Event.t) (pacopts : PacOpts.t) (statusOpts : StatusOpts.t)
    (checkRunID : option Z) slot :
  exists updates,
    calls (submitCheckRunStatus w v runevent pacopts statusOpts checkRunID slot)
    = (calls (outputAnnotations w pacopts statusOpts slot) ++ updates)%list
    /\ (updates = []
        \/ exists id annotations,
             checkRunID = Some id
             /\ outcome (outputAnnotations w pacopts statusOpts slot)
                = Done annotations
             /\ updates
                = [UpdateCheckRun (Event.Organization runevent)
                     (Event.Repository runevent) id
                     (updateCheckRunOptions w pacopts statusOpts annotations)]).
Proof.
  unfold submitCheckRunStatus. rewrite calls_bind.
  destruct (outcome (outputAnnotations w pacopts statusOpts slot))
    as [annotations|p] eqn:Hann.
  2:{ exists []. split; [reflexivity | now left]. }
  cbv zeta. destruct (Provider.Client v) as [client|].
  2:{ exists []. split; [reflexivity | now left]. }
  destruct checkRunID as [id|].
  2:{ exists []. split; [reflexivity | now left]. }
  eexists. split; [go_run; reflexivity|]. right. exists id, annotations. auto.
Qed.

(** The calls of a run in check-run mode: the lookup (discovery,
    creation, patch), the extractor, the update. *)
Lemma getOrUpdateCheckRunStatus_calls (w : World.t) (v : Provider.t)
    (runevent : Event.t) (pacopts : PacOpts.t) (statusOpts : StatusOpts.t) slot :
  exists lookups extractor updates,
    calls (getOrUpdateCheckRunStatus w v runevent pacopts statusOpts slot)
    = (lookups ++ extractor ++ updates)%list
    /\ Forall (fun c => isLookupCall c = true) lookups
    /\ Forall (fun c => isExtractorCall c = true) extractor
    /\ (StatusOpts.PipelineRun statusOpts = None
        \/ PacOpts.ErrorDetection pacopts = false -> extractor = [])
    /\ (updates = []
        \/ exists id annotations,
             updates
             = [UpdateCheckRun (Event.Organization runevent)
                  (Event.Repository runevent) id
                  (updateCheckRunOptions w pacopts statusOpts annotations)]
             /\ (StatusOpts.PipelineRun statusOpts = None
                 \/ PacOpts.ErrorDetection pacopts = false -> annotations = None)
             /\ (is_Some (StatusOpts.PipelineRun statusOpts) ->
                 PacOpts.ErrorDetection pacopts = true -> is_Some annotations)).
Proof.
  assert (Hnone : exists lookups extractor updates : list Call,
    @nil Call = (lookups ++ extractor ++ updates)%list
    /\ Forall (fun c => isLookupCall c = true) lookups
    /\ Forall (fun c => isExtractorCall c = true) extractor
    /\ (StatusOpts.PipelineRun statusOpts = None
        \/ PacOpts.ErrorDetection pacopts = false -> extractor = [])
    /\ (updates = []
        \/ exists id annotations,
             updates
             = [UpdateCheckRun (Event.Organization runevent)
                  (Event.Repository runevent) id
                  (updateCheckRunOptions w pacopts statusOpts annotations)]
             /\ (StatusOpts.PipelineRun statusOpts = None
                 \/ PacOpts.ErrorDetection pacopts = false -> annotations = None)
             /\ (is_Some (StatusOpts.PipelineRun statusOpts) ->
                 PacOpts.ErrorDetection pacopts = true -> is_Some annotations))).
  { exists [], [], []. repeat split; auto. }
  unfold getOrUpdateCheckRunStatus.
  destruct (labelledCheckRunID w statusOpts) as [[found checkRunID]|err];
    [|exact Hnone].
  rewrite calls_bind.
  match goal with
  | |- context [calls (?resolve slot)] =>
      assert (Hlook : Forall (fun x => isLookupCall x = true) (calls (resolve slot)))
        by (destruct found; [constructor | apply findOrCreateCheckRunID_calls]);
      set (lookup := resolve slot) in *
  end.
  destruct (outcome lookup) as [[resolved|err]|p].
  - destruct (submitCheckRunStatus_calls w v runevent pacopts statusOpts
                resolved (skippedRun_checkRunID lookup))
      as (updates & Hcalls & Hupdates).
    exists (calls lookup),
           (calls (outputAnnotations w pacopts statusOpts
                     (skippedRun_checkRunID lookup))),
           updates.
    split; [now rewrite Hcalls|]. split; [exact Hlook|].
    split; [apply outputAnnotations_calls|]. split.
    + intros Hoff. now rewrite (outputAnnotations_off _ _ _ _ Hoff).
    + destruct Hupdates as [->|(id & annotations & _ & Hann & ->)]; [now left|].
      right. exists id, annotations. split; [reflexivity|]. split.
      * intros Hoff. rewrite (outputAnnotations_off _ _ _ _ Hoff) in Hann.
        now injection Hann as <-.
      * intros Hpr Hed. exact (outputAnnotations_on _ _ _ _ _ Hpr Hed Hann).
  - exists (calls lookup), [], []. repeat split; auto.
  - exists (calls lookup), [], []. repeat split; auto.
Qed.

(** The updates of a run in check-run mode: none, or one with the
    options built from the status. *)
Lemma getOrUpdateCheckRunStatus_updates (w : World.t) (v : Provider.t)
    (runevent : Event.t) (pacopts : PacOpts.t) (statusOpts : StatusOpts.t) slot :
  Forall
    (fun u => exists annotations,
       u.2 = updateCheckRunOptions w pacopts statusOpts annotations
       /\ (StatusOpts.PipelineRun statusOpts = None
           \/ PacOpts.ErrorDetection pacopts = false -> annotations = None)
       /\ (is_Some (StatusOpts.PipelineRun statusOpts) ->
           PacOpts.ErrorDetection pacopts = true -> is_Some annotations))
    (updateCheckRunCalls
       (calls (getOrUpdateCheckRunStatus w v runevent pacopts statusOpts slot))).
Proof.
  destruct (getOrUpdateCheckRunStatus_calls w v runevent pacopts statusOpts slot)
    as (lookups & extractor & updates & -> & Hl & He & _ & Hu).
  unfold updateCheckRunCalls. rewrite !omap_app.
  fold (updateCheckRunCalls lookups). fold (updateCheckRunCalls extractor).
  rewrite (proj1 (lookup_calls_no_update _ Hl)), (extractor_calls_no_update _ He).
  destruct Hu as [->|(id & annotations & -> & Hoff & Hon)]; cbn; [constructor|].
  constructor; [|constructor]. exists annotations. auto.
Qed.

Lemma attachedAnnotations_updateCheckRunOptions (w : World.t)
    (pacopts : PacOpts.t) (statusOpts : StatusOpts.t)
    (annotations : option (list CheckRunAnnotation.t)) :
  attachedAnnotations (updateCheckRunOptions w pacopts statusOpts annotations)
  = annotations.
Proof. reflexivity. Qed.

(** The block of lines 219-223 does not look at the registry: it is the
    extractor, run when the status has a run object and error detection
    is enabled. *)
Lemma outputAnnotations_result (w : World.t) (pacopts : PacOpts.t)
    (statusOpts : StatusOpts.t) slot :
  outputAnnotations w pacopts statusOpts slot
  = match StatusOpts.PipelineRun statusOpts with
    | Some pr =>
        if PacOpts.ErrorDetection pacopts then
          let extractor := getFailuresMessageAsAnnotations w pr pacopts 0 in
          mkResult
            match outcome extractor with
            | Done annotations => Done (Some annotations)
            | Panicked p => Panicked p
            end
            slot (calls extractor)
        else mkResult (Done None) slot []
    | None => mkResult (Done None) slot []
    end.
Proof.
  unfold outputAnnotations.
  destruct (StatusOpts.PipelineRun statusOpts) as [pr|]; [|reflexivity].
  destruct (PacOpts.ErrorDetection pacopts); [|reflexivity].
  unfold mbind, Go_bind. cbv zeta.
  rewrite (getFailuresMessageAsAnnotations_stateless w pr pacopts slot).
  cbn [outcome skippedRun_checkRunID calls].
  destruct (outcome (getFailuresMessageAsAnnotations w pr pacopts 0));
    cbn; rewrite ?app_nil_r; reflexivity.
Qed.

(** How a run in check-run mode ends.  Either it submits one update, as
    its last call, after the lookup and the extractor, with the options
    built from the status and from what the extractor returned, and
    returns the answer to it; or it submits no update at all, and then
    it does not return without an error. *)
Lemma getOrUpdateCheckRunStatus_submits (w : World.t) (v : Provider.t)
    (runevent : Event.t) (pacopts : PacOpts.t) (statusOpts : StatusOpts.t) slot :
  let r := getOrUpdateCheckRunStatus w v runevent pacopts statusOpts slot in
  (exists client lookups id annotations,
      Provider.Client v = Some client
      /\ Forall (fun c => isLookupCall c = true) lookups
      /\ outcome (outputAnnotations w pacopts statusOpts 0) = Done annotations
      /\ calls r
         = (lookups ++ calls (outputAnnotations w pacopts statusOpts 0)
            ++ [UpdateCheckRun (Event.Organization runevent)
                  (Event.Repository runevent) id
                  (updateCheckRunOptions w pacopts statusOpts annotations)])%list
      /\ outcome r
         = Done (Client.Checks_UpdateCheckRun client (Event.Organization runevent)
                   (Event.Repository runevent) id
                   (updateCheckRunOptions w pacopts statusOpts annotations)))
  \/ (updateCheckRunCalls (calls r) = [] /\ outcome r <> Done None).
Proof.
  cbv zeta. unfold getOrUpdateCheckRunStatus.
  destruct (labelledCheckRunID w statusOpts) as [[found checkRunID]|err].
  2:{ right. split; [reflexivity | discriminate]. }
  match goal with
  | |- context [calls ((?resolve ≫= _) slot)] =>
      assert (Hlook : Forall (fun x => isLookupCall x = true) (calls (resolve slot)))
        by (destruct found; [constructor | apply findOrCreateCheckRunID_calls]);
      destruct (resolve slot) as [[[resolved|err]|p] slot' lookups] eqn:Hresolve;
      cbn [calls] in Hlook;
      [rewrite (run_bind_result _ _ _ _ _ _ Hresolve)
      |rewrite (run_bind_result _ _ _ _ _ _ Hresolve)
      |rewrite (run_bind_panicked _ _ _ p) by (now rewrite Hresolve);
       rewrite Hresolve]
  end; cbn [outcome skippedRun_checkRunID calls].
  - unfold submitCheckRunStatus.
    assert (Hann : outputAnnotations w pacopts statusOpts slot'
                   = mkResult (outcome (outputAnnotations w pacopts statusOpts 0))
                       slot' (calls (outputAnnotations w pacopts statusOpts 0)))
      by (now rewrite !outputAnnotations_result;
          destruct (StatusOpts.PipelineRun statusOpts);
          [destruct (PacOpts.ErrorDetection pacopts)|]).
    pose proof (outputAnnotations_calls w pacopts statusOpts 0) as Hext.
    destruct (outcome (outputAnnotations w pacopts statusOpts 0))
      as [annotations|p] eqn:Hout.
    + rewrite (run_bind_result _ _ _ _ _ _ Hann). cbv zeta.
      destruct (Provider.Client v) as [client|] eqn:Hclient;
        [destruct resolved as [id|]|].
      * left. exists client, lookups, id, annotations.
        split; [reflexivity|]. split; [exact Hlook|]. split; [reflexivity|].
        split; reflexivity.
      * right. cbn. rewrite !app_nil_r. split; [|discriminate].
        unfold updateCheckRunCalls. rewrite omap_app.
        fold (updateCheckRunCalls lookups).
        fold (updateCheckRunCalls (calls (outputAnnotations w pacopts statusOpts 0))).
        now rewrite (proj1 (lookup_calls_no_update _ Hlook)),
          (extractor_calls_no_update _ Hext).
      * right. cbn. rewrite !app_nil_r. split; [|discriminate].
        unfold updateCheckRunCalls. rewrite omap_app.
        fold (updateCheckRunCalls lookups).
        fold (updateCheckRunCalls (calls (outputAnnotations w pacopts statusOpts 0))).
        now rewrite (proj1 (lookup_calls_no_update _ Hlook)),
          (extractor_calls_no_update _ Hext).
    + rewrite (run_bind_panicked _ _ _ p) by (now rewrite Hann).
      rewrite Hann. right. cbn. split; [|discriminate].
      unfold updateCheckRunCalls. rewrite omap_app.
      fold (updateCheckRunCalls lookups).
      fold (updateCheckRunCalls (calls (outputAnnotations w pacopts statusOpts 0))).
      now rewrite (proj1 (lookup_calls_no_update _ Hlook)),
        (extractor_calls_no_update _ Hext).
  - right. cbn. rewrite app_nil_r. split; [|discriminate].
    exact (proj1 (lookup_calls_no_update _ Hlook)).
  - right. split; [|discriminate].
    exact (proj1 (lookup_calls_no_update _ Hlook)).
Qed.

(** C1, as stated, fails: for the outcome "success", a run object and
    error detection enabled, the log source is read and the annotations
    found are attached to the update. *)
Lemma annotations_only_on_failure_counterexample :
  ~ annotationsOnlyOnFailure sample_world sample_provider (sample_event 1)
      sample_pacopts
      (sample_status (Some (sample_run false)) "completed" "success") 0.
Proof.
  intros H. unfold annotationsOnlyOnFailure in H.
  specialize (H ltac:(discriminate)). cbv zeta in H. destruct H as [H _].
  match type of H with
  | Forall _ ?cs => set (l := cs) in H; vm_compute in l; subst l
  end.
  apply Forall_cons in H as [H _]. discriminate H.
Qed.

(** C1, amended: in check-run mode the extractor is called, and its
    result attached to the update, only when the status carries a run
    object and error detection is enabled, whatever the outcome: without
    a run object or with error detection disabled the run makes no call
    of the extractor and every update it submits carries no annotations;
    with both, every update it submits carries annotations.  And the
    update is submitted: a run either ends with its one update, after
    the lookup and the calls of the extractor, which carries exactly the
    annotations that the extractor returned (none, and no call of the
    extractor, without a run object or with error detection disabled),
    or it submits no update and does not return without an error. *)
Theorem annotations_follow_error_detection (w : World.t) (v : Provider.t)
    (runevent : Event.t) (pacopts : PacOpts.t) (statusOpts : StatusOpts.t)
    (slot : Z) :
  let r := getOrUpdateCheckRunStatus w v runevent pacopts statusOpts slot in
  let cs := calls r in
  (StatusOpts.PipelineRun statusOpts = None
   \/ PacOpts.ErrorDetection pacopts = false ->
   Forall (fun c => isExtractorCall c = false) cs
   /\ Forall (fun u => attachedAnnotations u.2 = None) (updateCheckRunCalls cs))
  /\ (is_Some (StatusOpts.PipelineRun statusOpts) ->
      PacOpts.ErrorDetection pacopts = true ->
      Forall (fun u => is_Some (attachedAnnotations u.2)) (updateCheckRunCalls cs))
  /\ ((exists lookups extractor id opts,
         cs = (lookups ++ extractor
               ++ [UpdateCheckRun (Event.Organization runevent)
                     (Event.Repository runevent) id opts])%list
         /\ Forall (fun c => isLookupCall c = true) lookups
         /\ (StatusOpts.PipelineRun statusOpts = None
             \/ PacOpts.ErrorDetection pacopts = false ->
             extractor = [] /\ attachedAnnotations opts = None)
         /\ (forall pr,
               StatusOpts.PipelineRun statusOpts = Some pr ->
               PacOpts.ErrorDetection pacopts = true ->
               exists annotations,
                 (forall registry,
                     getFailuresMessageAsAnnotations w pr pacopts registry
                     = mkResult (Done annotations) registry extractor)
                 /\ attachedAnnotations opts = Some annotations))
      \/ (updateCheckRunCalls cs = [] /\ outcome r <> Done None)).
Proof.
  intros r cs. subst cs r.
  pose proof (getOrUpdateCheckRunStatus_updates w v runevent pacopts
                statusOpts slot) as Hupd.
  split; [|split].
  - intros Hoff. split.
    + destruct (getOrUpdateCheckRunStatus_calls w v runevent pacopts
                  statusOpts slot)
        as (lookups & extractor & updates & -> & Hl & _ & Hext & Hu).
      rewrite (Hext Hoff). cbn [app]. apply Forall_app. split.
      * exact (proj2 (lookup_calls_no_update _ Hl)).
      * destruct Hu as [->|(id & annotations & -> & _)]; repeat constructor.
    + eapply Forall_impl; [exact Hupd|].
      intros u (annotations & -> & Hnone & _).
      rewrite attachedAnnotations_updateCheckRunOptions. exact (Hnone Hoff).
  - intros Hpr Hed. eapply Forall_impl; [exact Hupd|].
    intros u (annotations & -> & _ & Hsome).
    rewrite attachedAnnotations_updateCheckRunOptions. exact (Hsome Hpr Hed).
  - destruct (getOrUpdateCheckRunStatus_submits w v runevent pacopts statusOpts
                slot)
      as [(client & lookups & id & annotations & _ & Hl & Hout & Hcalls & _)|Hnone];
      [left | right; exact Hnone].
    exists lookups, (calls (outputAnnotations w pacopts statusOpts 0)), id,
      (updateCheckRunOptions w pacopts statusOpts annotations).
    split; [exact Hcalls|]. split; [exact Hl|].
    rewrite attachedAnnotations_updateCheckRunOptions. split.
    + intros Hoff. rewrite (outputAnnotations_off _ _ _ 0 Hoff) in Hout |- *.
      injection Hout as <-. split; reflexivity.
    + intros pr Hpr Hed. rewrite outputAnnotations_result in Hout |- *.
      rewrite Hpr, Hed in Hout |- *. cbv zeta in Hout |- *.
      cbn [outcome calls] in Hout |- *.
      destruct (outcome (getFailuresMessageAsAnnotations w pr pacopts 0))
        as [found|p] eqn:Hfound; [|discriminate].
      injection Hout as <-. exists found. split; [|reflexivity].
      intros registry.
      rewrite (getFailuresMessageAsAnnotations_stateless w pr pacopts registry).
      now rewrite Hfound.
Qed.

Lemma annotations_follow_error_detection_witness :
  (StatusOpts.PipelineRun
     (sample_status (Some (sample_run false)) "completed" "success")
   = Some (sample_run false)
   /\ PacOpts.ErrorDetection sample_pacopts = true)
  /\ exists lookups extractor id opts,
       calls (getOrUpdateCheckRunStatus sample_world sample_provider
                (sample_event 1) sample_pacopts
                (sample_status (Some (sample_run false)) "completed" "success") 0)
       = (lookups ++ extractor ++ [UpdateCheckRun "org" "repo" id opts])%list
       /\ attachedAnnotations opts
          = Some [ {| CheckRunAnnotation.Path := "main.go";
                      CheckRunAnnotation.StartLine := 42;
                      CheckRunAnnotation.EndLine := 42;
                      CheckRunAnnotation.AnnotationLevel := "failure";
                      CheckRunAnnotation.Message := "syntax error near 'x'" |};
                   {| CheckRunAnnotation.Path := "pkg/foo.go";
                      CheckRunAnnotation.StartLine := 7;
                      CheckRunAnnotation.EndLine := 7;
                      CheckRunAnnotation.AnnotationLevel := "failure";
                      CheckRunAnnotation.Message := "undefined: bar" |} ].
Proof.
  split; [split; reflexivity|].
  pose proof (annotations_follow_error_detection sample_world sample_provider
                (sample_event 1) sample_pacopts
                (sample_status (Some (sample_run false)) "completed" "success") 0)
    as H.
  cbv zeta in H.
  destruct H as (_ & _ & [(lookups & extractor & id & opts & Hcalls & _ & _ & Hon)
                         |[_ Hfail]]).
  - destruct (Hon (sample_run false) eq_refl eq_refl) as (annotations & Hrun & Hatt).
    exists lookups, extractor, id, opts. split; [exact Hcalls|].
    rewrite Hatt. f_equal.
    pose proof (f_equal outcome (Hrun 0)) as Hout. cbn [outcome] in Hout.
    vm_compute in Hout. injection Hout as <-. reflexivity.
  - exfalso. apply Hfail. vm_compute. reflexivity.
Defined.

(** C3, as stated, fails: for the phase "in_progress" with the outcome
    "failure" the update carries a completion timestamp and the
    conclusion "failure". *)
Lemma completed_when_phase_completed_counterexample :
  ~ completedWhenPhaseCompleted sample_world sample_provider (sample_event 1)
      sample_pacopts (sample_status None "in_progress" "failure") 0.
Proof.
  intros H. unfold completedWhenPhaseCompleted in H. specialize (H eq_refl).
  match type of H with
  | Forall _ ?us => set (l := us) in H; vm_compute in l; subst l
  end.
  apply Forall_cons in H as [[_ H] _].
  destruct H as [H _]; [|discriminate H].
  intros [Hs _]. discriminate Hs.
Qed.

(** C3, amended: in check-run mode, for a run that is not cancelled,
    every update submitted carries the completion timestamp and, as
    conclusion, the outcome, exactly when the outcome is neither empty
    nor "pending", whatever the phase; otherwise it carries neither.
    And the update is submitted: the run either ends with its one
    update, which carries them so, or it submits no update and does not
    return without an error. *)
Theorem completion_follows_conclusion (w : World.t) (v : Provider.t)
    (runevent : Event.t) (pacopts : PacOpts.t) (statusOpts : StatusOpts.t)
    (slot : Z) :
  isPipelineRunCancelledOrStopped (StatusOpts.PipelineRun statusOpts) = false ->
  let r := getOrUpdateCheckRunStatus w v runevent pacopts statusOpts slot in
  let completion (opts : UpdateCheckRunOptions.t) :=
    (StatusOpts.Conclusion statusOpts <> ""
     /\ StatusOpts.Conclusion statusOpts <> "pending" ->
     UpdateCheckRunOptions.CompletedAt opts = Some (World.time_Now w)
     /\ UpdateCheckRunOptions.Conclusion opts
        = Some (StatusOpts.Conclusion statusOpts))
    /\ (StatusOpts.Conclusion statusOpts = ""
        \/ StatusOpts.Conclusion statusOpts = "pending" ->
        UpdateCheckRunOptions.CompletedAt opts = None
        /\ UpdateCheckRunOptions.Conclusion opts = None) in
  Forall (fun u => completion u.2) (updateCheckRunCalls (calls r))
  /\ ((exists before id opts,
         calls r
         = (before ++ [UpdateCheckRun (Event.Organization runevent)
                         (Event.Repository runevent) id opts])%list
         /\ updateCheckRunCalls before = []
         /\ completion opts)
      \/ (updateCheckRunCalls (calls r) = [] /\ outcome r <> Done None)).
Proof.
  intros Hrun r completion. subst r.
  assert (Hopts : forall annotations,
             completion (updateCheckRunOptions w pacopts statusOpts annotations)).
  { intros annotations. subst completion. cbv beta.
    unfold updateCheckRunOptions. cbv zeta.
    cbn [UpdateCheckRunOptions.CompletedAt UpdateCheckRunOptions.Conclusion].
    rewrite Hrun. split.
    - intros [H1 H2]. apply String.eqb_neq in H1, H2. now rewrite H1, H2.
    - intros [H|H]; rewrite H; split; reflexivity. }
  split.
  - eapply Forall_impl;
      [exact (getOrUpdateCheckRunStatus_updates w v runevent pacopts statusOpts
                slot)|].
    intros u (annotations & -> & _). apply Hopts.
  - destruct (getOrUpdateCheckRunStatus_submits w v runevent pacopts statusOpts
                slot)
      as [(client & lookups & id & annotations & _ & Hl & _ & Hcalls & _)|Hnone];
      [left | right; exact Hnone].
    exists (lookups ++ calls (outputAnnotations w pacopts statusOpts 0))%list, id,
      (updateCheckRunOptions w pacopts statusOpts annotations).
    split; [now rewrite Hcalls, app_assoc|]. split; [|apply Hopts].
    unfold updateCheckRunCalls. rewrite omap_app.
    fold (updateCheckRunCalls lookups).
    fold (updateCheckRunCalls (calls (outputAnnotations w pacopts statusOpts 0))).
    now rewrite (proj1 (lookup_calls_no_update _ Hl)),
      (extractor_calls_no_update _ (outputAnnotations_calls _ _ _ _)).
Qed.

Lemma completion_follows_conclusion_witness :
  isPipelineRunCancelledOrStopped
    (StatusOpts.PipelineRun (sample_status None "queued" "success")) = false
  /\ exists before id opts,
       calls (getOrUpdateCheckRunStatus sample_world sample_provider
                (sample_event 1) sample_pacopts
                (sample_status None "queued" "success") 0)
       = (before ++ [UpdateCheckRun "org" "repo" id opts])%list
       /\ UpdateCheckRunOptions.CompletedAt opts = Some 1700000000
       /\ UpdateCheckRunOptions.Conclusion opts = Some "success".
Proof.
  split; [reflexivity|].
  pose proof (completion_follows_conclusion sample_world sample_provider
                (sample_event 1) sample_pacopts
                (sample_status None "queued" "success") 0 eq_refl) as H.
  cbv zeta in H.
  destruct H as (_ & [(before & id & opts & Hcalls & _ & Hdone & _)|[_ Hfail]]).
  - exists before, id, opts. split; [exact Hcalls|].
    apply Hdone. split; discriminate.
  - exfalso. apply Hfail. vm_compute. reflexivity.
Defined.

(** C4: in check-run mode, when the run object is cancelled, gracefully
    cancelled or gracefully stopped, every update submitted has the
    conclusion "cancelled", whatever the outcome of the status.  And the
    update is submitted: the run either ends with its one update, whose
    conclusion is "cancelled", or it submits no update and does not
    return without an error. *)
Theorem cancellation_overrides_conclusion (w : World.t) (v : Provider.t)
    (runevent : Event.t) (pacopts : PacOpts.t) (statusOpts : StatusOpts.t)
    (slot : Z) (pr : PipelineRun.t) :
  StatusOpts.PipelineRun statusOpts = Some pr ->
  PipelineRun.IsCancelled pr = true
  \/ PipelineRun.IsGracefullyCancelled pr = true
  \/ PipelineRun.IsGracefullyStopped pr = true ->
  let r := getOrUpdateCheckRunStatus w v runevent pacopts statusOpts slot in
  isPipelineRunCancelledOrStopped (StatusOpts.PipelineRun statusOpts) = true
  /\ Forall
       (fun u => UpdateCheckRunOptions.Conclusion u.2 = Some "cancelled")
       (updateCheckRunCalls (calls r))
  /\ ((exists before id opts,
         calls r
         = (before ++ [UpdateCheckRun (Event.Organization runevent)
                         (Event.Repository runevent) id opts])%list
         /\ updateCheckRunCalls before = []
         /\ UpdateCheckRunOptions.Conclusion opts = Some "cancelled")
      \/ (updateCheckRunCalls (calls r) = [] /\ outcome r <> Done None)).
Proof.
  intros Hpr Hcancel r. subst r.
  assert (Hpred : isPipelineRunCancelledOrStopped
                    (StatusOpts.PipelineRun statusOpts) = true).
  { rewrite Hpr. unfold isPipelineRunCancelledOrStopped.
    destruct Hcancel as [H | [H | H]]; rewrite H;
      destruct (PipelineRun.IsCancelled pr),
               (PipelineRun.IsGracefullyCancelled pr);
      reflexivity. }
  assert (Hopts : forall annotations,
             UpdateCheckRunOptions.Conclusion
               (updateCheckRunOptions w pacopts statusOpts annotations)
             = Some "cancelled").
  { intros annotations. unfold updateCheckRunOptions. cbv zeta.
    cbn [UpdateCheckRunOptions.Conclusion]. now rewrite Hpred. }
  split; [exact Hpred|]. split.
  - eapply Forall_impl;
      [exact (getOrUpdateCheckRunStatus_updates w v runevent pacopts statusOpts
                slot)|].
    intros u (annotations & -> & _). apply Hopts.
  - destruct (getOrUpdateCheckRunStatus_submits w v runevent pacopts statusOpts
                slot)
      as [(client & lookups & id & annotations & _ & Hl & _ & Hcalls & _)|Hnone];
      [left | right; exact Hnone].
    exists (lookups ++ calls (outputAnnotations w pacopts statusOpts 0))%list, id,
      (updateCheckRunOptions w pacopts statusOpts annotations).
    split; [now rewrite Hcalls, app_assoc|]. split; [|apply Hopts].
    unfold updateCheckRunCalls. rewrite omap_app.
    fold (updateCheckRunCalls lookups).
    fold (updateCheckRunCalls (calls (outputAnnotations w pacopts statusOpts 0))).
    now rewrite (proj1 (lookup_calls_no_update _ Hl)),
      (extractor_calls_no_update _ (outputAnnotations_calls _ _ _ _)).
Qed.

Lemma cancellation_overrides_conclusion_witness :
  (StatusOpts.PipelineRun
     (sample_status (Some (sample_run true)) "completed" "success")
   = Some (sample_run true)
   /\ PipelineRun.IsCancelled (sample_run true) = true)
  /\ exists before id opts,
       calls (getOrUpdateCheckRunStatus sample_world sample_provider
                (sample_event 1) sample_pacopts
                (sample_status (Some (sample_run true)) "completed" "success") 0)
       = (before ++ [UpdateCheckRun "org" "repo" id opts])%list
       /\ UpdateCheckRunOptions.Conclusion opts = Some "cancelled".
Proof.
  split; [split; reflexivity|].
  pose proof (cancellation_overrides_conclusion sample_world sample_provider
                (sample_event 1) sample_pacopts
                (sample_status (Some (sample_run true)) "completed" "success")
                0 (sample_run true) eq_refl (or_introl eq_refl)) as H.
  cbv zeta in H.
  destruct H as (_ & _ & [(before & id & opts & Hcalls & _ & Hcancelled)
                         |[_ Hfail]]).
  - exists before, id, opts. split; [exact Hcalls | exact Hcancelled].
  - exfalso. apply Hfail. vm_compute. reflexivity.
Defined.

Lemma extractor_call_not_lookup (cs : list Call) :
  Forall (fun c => isExtractorCall c = true) cs ->
  Forall (fun c => isLookupCall c = false) cs.
Proof.
  intros H. eapply Forall_impl; [exact H|].
  intros c Hc. destruct c; try discriminate; reflexivity.
Qed.

(** C9: in check-run mode, with a client, when the labels of the run
    object carry a check-run id that parses as an integer, the run makes
    no discovery, creation or patch call and submits exactly one update,
    its last call, for the check run of that id; what the run returns is
    the answer of the hosting service to that update. *)
Theorem persisted_check_run_id_is_reused (w : World.t) (v : Provider.t)
    (runevent : Event.t) (pacopts : PacOpts.t) (statusOpts : StatusOpts.t)
    (slot : Z) (pr : PipelineRun.t) (label : string) (id : Z)
    (client : Client.t) :
  regexpSound w ->
  Provider.Client v = Some client ->
  StatusOpts.PipelineRun statusOpts = Some pr ->
  PipelineRun.GetLabels pr !! World.keys_CheckRunID w = Some label ->
  strconv_Atoi label = Some id ->
  exists opts,
    let r := getOrUpdateCheckRunStatus w v runevent pacopts statusOpts slot in
    outcome r
    = Done (Client.Checks_UpdateCheckRun client (Event.Organization runevent)
              (Event.Repository runevent) id opts)
    /\ Forall (fun c => isLookupCall c = false) (calls r)
    /\ updateCheckRunCalls (calls r) = [(id, opts)]
    /\ last (calls r)
       = Some (UpdateCheckRun (Event.Organization runevent)
                 (Event.Repository runevent) id opts).
Proof.
  intros Hsound Hclient Hpr Hlabel Hid.
  assert (Hlab : labelledCheckRunID w statusOpts = inl (true, Some id)).
  { unfold labelledCheckRunID. now rewrite Hpr, Hlabel, Hid. }
  destruct (outputAnnotations_done w pacopts statusOpts slot Hsound)
    as (annotations & Hann).
  pose proof (outputAnnotations_calls w pacopts statusOpts slot) as Hext.
  set (extractor := calls (outputAnnotations w pacopts statusOpts slot)) in *.
  exists (updateCheckRunOptions w pacopts statusOpts annotations). cbv zeta.
  assert (Hrun :
    getOrUpdateCheckRunStatus w v runevent pacopts statusOpts slot
    = mkResult
        (Done (Client.Checks_UpdateCheckRun client (Event.Organization runevent)
                 (Event.Repository runevent) id
                 (updateCheckRunOptions w pacopts statusOpts annotations)))
        slot
        (extractor
         ++ [UpdateCheckRun (Event.Organization runevent)
               (Event.Repository runevent) id
               (updateCheckRunOptions w pacopts statusOpts annotations)])%list).
  { unfold getOrUpdateCheckRunStatus. rewrite Hlab.
    unfold submitCheckRunStatus. rewrite Hclient. go_run.
    rewrite !Hann. reflexivity. }
  rewrite Hrun. cbn [outcome calls]. split; [reflexivity|]. split; [|split].
  - apply Forall_app. split; [now apply extractor_call_not_lookup|].
    repeat constructor.
  - unfold updateCheckRunCalls. rewrite omap_app.
    fold (updateCheckRunCalls extractor).
    now rewrite (extractor_calls_no_update _ Hext).
  - apply last_snoc.
Qed.

Lemma persisted_check_run_id_is_reused_witness :
  (regexpSound sample_world
   /\ Provider.Client sample_provider = Some sample_client
   /\ PipelineRun.GetLabels (sample_run false) !! World.keys_CheckRunID sample_world
      = Some "4711"
   /\ strconv_Atoi "4711" = Some 4711)
  /\ exists opts,
       updateCheckRunCalls
         (calls (getOrUpdateCheckRunStatus sample_world sample_provider
                   (sample_event 1) sample_pacopts
                   (sample_status (Some (sample_run false)) "completed" "failure")
                   0))
       = [(4711, opts)].
Proof.
  split; [split; [exact sample_world_sound | repeat split]|].
  destruct (persisted_check_run_id_is_reused sample_world sample_provider
              (sample_event 1) sample_pacopts
              (sample_status (Some (sample_run false)) "completed" "failure")
              0 (sample_run false) "4711" 4711 sample_client
              sample_world_sound eq_refl eq_refl eq_refl eq_refl)
    as (opts & _ & _ & Hupdates & _).
  exists opts. exact Hupdates.
Defined.

(** * Further properties of [status.go] *)

(** ** The registry through a whole reconciliation *)

Lemma stateless_keepsSlot {A : Type} (c : Go A) : stateless c -> keepsSlot c.
Proof. intros H slot _. now rewrite (H slot). Qed.

Lemma keepsSlot_bind {A B : Type} (c : Go A) (f : A -> Go B) :
  keepsSlot c -> (forall a, keepsSlot (f a)) -> keepsSlot (c ≫= f).
Proof.
  intros Hc Hf slot Hslot. unfold mbind, Go_bind. cbv zeta.
  destruct (outcome (c slot)) as [a|p]; cbn [skippedRun_checkRunID].
  - rewrite (Hc slot Hslot). now apply Hf.
  - now apply Hc.
Qed.

Lemma keepsSlot_ret {A : Type} (a : A) : keepsSlot (mret a : Go A).
Proof. apply stateless_keepsSlot, stateless_ret. Qed.

Lemma keepsSlot_deref {A : Type} (p : option A) : keepsSlot (deref p).
Proof. apply stateless_keepsSlot, stateless_deref. Qed.

Lemma keepsSlot_call (c : Call) : keepsSlot (call c).
Proof. apply stateless_keepsSlot, stateless_call. Qed.

Lemma keepsSlot_panic {A : Type} (p : Panic) : keepsSlot (@panic A p).
Proof. apply stateless_keepsSlot, stateless_panic. Qed.

Ltac keeps_tac :=
  repeat first
    [ apply keepsSlot_ret | apply keepsSlot_call | apply keepsSlot_panic
    | apply keepsSlot_deref
    | apply keepsSlot_bind; [|intros]
    | match goal with
      | |- keepsSlot (match ?x with _ => _ end) => destruct x
      end ].

Lemma canIUseCheckrunID_keepsSlot (checkrunid : option Z) :
  keepsSlot (canIUseCheckrunID checkrunid).
Proof.
  intros slot Hslot. unfold canIUseCheckrunID, mbind, Go_bind, load_checkRunID.
  cbn. apply Z.eqb_neq in Hslot. now rewrite Hslot.
Qed.

Lemma getExistingCheckRunID_range_keepsSlot (status : StatusOpts.t)
    (checkruns : list (option CheckRun.t)) :
  keepsSlot (getExistingCheckRunID_range status checkruns).
Proof.
  induction checkruns as [|checkrun rest IH]; cbn; [apply keepsSlot_ret|].
  apply keepsSlot_bind.
  - destruct (isSkippedCheckrun checkrun); [|apply keepsSlot_ret].
    apply keepsSlot_bind; [apply keepsSlot_deref|].
    intros run. apply canIUseCheckrunID_keepsSlot.
  - intros claimed. destruct claimed; keeps_tac. exact IH.
Qed.

Lemma createStatusCommit_stateless (w : World.t) (v : Provider.t)
    (runevent : Event.t) (pacopts : PacOpts.t) (status : StatusOpts.t) :
  stateless (createStatusCommit w v runevent pacopts status).
Proof. unfold createStatusCommit. cbv zeta. stateless_tac. Qed.

Lemma getOrUpdateCheckRunStatus_keepsSlot (w : World.t) (v : Provider.t)
    (runevent : Event.t) (pacopts : PacOpts.t) (statusOpts : StatusOpts.t) :
  keepsSlot (getOrUpdateCheckRunStatus w v runevent pacopts statusOpts).
Proof.
  unfold getOrUpdateCheckRunStatus.
  destruct (labelledCheckRunID w statusOpts) as [[found checkRunID]|err];
    [|apply keepsSlot_ret].
  apply keepsSlot_bind.
  - destruct found; [apply keepsSlot_ret|].
    unfold findOrCreateCheckRunID. apply keepsSlot_bind.
    + unfold getExistingCheckRunID. cbv zeta. keeps_tac.
      apply getExistingCheckRunID_range_keepsSlot.
    + intros [existing err]. unfold createCheckRunStatus, metadataPatch.
      cbv zeta. keeps_tac.
  - intros [resolved|err]; [|apply keepsSlot_ret].
    unfold submitCheckRunStatus. apply keepsSlot_bind.
    + unfold outputAnnotations.
      destruct (StatusOpts.PipelineRun statusOpts); [|apply keepsSlot_ret].
      destruct (PacOpts.ErrorDetection pacopts); [|apply keepsSlot_ret].
      apply keepsSlot_bind; [|intros; apply keepsSlot_ret].
      apply stateless_keepsSlot, getFailuresMessageAsAnnotations_stateless.
    + intros annotations. cbv zeta. keeps_tac.
Qed.

(** X1: a reconciliation never clears or overwrites the skipped check
    run once one is recorded: whatever the mode, the collaborators and
    the way the call ends, [CreateStatus] started with a nonzero id in
    the slot leaves that id there; and in commit-status mode the slot is
    never written at all. *)
Theorem reconciliation_keeps_recorded_skip (w : World.t) (v : Provider.t)
    (runevent : Event.t) (pacopts : PacOpts.t) (statusOpts : StatusOpts.t)
    (slot : Z) :
  (slot <> 0 ->
   skippedRun_checkRunID (CreateStatus w v runevent pacopts statusOpts slot) = slot)
  /\ (Event.InstallationID runevent <= 0 ->
      skippedRun_checkRunID (CreateStatus w v runevent pacopts statusOpts slot)
      = slot).
Proof.
  unfold CreateStatus. split.
  - intros Hslot. destruct (Provider.Client v); [|reflexivity].
    destruct (Event.InstallationID runevent >? 0).
    + now apply getOrUpdateCheckRunStatus_keepsSlot.
    + now rewrite (createStatusCommit_stateless _ _ _ _ _ slot).
  - intros Hid. destruct (Provider.Client v); [|reflexivity].
    destruct (Z.gtb_spec (Event.InstallationID runevent) 0); [lia|].
    now rewrite (createStatusCommit_stateless _ _ _ _ _ slot).
Qed.

Lemma reconciliation_keeps_recorded_skip_witness :
  4711 <> 0
  /\ skippedRun_checkRunID
       (CreateStatus sample_world sample_provider (sample_event 1) sample_pacopts
          (sample_status None "completed" "skipped") 4711)
     = 4711.
Proof.
  assert (H : 4711 <> 0) by lia. split; [exact H|].
  exact (proj1 (reconciliation_keeps_recorded_skip sample_world sample_provider
                  (sample_event 1) sample_pacopts
                  (sample_status None "completed" "skipped") 4711) H).
Defined.

(** ** The two modes *)

Lemma createStatusCommit_calls (w : World.t) (v : Provider.t)
    (runevent : Event.t) (pacopts : PacOpts.t) (status : StatusOpts.t) slot :
  Forall (fun c => isCommitStatusCall c = true)
    (calls (createStatusCommit w v runevent pacopts status slot)).
Proof. unfold createStatusCommit. cbv zeta. calls_tac. Qed.

Lemma getOrUpdateCheckRunStatus_no_commit_status (w : World.t) (v : Provider.t)
    (runevent : Event.t) (pacopts : PacOpts.t) (statusOpts : StatusOpts.t) slot :
  Forall (fun c => isCommitStatusCall c = false)
    (calls (getOrUpdateCheckRunStatus w v runevent pacopts statusOpts slot)).
Proof.
  destruct (getOrUpdateCheckRunStatus_calls w v runevent pacopts statusOpts slot)
    as (lookups & extractor & updates & -> & Hl & He & _ & Hu).
  rewrite !Forall_app. split; [|split].
  - eapply Forall_impl; [exact Hl|].
    intros c Hc. destruct c; try discriminate; reflexivity.
  - eapply Forall_impl; [exact He|].
    intros c Hc. destruct c; try discriminate; reflexivity.
  - destruct Hu as [->|(id & annotations & -> & _)]; repeat constructor.
Qed.

(** X2: the two modes never mix.  Without a client [CreateStatus]
    returns its configuration error and calls nothing; with an
    installation id above 0 it sends no flat status and no comment; with
    any other installation id it sends nothing but flat statuses and
    comments: no check-run request, no patch of the run, no read of the
    logs. *)
Theorem modes_are_exclusive (w : World.t) (v : Provider.t) (runevent : Event.t)
    (pacopts : PacOpts.t) (statusOpts : StatusOpts.t) (slot : Z) :
  let r := CreateStatus w v runevent pacopts statusOpts slot in
  (Provider.Client v = None ->
   r = mkResult (Done (Some "cannot set status on github no token or url set"))
         slot [])
  /\ (Event.InstallationID runevent > 0 ->
      Forall (fun c => isCommitStatusCall c = false) (calls r))
  /\ (Event.InstallationID runevent <= 0 ->
      Forall (fun c => isCommitStatusCall c = true) (calls r)).
Proof.
  cbv zeta. unfold CreateStatus. split; [|split].
  - now intros ->.
  - intros Hid. destruct (Provider.Client v); [|constructor].
    destruct (Z.gtb_spec (Event.InstallationID runevent) 0); [|lia].
    apply getOrUpdateCheckRunStatus_no_commit_status.
  - intros Hid. destruct (Provider.Client v); [|constructor].
    destruct (Z.gtb_spec (Event.InstallationID runevent) 0); [lia|].
    apply createStatusCommit_calls.
Qed.

Lemma modes_are_exclusive_witness :
  Event.InstallationID (sample_event 0) <= 0
  /\ Forall (fun c => isCommitStatusCall c = true)
       (calls (CreateStatus sample_world sample_provider (sample_event 0)
                 sample_pacopts
                 (sample_status (Some (sample_run false)) "completed" "failure") 0)).
Proof.
  assert (H : Event.InstallationID (sample_event 0) <= 0) by (cbn; lia).
  split; [exact H|].
  exact (proj2 (proj2 (modes_are_exclusive sample_world sample_provider
                         (sample_event 0) sample_pacopts
                         (sample_status (Some (sample_run false)) "completed" "failure")
                         0)) H).
Defined.

(** ** More on the extractor *)

(** X3: the extractor only reads.  Whatever the pattern, the logs and
    the way it ends, it leaves the registry of the skipped check run as
    it was, does not depend on it, and calls nothing but the log source
    and the logger: no request reaches the hosting service and the run
    is not patched. *)
Theorem extractor_is_read_only (w : World.t) (pr : PipelineRun.t)
    (pacopts : PacOpts.t) (slot : Z) :
  let r := getFailuresMessageAsAnnotations w pr pacopts slot in
  skippedRun_checkRunID r = slot
  /\ outcome r = outcome (getFailuresMessageAsAnnotations w pr pacopts 0)
  /\ calls r = calls (getFailuresMessageAsAnnotations w pr pacopts 0)
  /\ Forall (fun c => isExtractorCall c = true) (calls r).
Proof.
  cbv zeta. split; [|split; [|split]];
    try (rewrite (getFailuresMessageAsAnnotations_stateless w pr pacopts slot);
         reflexivity).
  apply getFailuresMessageAsAnnotations_calls.
Qed.

Lemma strconv_Atoi_range (s : string) (n : Z) :
  strconv_Atoi s = Some n -> minInt64 <= n <= maxInt64.
Proof.
  unfold strconv_Atoi.
  destruct (match s with
            | String "-" r => (true, r)
            | String "+" r => (false, r)
            | _ => (false, s)
            end) as [neg ds].
  destruct ds; [discriminate|].
  destruct (digits_value _ 0) as [m|]; [|discriminate]. cbv zeta.
  destruct ((minInt64 <=? (if neg then - m else m))
            && ((if neg then - m else m) <=? maxInt64)) eqn:E; [|discriminate].
  intros [= <-]. apply andb_true_iff in E as [E1 E2].
  apply Z.leb_le in E1, E2. lia.
Qed.

Lemma errlineAnnotation_well_formed (r : Regexp.t) (pacopts : PacOpts.t)
    (errline : string) slot (a : CheckRunAnnotation.t) :
  outcome (errlineAnnotation r pacopts errline slot) = Done (Some a) ->
  CheckRunAnnotation.AnnotationLevel a = "failure"
  /\ CheckRunAnnotation.StartLine a = CheckRunAnnotation.EndLine a
  /\ minInt64 <= CheckRunAnnotation.StartLine a <= maxInt64.
Proof.
  unfold errlineAnnotation. cbv zeta.
  destruct (negb (Regexp.MatchString r errline)); [discriminate|].
  unfold mbind at 1. unfold Go_bind. cbv zeta.
  destruct (subexpResults _ _ _ _ _) as [[res|p] slot' cs];
    cbn [outcome skippedRun_checkRunID calls]; [|discriminate].
  destruct (res !! "filename"); [|discriminate].
  destruct (res !! "line") as [linenumber|]; [|discriminate].
  destruct (res !! "error"); [|discriminate].
  destruct (strconv_Atoi linenumber) as [n|] eqn:Hn; [|discriminate].
  cbn. intros [= <-]. cbn. repeat split; try reflexivity;
    apply (strconv_Atoi_range _ _ Hn).
Qed.

Lemma errlinesAnnotations_well_formed (P : CheckRunAnnotation.t -> Prop)
    (r : Regexp.t) (pacopts : PacOpts.t) :
  (forall errline slot a,
      outcome (errlineAnnotation r pacopts errline slot) = Done (Some a) -> P a) ->
  forall errlines annotations slot result,
    Forall P annotations ->
    outcome (errlinesAnnotations r pacopts errlines annotations slot) = Done result ->
    Forall P result
    /\ (length result <= length annotations + length errlines)%nat.
Proof.
  intros Hline. induction errlines as [|errline rest IH];
    intros annotations slot result Hann; cbn [errlinesAnnotations].
  - intros [= <-]. split; [exact Hann | cbn; lia].
  - destruct (outcome (errlineAnnotation r pacopts errline slot)) as [a|p] eqn:E.
    + rewrite (run_bind_done _ _ _ _ E). cbn [outcome]. intros Hrest.
      apply IH in Hrest as [Hall Hlen].
      * split; [exact Hall|]. cbn [length].
        destruct a; rewrite ?length_app in Hlen; cbn in Hlen; lia.
      * destruct a as [a|]; [|exact Hann].
        apply Forall_app. split; [exact Hann|].
        constructor; [|constructor]. exact (Hline _ _ _ E).
    + rewrite (run_bind_panicked _ _ _ _ E). discriminate.
Qed.

Lemma taskinfosAnnotations_well_formed (P : CheckRunAnnotation.t -> Prop)
    (r : Regexp.t) (pacopts : PacOpts.t) :
  (forall errline slot a,
      outcome (errlineAnnotation r pacopts errline slot) = Done (Some a) -> P a) ->
  forall taskinfos annotations slot result,
    Forall P annotations ->
    outcome (taskinfosAnnotations r pacopts taskinfos annotations slot) = Done result ->
    Forall P result
    /\ (length result <= length annotations + length (errlinesOf taskinfos))%nat.
Proof.
  intros Hline. induction taskinfos as [|taskinfo rest IH];
    intros annotations slot result Hann; cbn [taskinfosAnnotations].
  - intros [= <-]. split; [exact Hann | cbn; lia].
  - destruct (outcome (errlinesAnnotations r pacopts
                         (strings_Split (TaskInfo.LogSnippet taskinfo) LF)
                         annotations slot)) as [anns|p] eqn:E.
    + rewrite (run_bind_done _ _ _ _ E). cbn [outcome]. intros Hrest.
      destruct (errlinesAnnotations_well_formed P r pacopts Hline _ _ _ _ Hann E)
        as [Hall1 Hlen1].
      apply (IH _ _ _ Hall1) in Hrest as [Hall Hlen].
      split; [exact Hall|]. unfold errlinesOf in *. cbn [map concat].
      rewrite length_app. lia.
    + rewrite (run_bind_panicked _ _ _ _ E). discriminate.
Qed.

(** X4: whatever the extractor returns is well formed and bounded: each
    annotation has the level "failure", one line (start and end are
    equal) that is an [int], and there are at most as many annotations
    as lines in the snippets that the log source returned. *)
Theorem annotations_are_well_formed (w : World.t) (pr : PipelineRun.t)
    (pacopts : PacOpts.t) (slot : Z) (annotations : list CheckRunAnnotation.t) :
  outcome (getFailuresMessageAsAnnotations w pr pacopts slot) = Done annotations ->
  Forall
    (fun a =>
       CheckRunAnnotation.AnnotationLevel a = "failure"
       /\ CheckRunAnnotation.StartLine a = CheckRunAnnotation.EndLine a
       /\ minInt64 <= CheckRunAnnotation.StartLine a <= maxInt64)
    annotations
  /\ (length annotations
      <= length (errlinesOf
                   (World.CollectFailedTasksLogSnippet w pr
                      (PacOpts.ErrorDetectionNumberOfLines pacopts))))%nat.
Proof.
  unfold getFailuresMessageAsAnnotations. cbv zeta.
  destruct (World.regexp_Compile w _) as [r|].
  2:{ cbn. intros [= <-]. split; [constructor | cbn; lia]. }
  destruct (World.NewKubernetesInteraction w).
  { cbn. intros [= <-]. split; [constructor | cbn; lia]. }
  unfold mbind at 1. unfold Go_bind, call. cbv zeta.
  cbn [outcome skippedRun_checkRunID calls]. intros H.
  destruct (outcome (taskinfosAnnotations r pacopts _ [] slot)) as [anns|p] eqn:E;
    [|discriminate].
  cbn in H. injection H as <-.
  exact (taskinfosAnnotations_well_formed _ r pacopts
           (errlineAnnotation_well_formed r pacopts) _ [] slot anns
           (Forall_nil_2 _) E).
Qed.

Lemma annotations_are_well_formed_witness :
  exists annotations,
    outcome (getFailuresMessageAsAnnotations sample_world (sample_run false)
               sample_pacopts 0) = Done annotations
    /\ length annotations = 2%nat
    /\ Forall (fun a => CheckRunAnnotation.AnnotationLevel a = "failure")
         annotations.
Proof.
  eexists. split; [vm_compute; reflexivity|]. split; [reflexivity|].
  eapply Forall_impl;
    [exact (proj1 (annotations_are_well_formed sample_world (sample_run false)
                     sample_pacopts 0 _ ltac:(vm_compute; reflexivity)))|].
  intros a [H _]. exact H.
Defined.

(** ** The check-run id kept in the labels of the run *)

(** X5: a run whose check-run label is not an integer stops the
    reconciliation at once: the error is returned, nothing is asked of the
    hosting service or of the cluster, and the registry is untouched. *)
Theorem unparsable_label_aborts (w : World.t) (v : Provider.t)
    (runevent : Event.t) (pacopts : PacOpts.t) (statusOpts : StatusOpts.t)
    (slot : Z) (pr : PipelineRun.t) (label : string) :
  StatusOpts.PipelineRun statusOpts = Some pr ->
  PipelineRun.GetLabels pr !! World.keys_CheckRunID w = Some label ->
  strconv_Atoi label = None ->
  getOrUpdateCheckRunStatus w v runevent pacopts statusOpts slot
  = mkResult (Done (Some "api error: cannot convert checkrunid")) slot [].
Proof.
  intros Hpr Hlabel Hatoi. unfold getOrUpdateCheckRunStatus, labelledCheckRunID.
  rewrite Hpr, Hlabel, Hatoi. reflexivity.
Qed.

Lemma unparsable_label_aborts_witness :
  getOrUpdateCheckRunStatus sample_world sample_provider (sample_event 1)
    sample_pacopts
    (sample_status
       (Some {| PipelineRun.GetLabels :=
                  {[ "pipelinesascode.tekton.dev/check-run-id" := "47x1" ]};
                PipelineRun.IsCancelled := false;
                PipelineRun.IsGracefullyCancelled := false;
                PipelineRun.IsGracefullyStopped := false |})
       "completed" "success") 5
  = mkResult (Done (Some "api error: cannot convert checkrunid")) 5 [].
Proof.
  eapply unparsable_label_aborts; reflexivity.
Defined.

Lemma digits_value_of_uint_acc (d : Decimal.uint) (acc : positive) :
  digits_value (NilEmpty.string_of_uint d) (Z.pos acc)
  = Some (Z.pos (Pos.of_uint_acc d acc)).
Proof.
  revert acc. induction d; intros acc; cbn [NilEmpty.string_of_uint digits_value];
    [reflexivity|..];
    (change (digit_of _) with (Some 0) || change (digit_of _) with (Some 1)
     || change (digit_of _) with (Some 2) || change (digit_of _) with (Some 3)
     || change (digit_of _) with (Some 4) || change (digit_of _) with (Some 5)
     || change (digit_of _) with (Some 6) || change (digit_of _) with (Some 7)
     || change (digit_of _) with (Some 8) || change (digit_of _) with (Some 9));
    cbv iota beta; cbn [Pos.of_uint_acc];
    match goal with
    | |- digits_value _ ?z = Some (Z.pos (Pos.of_uint_acc _ ?p)) =>
        replace z with (Z.pos p) by lia
    end; apply IHd.
Qed.

Lemma digits_value_of_uint (d : Decimal.uint) :
  digits_value (NilEmpty.string_of_uint d) 0 = Some (Z.of_N (Pos.of_uint d)).
Proof.
  induction d; cbn [NilEmpty.string_of_uint digits_value Pos.of_uint];
    [reflexivity|..];
    (change (digit_of _) with (Some 0) || change (digit_of _) with (Some 1)
     || change (digit_of _) with (Some 2) || change (digit_of _) with (Some 3)
     || change (digit_of _) with (Some 4) || change (digit_of _) with (Some 5)
     || change (digit_of _) with (Some 6) || change (digit_of _) with (Some 7)
     || change (digit_of _) with (Some 8) || change (digit_of _) with (Some 9));
    cbv iota beta; [exact IHd|..];
    cbn [Z.of_N];
    match goal with
    | |- digits_value _ ?z = Some (Z.pos (Pos.of_uint_acc _ ?p)) =>
        change z with (Z.pos p)
    end; apply digits_value_of_uint_acc.
Qed.

Lemma digits_value_to_uint (p : positive) :
  digits_value (NilEmpty.string_of_uint (Pos.to_uint p)) 0 = Some (Z.pos p).
Proof.
  rewrite digits_value_of_uint, DecimalPos.Unsigned.of_to. reflexivity.
Qed.

Lemma strconv_Atoi_digits (d : Decimal.uint) (neg : bool) :
  d <> Decimal.Nil ->
  strconv_Atoi ((if neg then "-" else "") ++ NilEmpty.string_of_uint d)
  = match digits_value (NilEmpty.string_of_uint d) 0 with
    | Some n =>
        let v := if neg then - n else n in
        if (minInt64 <=? v) && (v <=? maxInt64) then Some v else None
    | None => None
    end.
Proof.
  intros Hd. destruct neg.
  - change ("-" ++ NilEmpty.string_of_uint d)
      with (String "-" (NilEmpty.string_of_uint d)).
    unfold strconv_Atoi. destruct d; [congruence|..]; reflexivity.
  - change ("" ++ NilEmpty.string_of_uint d) with (NilEmpty.string_of_uint d).
    unfold strconv_Atoi. destruct d; [congruence|..]; reflexivity.
Qed.

(** [strconv.Atoi] reads back what [strconv.FormatInt] prints of an
    [int64]. *)
Lemma strconv_Atoi_FormatInt (id : Z) :
  minInt64 <= id <= maxInt64 -> strconv_Atoi (strconv_FormatInt id) = Some id.
Proof.
  intros Hid. unfold strconv_FormatInt.
  destruct id as [|p|p]; [reflexivity|..]; cbn [Z.to_int NilZero.string_of_int].
  - pose proof (DecimalPos.Unsigned.to_uint_nonnil p) as Hnil.
    replace (NilZero.string_of_uint (Pos.to_uint p))
      with ("" ++ NilEmpty.string_of_uint (Pos.to_uint p))
      by (destruct (Pos.to_uint p); [congruence|..]; reflexivity).
    rewrite (strconv_Atoi_digits _ false Hnil), digits_value_to_uint. cbv zeta.
    destruct (Z.leb_spec minInt64 (Z.pos p)); [|lia].
    destruct (Z.leb_spec (Z.pos p) maxInt64); [|lia]. reflexivity.
  - pose proof (DecimalPos.Unsigned.to_uint_nonnil p) as Hnil.
    replace (String "-" (NilZero.string_of_uint (Pos.to_uint p)))
      with ("-" ++ NilEmpty.string_of_uint (Pos.to_uint p))
      by (destruct (Pos.to_uint p); [congruence|..]; reflexivity).
    rewrite (strconv_Atoi_digits _ true Hnil), digits_value_to_uint. cbv zeta.
    change (- Z.pos p) with (Z.neg p).
    destruct (Z.leb_spec minInt64 (Z.neg p)); [|lia].
    destruct (Z.leb_spec (Z.neg p) maxInt64); [|lia]. reflexivity.
Qed.

(** X6: what [metadataPatch] writes, the next reconciliation reads back.
    For a check-run id in the range of [int64], the patch is built
    without a panic, holds the one label [keys.CheckRunID] and the one
    annotation [keys.LogURL], and any run whose labels include those of
    the patch is recognised as carrying that very id. *)
Theorem patched_label_is_read_back (w : World.t) (id : Z) (logURL : string)
    (slot : Z) :
  minInt64 <= id <= maxInt64 ->
  exists patch,
    metadataPatch w (Some id) logURL slot = mkResult (Done patch) slot []
    /\ dom (MetadataPatch.labels patch) = ({[ World.keys_CheckRunID w ]} : gset string)
    /\ MetadataPatch.annotations patch = {[ World.keys_LogURL w := logURL ]}
    /\ forall statusOpts pr,
         StatusOpts.PipelineRun statusOpts = Some pr ->
         MetadataPatch.labels patch ⊆ PipelineRun.GetLabels pr ->
         labelledCheckRunID w statusOpts = inl (true, Some id).
Proof.
  intros Hid. eexists. split; [reflexivity|].
  cbn [MetadataPatch.labels MetadataPatch.annotations].
  split; [apply dom_singleton_L|]. split; [reflexivity|].
  intros statusOpts pr Hpr Hsub. unfold labelledCheckRunID. rewrite Hpr.
  rewrite (lookup_weaken _ _ _ _ (lookup_singleton_eq _ _) Hsub).
  now rewrite (strconv_Atoi_FormatInt id Hid).
Qed.

Lemma patched_label_is_read_back_witness :
  exists patch,
    metadataPatch sample_world (Some 4711) "https://console/pr-abc" 0
    = mkResult (Done patch) 0 []
    /\ labelledCheckRunID sample_world
         (sample_status (Some (sample_run false)) "completed" "success")
       = inl (true, Some 4711).
Proof.
  destruct (patched_label_is_read_back sample_world 4711 "https://console/pr-abc" 0
              ltac:(unfold minInt64, maxInt64; lia))
    as (patch & Hrun & _ & _ & Hread).
  exists patch. split; [exact Hrun|].
  apply (Hread (sample_status (Some (sample_run false)) "completed" "success")
           (sample_run false) eq_refl).
  injection Hrun as <-. cbn [MetadataPatch.labels]. reflexivity.
Defined.

(** ** What is written for a skipped commit, and what is recognised *)

Lemma strings_Contains_app_r (a b substr : string) :
  strings_Contains b substr = true -> strings_Contains (a ++ b) substr = true.
Proof.
  intros Hb. induction a as [|c a IH]; [exact Hb|].
  change (String c a ++ b) with (String c (a ++ b)).
  cbn [strings_Contains]. rewrite IH. now destruct (strings_CutPrefix _ _).
Qed.

Lemma titledStatusOpts_Title (pacopts : PacOpts.t) (statusOpts : StatusOpts.t) :
  StatusOpts.Title (titledStatusOpts pacopts statusOpts)
  = if String.eqb (StatusOpts.Status statusOpts) "in_progress" then "CI has Started"
    else if String.eqb (StatusOpts.Conclusion statusOpts) "success" then "Success"
    else if String.eqb (StatusOpts.Conclusion statusOpts) "failure" then "Failed"
    else if String.eqb (StatusOpts.Conclusion statusOpts) "skipped" then "Skipped"
    else if String.eqb (StatusOpts.Conclusion statusOpts) "neutral" then "Unknown"
    else StatusOpts.Title statusOpts.
Proof.
  unfold titledStatusOpts. cbv zeta.
  destruct (String.eqb (StatusOpts.Conclusion statusOpts) "success");
    [|destruct (String.eqb (StatusOpts.Conclusion statusOpts) "failure");
      [|destruct (String.eqb (StatusOpts.Conclusion statusOpts) "skipped");
        [|destruct (String.eqb (StatusOpts.Conclusion statusOpts) "neutral")]]];
    status_simpl;
    destruct (String.eqb (StatusOpts.Status statusOpts) "in_progress");
    reflexivity.
Qed.

Lemma titledStatusOpts_Summary_skipped (pacopts : PacOpts.t)
    (statusOpts : StatusOpts.t) :
  StatusOpts.Status statusOpts <> "in_progress" ->
  StatusOpts.Conclusion statusOpts = "skipped" ->
  StatusOpts.Summary (titledStatusOpts pacopts statusOpts)
  = summaryPrefix pacopts statusOpts ++ " " ++ "is skipping this commit.".
Proof.
  intros Hs Hc. apply String.eqb_neq in Hs.
  unfold titledStatusOpts. cbv zeta. rewrite Hc. cbn [String.eqb Ascii.eqb Bool.eqb].
  status_simpl. rewrite Hs. status_simpl.
  apply summaryPrefix_Sprintf.
Qed.

(** X7: the producer and the recogniser of skipped check runs agree.  A
    check run that shows the output which [CreateStatus] submits is
    recognised by [isSkippedCheckrun] when the outcome was "skipped" (and
    the phase is not "in_progress"), whatever the application and
    pipeline names in the summary; it is not recognised when the phase
    is "in_progress" or when the outcome is "success", "failure" or
    "neutral". *)
Theorem skipped_report_is_recognised (w : World.t) (pacopts : PacOpts.t)
    (statusOpts : StatusOpts.t) (annotations : option (list CheckRunAnnotation.t))
    (run : CheckRun.t) :
  CheckRun.Output run
  = UpdateCheckRunOptions.Output
      (updateCheckRunOptions w pacopts (titledStatusOpts pacopts statusOpts)
         annotations) ->
  (StatusOpts.Status statusOpts <> "in_progress" ->
   StatusOpts.Conclusion statusOpts = "skipped" ->
   isSkippedCheckrun (Some run) = true)
  /\ (StatusOpts.Status statusOpts = "in_progress"
      \/ StatusOpts.Conclusion statusOpts = "success"
      \/ StatusOpts.Conclusion statusOpts = "failure"
      \/ StatusOpts.Conclusion statusOpts = "neutral" ->
      isSkippedCheckrun (Some run) = false).
Proof.
  intros Hout. unfold isSkippedCheckrun. rewrite Hout.
  cbn [updateCheckRunOptions UpdateCheckRunOptions.Output CheckRunOutput.Title
       CheckRunOutput.Summary].
  rewrite titledStatusOpts_Title. split.
  - intros Hs Hc. rewrite (titledStatusOpts_Summary_skipped _ _ Hs Hc).
    apply String.eqb_neq in Hs. rewrite Hs, Hc. cbn [String.eqb Ascii.eqb Bool.eqb].
    cbn [andb]. apply strings_Contains_app_r, strings_Contains_app_r. reflexivity.
  - intros [Hs|Hc].
    + rewrite Hs. reflexivity.
    + destruct (String.eqb (StatusOpts.Status statusOpts) "in_progress");
        [reflexivity|].
      destruct Hc as [->|[->| ->]]; reflexivity.
Qed.

Lemma skipped_report_is_recognised_witness :
  isSkippedCheckrun
    (Some {| CheckRun.ID := Some 7; CheckRun.ExternalID := Some "pr-abc";
             CheckRun.Output :=
               UpdateCheckRunOptions.Output
                 (updateCheckRunOptions sample_world sample_pacopts
                    (titledStatusOpts sample_pacopts
                       (sample_status None "completed" "skipped")) None) |})
  = true
  /\ isSkippedCheckrun
       (Some {| CheckRun.ID := Some 7; CheckRun.ExternalID := Some "pr-abc";
                CheckRun.Output :=
                  UpdateCheckRunOptions.Output
                    (updateCheckRunOptions sample_world sample_pacopts
                       (titledStatusOpts sample_pacopts
                          (sample_status None "in_progress" "skipped")) None) |})
     = false.
Proof.
  split.
  - apply (skipped_report_is_recognised sample_world sample_pacopts
             (sample_status None "completed" "skipped") None);
      [reflexivity | discriminate | reflexivity].
  - apply (skipped_report_is_recognised sample_world sample_pacopts
             (sample_status None "in_progress" "skipped") None);
      [reflexivity | left; reflexivity].
Defined.

(** ** The comment of commit-status mode *)

Lemma commitStatusOpts_frame (status : StatusOpts.t) :
  StatusOpts.Status (commitStatusOpts status) = StatusOpts.Status status
  /\ StatusOpts.Text (commitStatusOpts status) = StatusOpts.Text status
  /\ StatusOpts.Summary (commitStatusOpts status) = StatusOpts.Summary status
  /\ StatusOpts.Title (commitStatusOpts status) = StatusOpts.Title status
  /\ StatusOpts.DetailsURL (commitStatusOpts status) = StatusOpts.DetailsURL status
  /\ StatusOpts.OriginalPipelineRunName (commitStatusOpts status)
     = StatusOpts.OriginalPipelineRunName status.
Proof.
  unfold commitStatusOpts.
  destruct (String.eqb (StatusOpts.Conclusion status) "skipped"
            || String.eqb (StatusOpts.Conclusion status) "neutral");
    status_simpl; destruct (String.eqb (StatusOpts.Status status) "in_progress");
    repeat split.
Qed.

(** X8: in commit-status mode a comment is posted on the pull request
    exactly when the flat status was accepted, the phase is "completed",
    the text is not empty and the event is a pull request.  Its body is
    the summary, a line break and the text, it goes to the pull request
    of the event, and the answer to it is what is returned.  A refused
    status is returned as the error, without a comment. *)
Theorem comment_on_completed_pull_request (w : World.t) (v : Provider.t)
    (runevent : Event.t) (pacopts : PacOpts.t) (status : StatusOpts.t)
    (slot : Z) (client : Client.t) :
  Provider.Client v = Some client ->
  let r := createStatusCommit w v runevent pacopts status slot in
  (forall err,
      (forall st, Client.Repositories_CreateStatus client
                    (Event.Organization runevent) (Event.Repository runevent)
                    (Event.SHA runevent) st = Some err) ->
      outcome r = Done (Some err) /\ createCommentCalls (calls r) = [])
  /\ (StatusOpts.Status status <> "completed"
      \/ StatusOpts.Text status = ""
      \/ Event.EventType runevent <> "pull_request" ->
      createCommentCalls (calls r) = [])
  /\ ((forall st, Client.Repositories_CreateStatus client
                    (Event.Organization runevent) (Event.Repository runevent)
                    (Event.SHA runevent) st = None) ->
      StatusOpts.Status status = "completed" ->
      StatusOpts.Text status <> "" ->
      Event.EventType runevent = "pull_request" ->
      let body := (StatusOpts.Summary status ++ "<br>" ++ StatusOpts.Text status)%string in
      createCommentCalls (calls r) = [(Event.PullRequestNumber runevent, body)]
      /\ outcome r
         = Done (Client.Issues_CreateComment client (Event.Organization runevent)
                   (Event.Repository runevent) (Event.PullRequestNumber runevent)
                   body)).
Proof.
  intros Hclient. cbv zeta. unfold createStatusCommit. cbv zeta. rewrite Hclient.
  destruct (commitStatusOpts_frame status) as (Hs & Ht & Hsum & _).
  rewrite Hs, Ht, Hsum. split; [|split].
  - intros err Herr. go_run. rewrite Herr. split; reflexivity.
  - intros Hoff. go_run.
    destruct (Client.Repositories_CreateStatus _ _ _ _ _); [reflexivity|].
    assert (Hb : String.eqb (StatusOpts.Status status) "completed"
                 && negb (String.eqb (StatusOpts.Text status) "")
                 && String.eqb (Event.EventType runevent) "pull_request" = false).
    { destruct Hoff as [H|[H|H]].
      - apply String.eqb_neq in H. now rewrite H.
      - rewrite H. cbn. now rewrite andb_false_r.
      - apply String.eqb_neq in H. rewrite H. now rewrite andb_false_r. }
    rewrite Hb. reflexivity.
  - intros Hok Hcompleted Htext Hevent. go_run. rewrite Hok.
    apply String.eqb_neq in Htext. rewrite Hcompleted, Htext, Hevent.
    cbn. unfold Sprintf_s_br_s.
    destruct (Client.Issues_CreateComment _ _ _ _ _); split; reflexivity.
Qed.

Lemma comment_on_completed_pull_request_witness :
  createCommentCalls
    (calls (createStatusCommit sample_world sample_provider (sample_event 0)
              sample_pacopts
              (titledStatusOpts sample_pacopts
                 (sample_status None "completed" "failure")) 0))
  = [(12, "PAC/build has <b>failed</b>.<br>log")].
Proof.
  apply (proj2 (proj2 (comment_on_completed_pull_request sample_world
                         sample_provider (sample_event 0) sample_pacopts
                         (titledStatusOpts sample_pacopts
                            (sample_status None "completed" "failure")) 0
                         sample_client eq_refl)));
    [reflexivity | reflexivity | discriminate | reflexivity].
Defined.

(** ** Discovery of an existing check run *)

Lemma canIUseCheckrunID_occupied (checkrunid : option Z) (slot : Z) :
  slot <> 0 -> canIUseCheckrunID checkrunid slot = mkResult (Done false) slot [].
Proof.
  intros Hs. apply Z.eqb_neq in Hs.
  unfold canIUseCheckrunID, mbind, Go_bind, load_checkRunID. cbn.
  now rewrite Hs.
Qed.

(** The test [isSkippedCheckrun(checkrun) && v.canIUseCheckrunID(checkrun.ID)]
    of the loop, when nothing is claimed. *)
Lemma claim_refused (checkrun : option CheckRun.t) (slot : Z) :
  slot <> 0 \/ isSkippedCheckrun checkrun = false ->
  (if isSkippedCheckrun checkrun
   then run ← deref checkrun; canIUseCheckrunID (CheckRun.ID run)
   else mret false) slot
  = mkResult (Done false) slot [].
Proof.
  intros Hkeep. destruct (isSkippedCheckrun checkrun) eqn:Hskipped.
  - destruct Hkeep as [Hslot|]; [|discriminate].
    destruct checkrun as [run|]; [|discriminate].
    rewrite (run_bind_nil _ _ slot slot run) by reflexivity.
    apply canIUseCheckrunID_occupied, Hslot.
  - reflexivity.
Qed.

Lemma getExistingCheckRunID_range_pass (status : StatusOpts.t)
    (checkrun : option CheckRun.t) (rest : list (option CheckRun.t)) (slot : Z) :
  passedOver (StatusOpts.PipelineRunName status) slot checkrun ->
  getExistingCheckRunID_range status (checkrun :: rest) slot
  = getExistingCheckRunID_range status rest slot.
Proof.
  intros [(run & externalID & -> & Hext & Hne) Hkeep].
  apply String.eqb_neq in Hne. cbn [getExistingCheckRunID_range].
  rewrite (run_bind_nil _ _ slot slot false (claim_refused _ _ Hkeep)).
  rewrite (run_bind_nil _ _ slot slot run) by reflexivity.
  rewrite (run_bind_nil _ _ slot slot externalID) by (now rewrite Hext).
  now rewrite Hne.
Qed.

Lemma getExistingCheckRunID_range_passes (status : StatusOpts.t)
    (pre rest : list (option CheckRun.t)) (slot : Z) :
  Forall (passedOver (StatusOpts.PipelineRunName status) slot) pre ->
  getExistingCheckRunID_range status (pre ++ rest)%list slot
  = getExistingCheckRunID_range status rest slot.
Proof.
  induction 1 as [|checkrun pre Hc _ IH]; [reflexivity|].
  cbn [app]. now rewrite (getExistingCheckRunID_range_pass _ _ _ _ Hc).
Qed.

Lemma getExistingCheckRunID_range_match (status : StatusOpts.t)
    (run : CheckRun.t) (rest : list (option CheckRun.t)) (slot : Z) :
  slot <> 0 \/ isSkippedCheckrun (Some run) = false ->
  CheckRun.ExternalID run = Some (StatusOpts.PipelineRunName status) ->
  getExistingCheckRunID_range status (Some run :: rest) slot
  = mkResult (Done (CheckRun.ID run)) slot [].
Proof.
  intros Hkeep Hext. cbn [getExistingCheckRunID_range].
  rewrite (run_bind_nil _ _ slot slot false (claim_refused _ _ Hkeep)).
  rewrite (run_bind_nil _ _ slot slot run) by reflexivity.
  rewrite (run_bind_nil _ _ slot slot (StatusOpts.PipelineRunName status))
    by (now rewrite Hext).
  now rewrite String.eqb_refl.
Qed.

Lemma getExistingCheckRunID_range_claim (status : StatusOpts.t)
    (run : CheckRun.t) (rest : list (option CheckRun.t)) (id : Z) :
  isSkippedCheckrun (Some run) = true ->
  CheckRun.ID run = Some id ->
  getExistingCheckRunID_range status (Some run :: rest) 0
  = mkResult (Done (Some id)) id [].
Proof.
  intros Hskipped Hid. cbn [getExistingCheckRunID_range]. rewrite Hskipped.
  rewrite (run_bind_result _ _ 0 id true []).
  - rewrite (run_bind_nil _ _ id id run) by reflexivity. now rewrite Hid.
  - rewrite (run_bind_nil _ _ 0 0 run) by reflexivity.
    rewrite Hid. apply canIUseCheckrunID_run.
Qed.

Lemma getExistingCheckRunID_listed (v : Provider.t) (runevent : Event.t)
    (status : StatusOpts.t) (slot : Z) (client : Client.t)
    (res : ListCheckRunsResults.t) (total : Z) :
  Provider.Client v = Some client ->
  listedCheckRuns v client runevent = inl res ->
  ListCheckRunsResults.Total res = Some total ->
  total <> 0 ->
  let r := getExistingCheckRunID_range status
             (ListCheckRunsResults.CheckRuns res) slot in
  getExistingCheckRunID v runevent status slot
  = mkResult
      (match outcome r with
       | Done id => Done (id, None)
       | Panicked p => Panicked p
       end)
      (skippedRun_checkRunID r)
      (ListCheckRunsForRef (Event.Organization runevent)
         (Event.Repository runevent) (Event.SHA runevent)
         (ListCheckRunsOptions.Build (Provider.ApplicationID v)) :: calls r).
Proof.
  intros Hclient Hlist Htotal Hne. cbv zeta.
  unfold getExistingCheckRunID. cbv zeta. rewrite Hclient.
  unfold listedCheckRuns in Hlist.
  rewrite (run_bind_nil _ _ slot slot client) by reflexivity.
  rewrite (run_bind_result _ _ slot slot tt
             [ListCheckRunsForRef (Event.Organization runevent)
                (Event.Repository runevent) (Event.SHA runevent)
                (ListCheckRunsOptions.Build (Provider.ApplicationID v))])
    by reflexivity.
  rewrite Hlist.
  rewrite (run_bind_nil _ _ slot slot total) by (now rewrite Htotal).
  apply Z.eqb_neq in Hne. rewrite Hne.
  unfold mbind, Go_bind. cbv zeta.
  destruct (getExistingCheckRunID_range status _ slot) as [[id|p] slot' cs];
    cbn; rewrite ?app_nil_r; reflexivity.
Qed.

Ltac other_run_tac :=
  eexists _, _; split; [reflexivity|]; split; [reflexivity | discriminate].

Ltac passed_over_tac :=
  repeat first
    [ apply Forall_nil_2
    | apply Forall_cons_2;
      [split; [other_run_tac | first [left; lia | right; reflexivity]]|] ].

(** X9: discovery by external id.  When the listing is not empty, the
    check runs before the first one whose external id is the name of
    the pipeline run are passed over, and none of them is claimed (the
    registry is occupied, or they are not skipped ones), the id of that
    check run is returned: after one request, with the registry as it
    was, whatever follows in the listing. *)
Theorem discovery_by_external_id (v : Provider.t) (runevent : Event.t)
    (status : StatusOpts.t) (slot : Z) (client : Client.t)
    (res : ListCheckRunsResults.t) (total : Z)
    (pre post : list (option CheckRun.t)) (run : CheckRun.t) :
  Provider.Client v = Some client ->
  listedCheckRuns v client runevent = inl res ->
  ListCheckRunsResults.Total res = Some total ->
  total <> 0 ->
  ListCheckRunsResults.CheckRuns res = (pre ++ Some run :: post)%list ->
  Forall (passedOver (StatusOpts.PipelineRunName status) slot) pre ->
  slot <> 0 \/ isSkippedCheckrun (Some run) = false ->
  CheckRun.ExternalID run = Some (StatusOpts.PipelineRunName status) ->
  getExistingCheckRunID v runevent status slot
  = mkResult (Done (CheckRun.ID run, None)) slot
      [ListCheckRunsForRef (Event.Organization runevent)
         (Event.Repository runevent) (Event.SHA runevent)
         (ListCheckRunsOptions.Build (Provider.ApplicationID v))].
Proof.
  intros Hclient Hlist Htotal Hne Hruns Hpre Hkeep Hext.
  rewrite (getExistingCheckRunID_listed _ _ _ _ _ _ _ Hclient Hlist Htotal Hne).
  cbv zeta. rewrite Hruns, (getExistingCheckRunID_range_passes _ _ _ _ Hpre),
    (getExistingCheckRunID_range_match _ _ _ _ Hkeep Hext).
  reflexivity.
Qed.

Lemma discovery_by_external_id_witness :
  getExistingCheckRunID
    (provider_of (listing_client
                    [skipped_checkrun 5; named_checkrun 6 "pr-xyz";
                     named_checkrun 7 "pr-abc"; named_checkrun 8 "pr-abc"]))
    (sample_event 1) (sample_status None "completed" "success") 3
  = mkResult (Done (Some 7, None)) 3
      [ListCheckRunsForRef "org" "repo" "0a1b2c" (ListCheckRunsOptions.Build (Some 1))].
Proof.
  refine (discovery_by_external_id
            (provider_of (listing_client
                            [skipped_checkrun 5; named_checkrun 6 "pr-xyz";
                             named_checkrun 7 "pr-abc"; named_checkrun 8 "pr-abc"]))
            (sample_event 1) (sample_status None "completed" "success") 3
            _ _ 4
            [skipped_checkrun 5; named_checkrun 6 "pr-xyz"]
            [named_checkrun 8 "pr-abc"]
            {| CheckRun.ID := Some 7; CheckRun.ExternalID := Some "pr-abc";
               CheckRun.Output :=
                 Some {| CheckRunOutput.Title := Some "Success";
                         CheckRunOutput.Summary :=
                           Some "PAC has <b>successfully</b> validated your commit.";
                         CheckRunOutput.Text := None;
                         CheckRunOutput.Annotations := None |} |}
            eq_refl eq_refl eq_refl _ eq_refl _ _ eq_refl);
    [lia | passed_over_tac | left; lia].
Defined.

(** X10: a skipped check run is claimed by the first and handed out
    once.  On an empty registry the first skipped check run of the
    listing is claimed, whatever its external id: its id is returned and
    recorded in the registry.  When its id is not 0, a reconciliation of
    another pipeline run that goes through the same listing afterwards,
    and finds no check run of its own in it, finds nothing: it is left
    to create a check run. *)
Theorem skipped_check_run_is_handed_out_once (v : Provider.t)
    (runevent : Event.t) (first second : StatusOpts.t) (client : Client.t)
    (res : ListCheckRunsResults.t) (total : Z)
    (pre post : list (option CheckRun.t)) (run : CheckRun.t) (id : Z) :
  Provider.Client v = Some client ->
  listedCheckRuns v client runevent = inl res ->
  ListCheckRunsResults.Total res = Some total ->
  total <> 0 ->
  ListCheckRunsResults.CheckRuns res = (pre ++ Some run :: post)%list ->
  Forall (passedOver (StatusOpts.PipelineRunName first) 0) pre ->
  isSkippedCheckrun (Some run) = true ->
  CheckRun.ID run = Some id ->
  let listing :=
    ListCheckRunsForRef (Event.Organization runevent)
      (Event.Repository runevent) (Event.SHA runevent)
      (ListCheckRunsOptions.Build (Provider.ApplicationID v)) in
  let r1 := getExistingCheckRunID v runevent first 0 in
  let r2 := getExistingCheckRunID v runevent second (skippedRun_checkRunID r1) in
  r1 = mkResult (Done (Some id, None)) id [listing]
  /\ (id <> 0 ->
      Forall (otherRun (StatusOpts.PipelineRunName second))
        (ListCheckRunsResults.CheckRuns res) ->
      r2 = mkResult (Done (None, None)) id [listing]).
Proof.
  intros Hclient Hlist Htotal Hne Hruns Hpre Hskipped Hid. cbv zeta.
  assert (H1 : getExistingCheckRunID v runevent first 0
               = mkResult (Done (Some id, None)) id
                   [ListCheckRunsForRef (Event.Organization runevent)
                      (Event.Repository runevent) (Event.SHA runevent)
                      (ListCheckRunsOptions.Build (Provider.ApplicationID v))]).
  { rewrite (getExistingCheckRunID_listed _ _ _ _ _ _ _ Hclient Hlist Htotal Hne).
    cbv zeta. rewrite Hruns, (getExistingCheckRunID_range_passes _ _ _ _ Hpre),
      (getExistingCheckRunID_range_claim _ _ _ _ Hskipped Hid).
    reflexivity. }
  rewrite H1. split; [reflexivity|]. intros Hid0 Hothers.
  cbn [skippedRun_checkRunID].
  rewrite (getExistingCheckRunID_listed _ _ _ _ _ _ _ Hclient Hlist Htotal Hne).
  cbv zeta.
  rewrite <- (app_nil_r (ListCheckRunsResults.CheckRuns res)).
  rewrite getExistingCheckRunID_range_passes; [reflexivity|].
  eapply Forall_impl; [exact Hothers|]. intros checkrun Hc. split; [exact Hc|].
  now left.
Qed.

Lemma skipped_check_run_is_handed_out_once_witness :
  let v := provider_of (listing_client
                          [named_checkrun 6 "pr-xyz"; skipped_checkrun 5;
                           named_checkrun 7 "pr-old"]) in
  let listing :=
    ListCheckRunsForRef "org" "repo" "0a1b2c" (ListCheckRunsOptions.Build (Some 1)) in
  getExistingCheckRunID v (sample_event 1)
    (sample_status None "completed" "success") 0
  = mkResult (Done (Some 5, None)) 5 [listing]
  /\ getExistingCheckRunID v (sample_event 1)
       (sample_status None "completed" "failure") 5
     = mkResult (Done (None, None)) 5 [listing].
Proof.
  cbv zeta.
  destruct (skipped_check_run_is_handed_out_once
              (provider_of (listing_client
                              [named_checkrun 6 "pr-xyz"; skipped_checkrun 5;
                               named_checkrun 7 "pr-old"]))
              (sample_event 1)
              (sample_status None "completed" "success")
              (sample_status None "completed" "failure")
              _ _ 3
              [named_checkrun 6 "pr-xyz"] [named_checkrun 7 "pr-old"]
              {| CheckRun.ID := Some 5; CheckRun.ExternalID := Some "";
                 CheckRun.Output :=
                   Some {| CheckRunOutput.Title := Some "Skipped";
                           CheckRunOutput.Summary :=
                             Some "PAC is skipping this commit.";
                           CheckRunOutput.Text := None;
                           CheckRunOutput.Annotations := None |} |}
              5 eq_refl eq_refl eq_refl ltac:(lia) eq_refl
              ltac:(passed_over_tac)
              eq_refl eq_refl) as [H1 H2].
  split; [exact H1|]. rewrite H1 in H2. apply H2; [lia|].
  repeat first [apply Forall_nil_2 | apply Forall_cons_2; [other_run_tac|]].
Defined.

(** ** A run that has no check run yet *)

Lemma labelledCheckRunID_unlabelled (w : World.t) (statusOpts : StatusOpts.t) :
  (forall pr, StatusOpts.PipelineRun statusOpts = Some pr ->
              PipelineRun.GetLabels pr !! World.keys_CheckRunID w = None) ->
  labelledCheckRunID w statusOpts = inl (false, None).
Proof.
  intros H. unfold labelledCheckRunID.
  destruct (StatusOpts.PipelineRun statusOpts) as [pr|]; [|reflexivity].
  now rewrite (H pr eq_refl).
Qed.

Lemma getExistingCheckRunID_nothing (v : Provider.t) (runevent : Event.t)
    (status : StatusOpts.t) (slot : Z) (client : Client.t) :
  Provider.Client v = Some client ->
  listsNothing v client runevent ->
  exists err,
    getExistingCheckRunID v runevent status slot
    = mkResult (Done (None, err)) slot
        [ListCheckRunsForRef (Event.Organization runevent)
           (Event.Repository runevent) (Event.SHA runevent)
           (ListCheckRunsOptions.Build (Provider.ApplicationID v))].
Proof.
  intros Hclient Hnothing. unfold listsNothing, listedCheckRuns in Hnothing.
  unfold getExistingCheckRunID. cbv zeta. rewrite Hclient.
  rewrite (run_bind_nil _ _ slot slot client) by reflexivity.
  rewrite (run_bind_result _ _ slot slot tt
             [ListCheckRunsForRef (Event.Organization runevent)
                (Event.Repository runevent) (Event.SHA runevent)
                (ListCheckRunsOptions.Build (Provider.ApplicationID v))])
    by reflexivity.
  destruct (Client.Checks_ListCheckRunsForRef client _ _ _ _) as [res|err].
  - rewrite Hnothing. exists None. reflexivity.
  - exists (Some err). reflexivity.
Qed.

(** Creation after a discovery that found nothing: the requests made and
    what is resolved, by the answers of the hosting service and of the
    cluster. *)
Lemma findOrCreateCheckRunID_nothing (w : World.t) (v : Provider.t)
    (runevent : Event.t) (pacopts : PacOpts.t) (statusOpts : StatusOpts.t)
    (slot : Z) (client : Client.t) :
  Provider.Client v = Some client ->
  listsNothing v client runevent ->
  exists checkrunoption,
    CreateCheckRunOptions.Name checkrunoption = getCheckName statusOpts pacopts
    /\ CreateCheckRunOptions.HeadSHA checkrunoption = Event.SHA runevent
    /\ CreateCheckRunOptions.Status checkrunoption = Some "in_progress"
    /\ CreateCheckRunOptions.ExternalID checkrunoption
       = Some (StatusOpts.PipelineRunName statusOpts)
    /\ CreateCheckRunOptions.DetailsURL checkrunoption
       = Some (StatusOpts.DetailsURL statusOpts)
    /\ CreateCheckRunOptions.StartedAt checkrunoption = Some (World.time_Now w)
    /\ let requests :=
         [ListCheckRunsForRef (Event.Organization runevent)
            (Event.Repository runevent) (Event.SHA runevent)
            (ListCheckRunsOptions.Build (Provider.ApplicationID v));
          CreateCheckRun (Event.Organization runevent)
            (Event.Repository runevent) checkrunoption] in
       findOrCreateCheckRunID w v runevent pacopts statusOpts slot
       = match Client.Checks_CreateCheckRun client (Event.Organization runevent)
                 (Event.Repository runevent) checkrunoption with
         | inr err => mkResult (Done (inr err)) slot requests
         | inl checkRun =>
             match StatusOpts.PipelineRun statusOpts with
             | None => mkResult (Done (inl (CheckRun.ID checkRun))) slot requests
             | Some pr =>
                 match CheckRun.ID checkRun with
                 | None => mkResult (Panicked NilDereference) slot requests
                 | Some id =>
                     let patch :=
                       {| MetadataPatch.labels :=
                            {[ World.keys_CheckRunID w := strconv_FormatInt id ]};
                          MetadataPatch.annotations :=
                            {[ World.keys_LogURL w
                               := StatusOpts.DetailsURL statusOpts ]} |} in
                     mkResult
                       (Done match World.PatchPipelineRun w pr patch with
                             | Some err => inr err
                             | None => inl (Some id)
                             end)
                       slot (requests ++ [PatchRun pr patch])
                 end
             end
         end.
Proof.
  intros Hclient Hnothing.
  exists {| CreateCheckRunOptions.Name := getCheckName statusOpts pacopts;
            CreateCheckRunOptions.HeadSHA := Event.SHA runevent;
            CreateCheckRunOptions.Status := Some "in_progress";
            CreateCheckRunOptions.DetailsURL := Some (StatusOpts.DetailsURL statusOpts);
            CreateCheckRunOptions.ExternalID :=
              Some (StatusOpts.PipelineRunName statusOpts);
            CreateCheckRunOptions.StartedAt := Some (World.time_Now w) |}.
  do 6 (split; [reflexivity|]). cbv zeta.
  destruct (getExistingCheckRunID_nothing v runevent statusOpts slot client
              Hclient Hnothing) as [err Hfind].
  unfold findOrCreateCheckRunID.
  rewrite (run_bind_result _ _ _ _ _ _ Hfind). cbv beta iota.
  unfold createCheckRunStatus. cbv zeta. rewrite Hclient.
  go_run.
  destruct (Client.Checks_CreateCheckRun client _ _ _) as [checkRun|err']; cbn;
    [|reflexivity].
  destruct (StatusOpts.PipelineRun statusOpts) as [pr|]; cbn; [|reflexivity].
  unfold metadataPatch. go_run.
  destruct (CheckRun.ID checkRun) as [id|]; cbn; [|reflexivity].
  destruct (World.PatchPipelineRun w pr _); reflexivity.
Qed.

Lemma submitCheckRunStatus_run (w : World.t) (v : Provider.t)
    (runevent : Event.t) (pacopts : PacOpts.t) (statusOpts : StatusOpts.t)
    (id slot : Z) (client : Client.t)
    (annotations : option (list CheckRunAnnotation.t)) (cs : list Call) :
  Provider.Client v = Some client ->
  outputAnnotations w pacopts statusOpts slot = mkResult (Done annotations) slot cs ->
  submitCheckRunStatus w v runevent pacopts statusOpts (Some id) slot
  = mkResult
      (Done (Client.Checks_UpdateCheckRun client (Event.Organization runevent)
               (Event.Repository runevent) id
               (updateCheckRunOptions w pacopts statusOpts annotations)))
      slot
      (cs ++ [UpdateCheckRun (Event.Organization runevent)
                (Event.Repository runevent) id
                (updateCheckRunOptions w pacopts statusOpts annotations)]).
Proof.
  intros Hclient Hann. unfold submitCheckRunStatus.
  rewrite (run_bind_result _ _ _ _ _ _ Hann). cbv zeta. rewrite Hclient.
  reflexivity.
Qed.

(** X11: the first report on a run.  For a run without the check-run
    label, when the listing fails or is empty, the check run is created
    (in progress, named as the update will name it, with the name of the
    pipeline run as external id), its id is written to the run with the
    log URL, the logs are read, and the check run just created is
    updated: in this order, with nothing else.  What is returned is the
    answer to the update; a failed listing is not reported. *)
Theorem fresh_run_is_created_patched_updated (w : World.t) (v : Provider.t)
    (runevent : Event.t) (pacopts : PacOpts.t) (statusOpts : StatusOpts.t)
    (slot : Z) (client : Client.t) (pr : PipelineRun.t) (checkRun : CheckRun.t)
    (id : Z) :
  Provider.Client v = Some client ->
  regexpSound w ->
  StatusOpts.PipelineRun statusOpts = Some pr ->
  PipelineRun.GetLabels pr !! World.keys_CheckRunID w = None ->
  listsNothing v client runevent ->
  (forall opts, Client.Checks_CreateCheckRun client (Event.Organization runevent)
                  (Event.Repository runevent) opts = inl checkRun) ->
  CheckRun.ID checkRun = Some id ->
  (forall patch, World.PatchPipelineRun w pr patch = None) ->
  exists checkrunoption extractor annotations,
    let opts := updateCheckRunOptions w pacopts statusOpts annotations in
    getOrUpdateCheckRunStatus w v runevent pacopts statusOpts slot
    = mkResult
        (Done (Client.Checks_UpdateCheckRun client (Event.Organization runevent)
                 (Event.Repository runevent) id opts))
        slot
        ([ListCheckRunsForRef (Event.Organization runevent)
            (Event.Repository runevent) (Event.SHA runevent)
            (ListCheckRunsOptions.Build (Provider.ApplicationID v));
          CreateCheckRun (Event.Organization runevent)
            (Event.Repository runevent) checkrunoption;
          PatchRun pr
            {| MetadataPatch.labels :=
                 {[ World.keys_CheckRunID w := strconv_FormatInt id ]};
               MetadataPatch.annotations :=
                 {[ World.keys_LogURL w := StatusOpts.DetailsURL statusOpts ]} |}]
         ++ extractor
         ++ [UpdateCheckRun (Event.Organization runevent)
               (Event.Repository runevent) id opts])
    /\ CreateCheckRunOptions.Name checkrunoption = UpdateCheckRunOptions.Name opts
    /\ CreateCheckRunOptions.Status checkrunoption = Some "in_progress"
    /\ CreateCheckRunOptions.ExternalID checkrunoption
       = Some (StatusOpts.PipelineRunName statusOpts)
    /\ CreateCheckRunOptions.HeadSHA checkrunoption = Event.SHA runevent
    /\ Forall (fun c => isExtractorCall c = true) extractor.
Proof.
  intros Hclient Hsound Hpr Hlabel Hnothing Hcreate Hid Hpatch.
  destruct (findOrCreateCheckRunID_nothing w v runevent pacopts statusOpts slot
              client Hclient Hnothing)
    as (checkrunoption & Hname & Hsha & Hstatus & Hext & _ & _ & Hfind).
  cbv zeta in Hfind. rewrite Hcreate, Hpr, Hid, Hpatch in Hfind.
  destruct (outputAnnotations_done w pacopts statusOpts slot Hsound)
    as [annotations Hann].
  exists checkrunoption,
    (calls (outputAnnotations w pacopts statusOpts slot)), annotations.
  cbv zeta. split.
  - unfold getOrUpdateCheckRunStatus.
    rewrite labelledCheckRunID_unlabelled
      by (intros pr' Hpr'; rewrite Hpr in Hpr'; now injection Hpr' as <-).
    rewrite (run_bind_result _ _ _ _ _ _ Hfind).
    rewrite (submitCheckRunStatus_run _ _ _ _ _ _ _ _ _ _ Hclient Hann).
    reflexivity.
  - repeat split; try assumption. apply outputAnnotations_calls.
Qed.

Lemma fresh_run_is_created_patched_updated_witness :
  exists checkrunoption extractor annotations,
    calls (getOrUpdateCheckRunStatus sample_world sample_provider (sample_event 1)
             sample_pacopts (sample_status (Some fresh_run) "completed" "failure") 0)
    = ([ListCheckRunsForRef "org" "repo" "0a1b2c" (ListCheckRunsOptions.Build (Some 1));
        CreateCheckRun "org" "repo" checkrunoption;
        PatchRun fresh_run
          {| MetadataPatch.labels :=
               {[ "pipelinesascode.tekton.dev/check-run-id" := "99" ]};
             MetadataPatch.annotations :=
               {[ "pipelinesascode.tekton.dev/log-url" := "https://console/pr-abc" ]} |}]
       ++ extractor
       ++ [UpdateCheckRun "org" "repo" 99
             (updateCheckRunOptions sample_world sample_pacopts
                (sample_status (Some fresh_run) "completed" "failure")
                annotations)])%list.
Proof.
  destruct (fresh_run_is_created_patched_updated sample_world sample_provider
              (sample_event 1) sample_pacopts
              (sample_status (Some fresh_run) "completed" "failure") 0
              sample_client fresh_run
              {| CheckRun.ID := Some 99; CheckRun.ExternalID := None;
                 CheckRun.Output := None |} 99
              eq_refl sample_world_sound eq_refl eq_refl eq_refl
              (fun _ => eq_refl) eq_refl (fun _ => eq_refl))
    as (checkrunoption & extractor & annotations & Hrun & _).
  exists checkrunoption, extractor, annotations.
  cbv zeta in Hrun. rewrite Hrun. reflexivity.
Defined.

(** X12: a refused creation ends the reconciliation.  When nothing is
    found and the hosting service refuses to create the check run, its
    error is returned after the two requests: the run is not patched,
    the logs are not read and no update is sent. *)
Theorem create_failure_is_returned (w : World.t) (v : Provider.t)
    (runevent : Event.t) (pacopts : PacOpts.t) (statusOpts : StatusOpts.t)
    (slot : Z) (client : Client.t) (err : error) :
  Provider.Client v = Some client ->
  (forall pr, StatusOpts.PipelineRun statusOpts = Some pr ->
              PipelineRun.GetLabels pr !! World.keys_CheckRunID w = None) ->
  listsNothing v client runevent ->
  (forall opts, Client.Checks_CreateCheckRun client (Event.Organization runevent)
                  (Event.Repository runevent) opts = inr err) ->
  exists checkrunoption,
    getOrUpdateCheckRunStatus w v runevent pacopts statusOpts slot
    = mkResult (Done (Some err)) slot
        [ListCheckRunsForRef (Event.Organization runevent)
           (Event.Repository runevent) (Event.SHA runevent)
           (ListCheckRunsOptions.Build (Provider.ApplicationID v));
         CreateCheckRun (Event.Organization runevent)
           (Event.Repository runevent) checkrunoption].
Proof.
  intros Hclient Hlabel Hnothing Hcreate.
  destruct (findOrCreateCheckRunID_nothing w v runevent pacopts statusOpts slot
              client Hclient Hnothing) as (checkrunoption & _ & _ & _ & _ & _ & _ & Hfind).
  cbv zeta in Hfind. rewrite Hcreate in Hfind.
  exists checkrunoption. unfold getOrUpdateCheckRunStatus.
  rewrite (labelledCheckRunID_unlabelled _ _ Hlabel).
  rewrite (run_bind_result _ _ _ _ _ _ Hfind). reflexivity.
Qed.

Lemma create_failure_is_returned_witness :
  exists checkrunoption,
    getOrUpdateCheckRunStatus sample_world (provider_of refusing_client)
      (sample_event 1) sample_pacopts
      (sample_status (Some fresh_run) "completed" "failure") 0
    = mkResult (Done (Some "403 Forbidden")) 0
        [ListCheckRunsForRef "org" "repo" "0a1b2c" (ListCheckRunsOptions.Build (Some 1));
         CreateCheckRun "org" "repo" checkrunoption].
Proof.
  apply (create_failure_is_returned sample_world (provider_of refusing_client)
           (sample_event 1) sample_pacopts
           (sample_status (Some fresh_run) "completed" "failure") 0
           refusing_client "403 Forbidden" eq_refl);
    [intros pr [= <-]; reflexivity | reflexivity | reflexivity].
Defined.

(** X13: a refused patch ends the reconciliation.  When the check run
    was created but the run cannot be patched, the error of the cluster
    is returned: the check run stays as it was created, no update is
    sent and the logs are not read. *)
Theorem patch_failure_is_returned (w : World.t) (v : Provider.t)
    (runevent : Event.t) (pacopts : PacOpts.t) (statusOpts : StatusOpts.t)
    (slot : Z) (client : Client.t) (pr : PipelineRun.t) (checkRun : CheckRun.t)
    (id : Z) (err : error) :
  Provider.Client v = Some client ->
  StatusOpts.PipelineRun statusOpts = Some pr ->
  PipelineRun.GetLabels pr !! World.keys_CheckRunID w = None ->
  listsNothing v client runevent ->
  (forall opts, Client.Checks_CreateCheckRun client (Event.Organization runevent)
                  (Event.Repository runevent) opts = inl checkRun) ->
  CheckRun.ID checkRun = Some id ->
  (forall patch, World.PatchPipelineRun w pr patch = Some err) ->
  let r := getOrUpdateCheckRunStatus w v runevent pacopts statusOpts slot in
  outcome r = Done (Some err)
  /\ skippedRun_checkRunID r = slot
  /\ updateCheckRunCalls (calls r) = []
  /\ Forall (fun c => isExtractorCall c = false) (calls r)
  /\ patchRunCalls (calls r)
     = [(pr, {| MetadataPatch.labels :=
                  {[ World.keys_CheckRunID w := strconv_FormatInt id ]};
                MetadataPatch.annotations :=
                  {[ World.keys_LogURL w := StatusOpts.DetailsURL statusOpts ]} |})].
Proof.
  intros Hclient Hpr Hlabel Hnothing Hcreate Hid Hpatch. cbv zeta.
  destruct (findOrCreateCheckRunID_nothing w v runevent pacopts statusOpts slot
              client Hclient Hnothing) as (checkrunoption & _ & _ & _ & _ & _ & _ & Hfind).
  cbv zeta in Hfind. rewrite Hcreate, Hpr, Hid, Hpatch in Hfind.
  unfold getOrUpdateCheckRunStatus.
  rewrite labelledCheckRunID_unlabelled
    by (intros pr' Hpr'; rewrite Hpr in Hpr'; now injection Hpr' as <-).
  rewrite (run_bind_result _ _ _ _ _ _ Hfind). cbn.
  repeat split; repeat constructor.
Qed.

Lemma patch_failure_is_returned_witness :
  outcome (getOrUpdateCheckRunStatus readonly_world sample_provider
             (sample_event 1) sample_pacopts
             (sample_status (Some fresh_run) "completed" "failure") 0)
  = Done (Some "pipelineruns is forbidden").
Proof.
  apply (patch_failure_is_returned readonly_world sample_provider
           (sample_event 1) sample_pacopts
           (sample_status (Some fresh_run) "completed" "failure") 0
           sample_client fresh_run
           {| CheckRun.ID := Some 99; CheckRun.ExternalID := None;
              CheckRun.Output := None |} 99 "pipelineruns is forbidden"
           eq_refl eq_refl eq_refl eq_refl (fun _ => eq_refl) eq_refl
           (fun _ => eq_refl)).
Defined.

(** ** Unguarded dereferences *)

(** X14: a check run that the hosting service creates without an id
    makes the reconciliation panic on the nil id, with or without a run
    object; no update is sent and the run is not patched. *)
Theorem created_without_id_panics (w : World.t) (v : Provider.t)
    (runevent : Event.t) (pacopts : PacOpts.t) (statusOpts : StatusOpts.t)
    (slot : Z) (client : Client.t) (checkRun : CheckRun.t) :
  Provider.Client v = Some client ->
  (forall pr, StatusOpts.PipelineRun statusOpts = Some pr ->
              PipelineRun.GetLabels pr !! World.keys_CheckRunID w = None) ->
  listsNothing v client runevent ->
  (forall opts, Client.Checks_CreateCheckRun client (Event.Organization runevent)
                  (Event.Repository runevent) opts = inl checkRun) ->
  CheckRun.ID checkRun = None ->
  let r := getOrUpdateCheckRunStatus w v runevent pacopts statusOpts slot in
  outcome r = Panicked NilDereference
  /\ updateCheckRunCalls (calls r) = []
  /\ patchRunCalls (calls r) = [].
Proof.
  intros Hclient Hlabel Hnothing Hcreate Hid. cbv zeta.
  destruct (findOrCreateCheckRunID_nothing w v runevent pacopts statusOpts slot
              client Hclient Hnothing) as (checkrunoption & _ & _ & _ & _ & _ & _ & Hfind).
  cbv zeta in Hfind. rewrite Hcreate, Hid in Hfind.
  unfold getOrUpdateCheckRunStatus.
  rewrite (labelledCheckRunID_unlabelled _ _ Hlabel).
  destruct (StatusOpts.PipelineRun statusOpts) as [pr|] eqn:Hpr.
  - rewrite run_bind_panicked with (p := NilDereference) by (now rewrite Hfind).
    rewrite Hfind. repeat split.
  - rewrite (run_bind_result _ _ _ _ _ _ Hfind). cbv beta iota.
    unfold submitCheckRunStatus.
    rewrite (run_bind_result _ _ _ _ _ _
               (outputAnnotations_off w pacopts statusOpts slot (or_introl Hpr))).
    cbv zeta. rewrite Hclient. repeat split.
Qed.

Lemma created_without_id_panics_witness :
  outcome (getOrUpdateCheckRunStatus sample_world (provider_of anonymous_client)
             (sample_event 1) sample_pacopts
             (sample_status (Some fresh_run) "completed" "failure") 0)
  = Panicked NilDereference.
Proof.
  apply (created_without_id_panics sample_world (provider_of anonymous_client)
           (sample_event 1) sample_pacopts
           (sample_status (Some fresh_run) "completed" "failure") 0
           anonymous_client
           {| CheckRun.ID := None; CheckRun.ExternalID := None;
              CheckRun.Output := None |} eq_refl);
    [intros pr [= <-]; reflexivity | reflexivity | reflexivity | reflexivity].
Defined.

(** X15: the discovery reads the listing unguarded.  A listing without
    a total makes it panic; so does, in a listing that is not empty, the
    first check run that is nil or has no external id, when those before
    it are passed over and it is not claimed.  The registry is left as
    it was. *)
Theorem discovery_dereferences_unguarded (v : Provider.t) (runevent : Event.t)
    (status : StatusOpts.t) (slot : Z) (client : Client.t)
    (res : ListCheckRunsResults.t) :
  Provider.Client v = Some client ->
  listedCheckRuns v client runevent = inl res ->
  let r := getExistingCheckRunID v runevent status slot in
  (ListCheckRunsResults.Total res = None ->
   outcome r = Panicked NilDereference /\ skippedRun_checkRunID r = slot)
  /\ (forall total pre checkrun post,
        ListCheckRunsResults.Total res = Some total ->
        total <> 0 ->
        ListCheckRunsResults.CheckRuns res = (pre ++ checkrun :: post)%list ->
        Forall (passedOver (StatusOpts.PipelineRunName status) slot) pre ->
        slot <> 0 \/ isSkippedCheckrun checkrun = false ->
        checkrun = None
        \/ (exists run, checkrun = Some run /\ CheckRun.ExternalID run = None) ->
        outcome r = Panicked NilDereference /\ skippedRun_checkRunID r = slot).
Proof.
  intros Hclient Hlist. cbv zeta. split.
  - intros Htotal. unfold getExistingCheckRunID. cbv zeta. rewrite Hclient.
    unfold listedCheckRuns in Hlist.
    rewrite (run_bind_nil _ _ slot slot client) by reflexivity.
    rewrite (run_bind_result _ _ slot slot tt
               [ListCheckRunsForRef (Event.Organization runevent)
                  (Event.Repository runevent) (Event.SHA runevent)
                  (ListCheckRunsOptions.Build (Provider.ApplicationID v))])
      by reflexivity.
    rewrite Hlist, Htotal. split; reflexivity.
  - intros total pre checkrun post Htotal Hne Hruns Hpre Hkeep Hnil.
    rewrite (getExistingCheckRunID_listed _ _ _ _ _ _ _ Hclient Hlist Htotal Hne).
    cbv zeta. rewrite Hruns, (getExistingCheckRunID_range_passes _ _ _ _ Hpre).
    cbn [getExistingCheckRunID_range].
    rewrite (run_bind_nil _ _ slot slot false (claim_refused _ _ Hkeep)).
    destruct Hnil as [->|(run & -> & Hext)]; [split; reflexivity|].
    rewrite (run_bind_nil _ _ slot slot run) by reflexivity.
    rewrite run_bind_panicked with (p := NilDereference) by (now rewrite Hext).
    rewrite Hext. split; reflexivity.
Qed.

Lemma discovery_dereferences_unguarded_witness :
  outcome (getExistingCheckRunID
             (provider_of (listing_client
                             [named_checkrun 6 "pr-xyz"; None;
                              named_checkrun 7 "pr-abc"]))
             (sample_event 1) (sample_status None "completed" "success") 0)
  = Panicked NilDereference.
Proof.
  apply (proj2 (discovery_dereferences_unguarded
                  (provider_of (listing_client
                                  [named_checkrun 6 "pr-xyz"; None;
                                   named_checkrun 7 "pr-abc"]))
                  (sample_event 1) (sample_status None "completed" "success") 0
                  _ _ eq_refl eq_refl)
           3 [named_checkrun 6 "pr-xyz"] None [named_checkrun 7 "pr-abc"]);
    [reflexivity | lia | reflexivity | passed_over_tac | right; reflexivity
    | left; reflexivity].
Defined.

(** ** What every request is about *)

Lemma titledStatusOpts_getCheckName (pacopts : PacOpts.t)
    (statusOpts : StatusOpts.t) :
  getCheckName (titledStatusOpts pacopts statusOpts) pacopts
  = getCheckName statusOpts pacopts.
Proof.
  assert (H : StatusOpts.OriginalPipelineRunName (titledStatusOpts pacopts statusOpts)
              = StatusOpts.OriginalPipelineRunName statusOpts).
  { unfold titledStatusOpts. cbv zeta.
    destruct (String.eqb (StatusOpts.Conclusion statusOpts) "success");
      [|destruct (String.eqb (StatusOpts.Conclusion statusOpts) "failure");
        [|destruct (String.eqb (StatusOpts.Conclusion statusOpts) "skipped");
          [|destruct (String.eqb (StatusOpts.Conclusion statusOpts) "neutral")]]];
      status_simpl;
      destruct (String.eqb (StatusOpts.Status statusOpts) "in_progress");
      reflexivity. }
  unfold getCheckName. now rewrite H.
Qed.

Lemma commitStatusOpts_getCheckName (pacopts : PacOpts.t) (status : StatusOpts.t) :
  getCheckName (commitStatusOpts status) pacopts = getCheckName status pacopts.
Proof.
  destruct (commitStatusOpts_frame status) as (_ & _ & _ & _ & _ & H).
  unfold getCheckName. now rewrite H.
Qed.

Ltac reports_tac :=
  repeat first
    [ apply Forall_calls_ret | apply Forall_calls_deref
    | apply Forall_calls_call; cbn; repeat split; reflexivity
    | apply Forall_calls_bind; [|intros]
    | match goal with
      | |- Forall _ (calls ((match ?x with _ => _ end) _)) => destruct x
      | |- Forall _ (calls (panic _ _)) => constructor
      end ].

Lemma extractor_calls_report_nothing (runevent : Event.t) (name : string)
    (cs : list Call) :
  Forall (fun c => isExtractorCall c = true) cs ->
  Forall (reportsOn runevent name) cs.
Proof.
  intros H. eapply Forall_impl; [exact H|].
  intros c Hc. destruct c; try discriminate; exact I.
Qed.

Lemma getOrUpdateCheckRunStatus_reportsOn (w : World.t) (v : Provider.t)
    (runevent : Event.t) (pacopts : PacOpts.t) (statusOpts : StatusOpts.t) slot :
  Forall (reportsOn runevent (getCheckName statusOpts pacopts))
    (calls (getOrUpdateCheckRunStatus w v runevent pacopts statusOpts slot)).
Proof.
  unfold getOrUpdateCheckRunStatus.
  destruct (labelledCheckRunID w statusOpts) as [[found checkRunID]|err];
    [|constructor].
  apply Forall_calls_bind.
  - destruct found; [constructor|].
    unfold findOrCreateCheckRunID.
    apply Forall_calls_bind.
    + unfold getExistingCheckRunID. cbv zeta. reports_tac.
      apply getExistingCheckRunID_range_calls.
    + intros [existing err] slot'. apply Forall_calls_bind.
      * destruct existing; [constructor|].
        apply Forall_calls_bind.
        -- unfold createCheckRunStatus. cbv zeta. reports_tac.
        -- intros [checkRunID' err'] slot''. destruct err'; constructor.
      * intros created slot''. unfold metadataPatch. reports_tac.
  - intros [checkRunID'|err] slot'; [|constructor].
    unfold submitCheckRunStatus. apply Forall_calls_bind.
    + apply extractor_calls_report_nothing, outputAnnotations_calls.
    + intros annotations slot''. cbv zeta. reports_tac.
Qed.

Lemma createStatusCommit_reportsOn (w : World.t) (v : Provider.t)
    (runevent : Event.t) (pacopts : PacOpts.t) (status : StatusOpts.t) slot :
  Forall (reportsOn runevent (getCheckName status pacopts))
    (calls (createStatusCommit w v runevent pacopts status slot)).
Proof.
  unfold createStatusCommit. cbv zeta.
  rewrite <- (commitStatusOpts_getCheckName pacopts status) at 1.
  reports_tac.
Qed.

(** X16: every request that [CreateStatus] makes is about the event it
    was given.  In both modes and on every path, the requests to the
    hosting service name the organization and repository of the event;
    listings, creations and flat statuses name its commit, comments its
    pull request; and what is created, updated or posted as a status
    carries one name, the check name of the status as the caller gave
    it. *)
Theorem requests_concern_the_event (w : World.t) (v : Provider.t)
    (runevent : Event.t) (pacopts : PacOpts.t) (statusOpts : StatusOpts.t)
    (slot : Z) :
  Forall (reportsOn runevent (getCheckName statusOpts pacopts))
    (calls (CreateStatus w v runevent pacopts statusOpts slot)).
Proof.
  unfold CreateStatus. destruct (Provider.Client v); [|constructor].
  cbv zeta. rewrite <- (titledStatusOpts_getCheckName pacopts statusOpts).
  destruct (Event.InstallationID runevent >? 0).
  - apply getOrUpdateCheckRunStatus_reportsOn.
  - apply createStatusCommit_reportsOn.
Qed.

(** ** What a nil error means *)

(** X17: [CreateStatus] returns no error only when the hosting service
    accepted what it was sent.  In check-run mode the last request is
    then the one update of the run, and it was accepted; in commit-status
    mode the first request is the flat status, it was accepted, and so
    was every comment posted after it. *)
Theorem success_means_accepted (w : World.t) (v : Provider.t)
    (runevent : Event.t) (pacopts : PacOpts.t) (statusOpts : StatusOpts.t)
    (slot : Z) :
  outcome (CreateStatus w v runevent pacopts statusOpts slot) = Done None ->
  exists client,
    Provider.Client v = Some client
    /\ (Event.InstallationID runevent > 0 ->
        exists before id opts,
          calls (CreateStatus w v runevent pacopts statusOpts slot)
          = (before ++ [UpdateCheckRun (Event.Organization runevent)
                          (Event.Repository runevent) id opts])%list
          /\ updateCheckRunCalls before = []
          /\ Client.Checks_UpdateCheckRun client (Event.Organization runevent)
               (Event.Repository runevent) id opts = None)
    /\ (Event.InstallationID runevent <= 0 ->
        exists status rest,
          calls (CreateStatus w v runevent pacopts statusOpts slot)
          = CreateRepoStatus (Event.Organization runevent)
              (Event.Repository runevent) (Event.SHA runevent) status :: rest
          /\ Client.Repositories_CreateStatus client (Event.Organization runevent)
               (Event.Repository runevent) (Event.SHA runevent) status = None
          /\ Forall
               (fun comment =>
                  Client.Issues_CreateComment client (Event.Organization runevent)
                    (Event.Repository runevent) comment.1 comment.2 = None)
               (createCommentCalls rest)).
Proof.
  unfold CreateStatus. destruct (Provider.Client v) as [client|] eqn:Hclient;
    [|discriminate].
  cbv zeta. intros Hdone. exists client. split; [reflexivity|].
  set (titled := titledStatusOpts pacopts statusOpts) in *.
  destruct (Z.gtb_spec (Event.InstallationID runevent) 0) as [Hpos|Hnonpos];
    [split; [intros _ | lia] | split; [lia | intros _]].
  - revert Hdone. unfold getOrUpdateCheckRunStatus.
    destruct (labelledCheckRunID w titled) as [[found checkRunID]|err];
      [|discriminate].
    match goal with
    | |- context [outcome ((?resolve ≫= _) slot)] =>
        assert (Hlook : Forall (fun x => isLookupCall x = true)
                          (calls (resolve slot)))
          by (destruct found; [constructor | apply findOrCreateCheckRunID_calls]);
        destruct (outcome (resolve slot)) as [[resolved|err]|p] eqn:Hresolve;
        [rewrite (run_bind_done _ _ _ _ Hresolve)
        |rewrite (run_bind_done _ _ _ _ Hresolve); discriminate
        |rewrite (run_bind_panicked _ _ _ _ Hresolve); discriminate];
        set (lookup := resolve slot) in *
    end.
    cbn [outcome calls]. unfold submitCheckRunStatus.
    destruct (outcome (outputAnnotations w pacopts titled
                         (skippedRun_checkRunID lookup)))
      as [annotations|p] eqn:Hann.
    2:{ rewrite (run_bind_panicked _ _ _ _ Hann). discriminate. }
    rewrite (run_bind_done _ _ _ _ Hann). cbv zeta. rewrite Hclient.
    destruct resolved as [id|]; [|discriminate].
    go_run. intros [= Hanswer].
    exists (calls lookup
            ++ calls (outputAnnotations w pacopts titled
                        (skippedRun_checkRunID lookup)))%list,
      id, (updateCheckRunOptions w pacopts titled annotations).
    split; [now rewrite app_assoc|]. split; [|exact Hanswer].
    unfold updateCheckRunCalls. rewrite omap_app.
    fold (updateCheckRunCalls (calls lookup)).
    fold (updateCheckRunCalls
            (calls (outputAnnotations w pacopts titled
                      (skippedRun_checkRunID lookup)))).
    rewrite (proj1 (lookup_calls_no_update _ Hlook)),
      (extractor_calls_no_update _ (outputAnnotations_calls _ _ _ _)).
    reflexivity.
  - revert Hdone. unfold createStatusCommit. cbv zeta. rewrite Hclient. go_run.
    destruct (Client.Repositories_CreateStatus client _ _ _ _) eqn:Hstatus;
      [discriminate|].
    match goal with |- context [if ?b then _ else _] => destruct b end; cbn.
    + destruct (Client.Issues_CreateComment client _ _ _ _) eqn:Hcomment;
        [discriminate|].
      intros _. eexists _, _. split; [reflexivity|]. split; [exact Hstatus|].
      cbn. constructor; [exact Hcomment | constructor].
    + intros _. eexists _, _. split; [reflexivity|]. split; [exact Hstatus|].
      constructor.
Qed.

Lemma success_means_accepted_witness :
  exists before id opts,
    calls (CreateStatus sample_world sample_provider (sample_event 1)
             sample_pacopts
             (sample_status (Some (sample_run false)) "completed" "success") 0)
    = (before ++ [UpdateCheckRun "org" "repo" id opts])%list
    /\ updateCheckRunCalls before = [].
Proof.
  destruct (success_means_accepted sample_world sample_provider (sample_event 1)
              sample_pacopts
              (sample_status (Some (sample_run false)) "completed" "success") 0
              ltac:(vm_compute; reflexivity))
    as (client & _ & Hcheck & _).
  destruct (Hcheck ltac:(cbn; lia)) as (before & id & opts & Hcalls & Hnone & _).
  exists before, id, opts. split; [exact Hcalls | exact Hnone].
Defined.

(** ** When the extractor gives up *)

(** X18: a pattern that does not compile, or a cluster that cannot be
    reached, does not stop the report.  For a run that carries its
    check-run id, with error detection on, the failure is logged, the
    logs are not read, and the update is sent all the same, with an
    empty list of annotations; its answer is what is returned. *)
Theorem extractor_failure_still_reports (w : World.t) (v : Provider.t)
    (runevent : Event.t) (pacopts : PacOpts.t) (statusOpts : StatusOpts.t)
    (slot : Z) (client : Client.t) (pr : PipelineRun.t) (label : string)
    (id : Z) :
  Provider.Client v = Some client ->
  StatusOpts.PipelineRun statusOpts = Some pr ->
  PipelineRun.GetLabels pr !! World.keys_CheckRunID w = Some label ->
  strconv_Atoi label = Some id ->
  PacOpts.ErrorDetection pacopts = true ->
  let pattern := PacOpts.ErrorDetectionSimpleRegexp pacopts in
  let opts := updateCheckRunOptions w pacopts statusOpts (Some []) in
  let update :=
    UpdateCheckRun (Event.Organization runevent) (Event.Repository runevent)
      id opts in
  let answer :=
    Client.Checks_UpdateCheckRun client (Event.Organization runevent)
      (Event.Repository runevent) id opts in
  (World.regexp_Compile w pattern = None ->
   getOrUpdateCheckRunStatus w v runevent pacopts statusOpts slot
   = mkResult (Done answer) slot [Errorf (LogInvalidRegexp pattern); update])
  /\ (forall r err,
        World.regexp_Compile w pattern = Some r ->
        World.NewKubernetesInteraction w = Some err ->
        getOrUpdateCheckRunStatus w v runevent pacopts statusOpts slot
        = mkResult (Done answer) slot
            [Errorf (LogKubeInteractionFailed err); update]).
Proof.
  intros Hclient Hpr Hlabel Hatoi Hdetect. cbv zeta.
  assert (Hlab : labelledCheckRunID w statusOpts = inl (true, Some id)).
  { unfold labelledCheckRunID. now rewrite Hpr, Hlabel, Hatoi. }
  split.
  - intros Hcompile.
    assert (Hann : outputAnnotations w pacopts statusOpts slot
                   = mkResult (Done (Some [])) slot
                       [Errorf (LogInvalidRegexp
                                  (PacOpts.ErrorDetectionSimpleRegexp pacopts))]).
    { unfold outputAnnotations, getFailuresMessageAsAnnotations.
      rewrite Hpr, Hdetect. cbv zeta. rewrite Hcompile. reflexivity. }
    unfold getOrUpdateCheckRunStatus. rewrite Hlab.
    rewrite (run_bind_nil _ _ slot slot (inl (Some id))) by reflexivity.
    cbv beta iota.
    rewrite (submitCheckRunStatus_run _ _ _ _ _ _ _ _ _ _ Hclient Hann).
    reflexivity.
  - intros r err Hcompile Hkube.
    assert (Hann : outputAnnotations w pacopts statusOpts slot
                   = mkResult (Done (Some [])) slot
                       [Errorf (LogKubeInteractionFailed err)]).
    { unfold outputAnnotations, getFailuresMessageAsAnnotations.
      rewrite Hpr, Hdetect. cbv zeta. rewrite Hcompile, Hkube. reflexivity. }
    unfold getOrUpdateCheckRunStatus. rewrite Hlab.
    rewrite (run_bind_nil _ _ slot slot (inl (Some id))) by reflexivity.
    cbv beta iota.
    rewrite (submitCheckRunStatus_run _ _ _ _ _ _ _ _ _ _ Hclient Hann).
    reflexivity.
Qed.

Lemma extractor_failure_still_reports_witness :
  let statusOpts := sample_status (Some (sample_run false)) "completed" "failure" in
  let opts := updateCheckRunOptions patternless_world sample_pacopts statusOpts
                (Some []) in
  getOrUpdateCheckRunStatus patternless_world sample_provider (sample_event 1)
    sample_pacopts statusOpts 0
  = mkResult (Done None) 0
      [Errorf (LogInvalidRegexp sample_pattern);
       UpdateCheckRun "org" "repo" 4711 opts].
Proof.
  cbv zeta.
  apply (proj1 (extractor_failure_still_reports patternless_world sample_provider
                  (sample_event 1) sample_pacopts
                  (sample_status (Some (sample_run false)) "completed" "failure")
                  0 sample_client (sample_run false) "4711" 4711
                  eq_refl eq_refl eq_refl eq_refl eq_refl)).
  reflexivity.
Defined.

(** ** A run whose check run is found *)

(** X19: a discovered check run is adopted, not duplicated.  For a run
    without the check-run label, when the discovery returns an id after
    its one listing, no check run is created: the id found is written to
    the run with the log URL, the logs are read, and that check run is
    updated, the registry staying as the discovery left it. *)
Theorem discovered_check_run_is_adopted (w : World.t) (v : Provider.t)
    (runevent : Event.t) (pacopts : PacOpts.t) (statusOpts : StatusOpts.t)
    (slot slot' : Z) (client : Client.t) (pr : PipelineRun.t) (id : Z)
    (err : option error) :
  Provider.Client v = Some client ->
  regexpSound w ->
  StatusOpts.PipelineRun statusOpts = Some pr ->
  PipelineRun.GetLabels pr !! World.keys_CheckRunID w = None ->
  let listing :=
    ListCheckRunsForRef (Event.Organization runevent)
      (Event.Repository runevent) (Event.SHA runevent)
      (ListCheckRunsOptions.Build (Provider.ApplicationID v)) in
  getExistingCheckRunID v runevent statusOpts slot
  = mkResult (Done (Some id, err)) slot' [listing] ->
  (forall patch, World.PatchPipelineRun w pr patch = None) ->
  exists extractor annotations,
    let opts := updateCheckRunOptions w pacopts statusOpts annotations in
    getOrUpdateCheckRunStatus w v runevent pacopts statusOpts slot
    = mkResult
        (Done (Client.Checks_UpdateCheckRun client (Event.Organization runevent)
                 (Event.Repository runevent) id opts))
        slot'
        ([listing;
          PatchRun pr
            {| MetadataPatch.labels :=
                 {[ World.keys_CheckRunID w := strconv_FormatInt id ]};
               MetadataPatch.annotations :=
                 {[ World.keys_LogURL w := StatusOpts.DetailsURL statusOpts ]} |}]
         ++ extractor
         ++ [UpdateCheckRun (Event.Organization runevent)
               (Event.Repository runevent) id opts])
    /\ Forall (fun c => isExtractorCall c = true) extractor.
Proof.
  intros Hclient Hsound Hpr Hlabel. cbv zeta. intros Hfound Hpatch.
  destruct (outputAnnotations_done w pacopts statusOpts slot' Hsound)
    as [annotations Hann].
  exists (calls (outputAnnotations w pacopts statusOpts slot')), annotations.
  cbv zeta. split; [|apply outputAnnotations_calls].
  unfold getOrUpdateCheckRunStatus.
  rewrite labelledCheckRunID_unlabelled
    by (intros pr' Hpr'; rewrite Hpr in Hpr'; now injection Hpr' as <-).
  assert (Hresolve :
    findOrCreateCheckRunID w v runevent pacopts statusOpts slot
    = mkResult (Done (inl (Some id))) slot'
        [ListCheckRunsForRef (Event.Organization runevent)
           (Event.Repository runevent) (Event.SHA runevent)
           (ListCheckRunsOptions.Build (Provider.ApplicationID v));
         PatchRun pr
           {| MetadataPatch.labels :=
                {[ World.keys_CheckRunID w := strconv_FormatInt id ]};
              MetadataPatch.annotations :=
                {[ World.keys_LogURL w := StatusOpts.DetailsURL statusOpts ]} |}]).
  { unfold findOrCreateCheckRunID.
    rewrite (run_bind_result _ _ _ _ _ _ Hfound). cbv beta iota.
    rewrite Hpr. unfold metadataPatch. go_run. rewrite Hpatch. reflexivity. }
  rewrite (run_bind_result _ _ _ _ _ _ Hresolve). cbv beta iota.
  rewrite (submitCheckRunStatus_run _ _ _ _ _ _ _ _ _ _ Hclient Hann).
  reflexivity.
Qed.

Lemma discovered_check_run_is_adopted_witness :
  exists extractor annotations,
    calls (getOrUpdateCheckRunStatus sample_world
             (provider_of (listing_client [named_checkrun 7 "pr-abc"]))
             (sample_event 1) sample_pacopts
             (sample_status (Some fresh_run) "completed" "failure") 0)
    = ([ListCheckRunsForRef "org" "repo" "0a1b2c" (ListCheckRunsOptions.Build (Some 1));
        PatchRun fresh_run
          {| MetadataPatch.labels :=
               {[ "pipelinesascode.tekton.dev/check-run-id" := "7" ]};
             MetadataPatch.annotations :=
               {[ "pipelinesascode.tekton.dev/log-url" := "https://console/pr-abc" ]} |}]
       ++ extractor
       ++ [UpdateCheckRun "org" "repo" 7
             (updateCheckRunOptions sample_world sample_pacopts
                (sample_status (Some fresh_run) "completed" "failure")
                annotations)])%list.
Proof.
  destruct (discovered_check_run_is_adopted sample_world
              (provider_of (listing_client [named_checkrun 7 "pr-abc"]))
              (sample_event 1) sample_pacopts
              (sample_status (Some fresh_run) "completed" "failure") 0 0
              (listing_client [named_checkrun 7 "pr-abc"]) fresh_run 7 None
              eq_refl sample_world_sound eq_refl eq_refl eq_refl
              (fun _ => eq_refl))
    as (extractor & annotations & Hrun & _).
  exists extractor, annotations. cbv zeta in Hrun. rewrite Hrun. reflexivity.
Defined.
